(** * LightDiffusion extension: request builder, response normalizer, prompt extractor

    A shallow embedding of [src/lightdiffusion.py] (class
    [LightDiffusionExtension] and the parts of [ImageGeneratorWidget] it
    calls), followed by the properties of the specification.

    Conventions of the embedding.
    - A Python [str] is a [string] whose characters are the code points
      below 256; the character classes below ([py_isspace], [py_isword],
      [py_lower_char]) are Python's on that range.
    - A Python value is a [pyval]; a [dict] with string keys is a
      [gmap string pyval] (JSON objects and the request payload).
    - A Python [float] is a binary64 value, [spec_float].
    - Exceptions are values of [exn] carrying [str(e)]; a computation that
      may raise returns a [res].
    - [generate_image] runs in a small state-and-exception monad whose state
      is the list of the calls made to the outside (print, HTTP, widget,
      file system) and the widget's [current_url].  What the outside answers
      is read from a [world].
    - [self.get_setting] is a read without effect; [print] and
      [traceback.print_exc] do not raise; every other call into GTK, the file
      system or the network may raise, as the [world] decides.
    - A run is the synchronous execution of [generate_image].  What the
      loader threads and the GTK idle callbacks do afterwards is not part of
      it; an event records that such work was started, and with which
      arguments. *)

From Stdlib Require Import ZArith String Ascii List Bool Lia.
From Stdlib Require Import Floats.SpecFloat.
From Stdlib Require Import DecimalString.
From stdpp Require Import base option gmap strings list fin_maps.

Set Warnings "-register-all".
Open Scope Z_scope.

(* ===================================================================== *)
(** ** Characters and strings, as Python sees them *)
(* ===================================================================== *)

Module PyStr.

Definition code (c : ascii) : N := N_of_ascii c.

(** [str.isspace] on one character (also the class [\s] of [re]). *)
Definition py_isspace (c : ascii) : bool :=
  let n := code c in
  ((9 <=? n) && (n <=? 13) || (28 <=? n) && (n <=? 32)
   || (n =? 133) || (n =? 160))%N.

(** ASCII decimal digit, the only decimal digits below 256. *)
Definition digit_of (c : ascii) : option Z :=
  let n := code c in
  if ((48 <=? n) && (n <=? 57))%N then Some (Z.of_N n - 48) else None.

Definition is_upper_ascii (c : ascii) : bool :=
  let n := code c in ((65 <=? n) && (n <=? 90))%N.

Definition is_lower_ascii (c : ascii) : bool :=
  let n := code c in ((97 <=? n) && (n <=? 122))%N.

(** The class [\w] of [re] on str patterns: [str.isalnum] or underscore. *)
Definition py_isword (c : ascii) : bool :=
  let n := code c in
  (is_upper_ascii c || is_lower_ascii c || (48 <=? n) && (n <=? 57)
   || (n =? 95)
   || (n =? 170) || (n =? 178) || (n =? 179) || (n =? 181) || (n =? 185)
   || (n =? 186) || (188 <=? n) && (n <=? 190)
   || (192 <=? n) && (n <=? 214) || (216 <=? n) && (n <=? 246)
   || (248 <=? n))%N.

(** [str.lower] on one character. *)
Definition py_lower_char (c : ascii) : ascii :=
  let n := code c in
  if (is_upper_ascii c || (192 <=? n) && (n <=? 222) && negb (n =? 215))%N
  then ascii_of_N (n + 32) else c.

Fixpoint lower (s : string) : string :=
  match s with
  | EmptyString => EmptyString
  | String c r => String (py_lower_char c) (lower r)
  end.

Definition is_empty (s : string) : bool :=
  match s with EmptyString => true | String _ _ => false end.

(** [s.lstrip(chars)] and [s.rstrip(chars)], the set of characters given as a
    predicate. *)
Fixpoint lstrip_by (p : ascii -> bool) (s : string) : string :=
  match s with
  | EmptyString => EmptyString
  | String c r => if p c then lstrip_by p r else s
  end.

Fixpoint rstrip_by (p : ascii -> bool) (s : string) : string :=
  match s with
  | EmptyString => EmptyString
  | String c r =>
      let r' := rstrip_by p r in
      if is_empty r' && p c then EmptyString else String c r'
  end.

Definition lstrip : string -> string := lstrip_by py_isspace.
Definition rstrip : string -> string := rstrip_by py_isspace.

(** [s.strip()] *)
Definition strip (s : string) : string := lstrip (rstrip s).

(** [s.rstrip("/")] *)
Definition rstrip_slash : string -> string :=
  rstrip_by (fun c => Ascii.eqb c "/"%char).

(** [s.startswith(p)] *)
Definition startswith (p s : string) : bool := String.prefix p s.

(** [s.endswith(p)] *)
Fixpoint endswith (p s : string) : bool :=
  match s with
  | EmptyString => is_empty p
  | String _ r => String.eqb s p || endswith p r
  end.

(** [sub in s] for two strings *)
Fixpoint contains (sub s : string) : bool :=
  match s with
  | EmptyString => is_empty sub
  | String _ r => String.prefix sub s || contains sub r
  end.

(** [s[n:]] and [s[:n]] for [n >= 0]; [s[:-n]] *)
Fixpoint drop (n : nat) (s : string) : string :=
  match n, s with
  | O, _ => s
  | S _, EmptyString => EmptyString
  | S k, String _ r => drop k r
  end.

Fixpoint take (n : nat) (s : string) : string :=
  match n, s with
  | O, _ => EmptyString
  | S _, EmptyString => EmptyString
  | S k, String c r => String c (take k r)
  end.

Definition drop_end (n : nat) (s : string) : string :=
  take (String.length s - n) s.

(** [s.replace(old, new)] for a non-empty [old]: every occurrence, scanning
    from the left, occurrences do not overlap.  [fuel] bounds the number of
    characters still to be read. *)
Fixpoint replace_go (fuel : nat) (old new s : string) : string :=
  match fuel with
  | O => s
  | S k =>
      match s with
      | EmptyString => EmptyString
      | String c r =>
          if String.prefix old s
          then new +:+ replace_go k old new (drop (String.length old) s)
          else String c (replace_go k old new r)
      end
  end.

Definition replace (old new s : string) : string :=
  replace_go (String.length s) old new s.

(** [s.split(sep, 1)[1]] for a one-character separator that occurs in [s]:
    what follows the first occurrence. *)
Fixpoint after_first (sep : ascii) (s : string) : string :=
  match s with
  | EmptyString => EmptyString
  | String c r => if Ascii.eqb c sep then r else after_first sep r
  end.

(** [str(z)] for an integer *)
Definition string_of_Z (z : Z) : string := NilZero.string_of_int (Z.to_int z).

(** The digits of [int(s)]: decimal digits, single underscores allowed
    between two digits. *)
Fixpoint parse_digits (acc : Z) (after_digit : bool) (s : string) : option Z :=
  match s with
  | EmptyString => if after_digit then Some acc else None
  | String c r =>
      match digit_of c with
      | Some d => parse_digits (acc * 10 + d) true r
      | None =>
          if Ascii.eqb c "_"%char && after_digit
          then parse_digits acc false r
          else None
      end
  end.

(** The whitespace [int()] and [float()] drop around a number: the ASCII
    whitespace of C, and the two other whitespace characters above 127 *)
Definition int_isspace (c : ascii) : bool :=
  let n := code c in
  ((9 <=? n) && (n <=? 13) || (n =? 32) || (n =? 133) || (n =? 160))%N.

(** [int(s)] for a string, base 10: surrounding whitespace is dropped, one
    sign is allowed.  [None] is Python's [ValueError]. *)
Definition parse_int (s : string) : option Z :=
  match lstrip_by int_isspace (rstrip_by int_isspace s) with
  | String "-" r => option_map Z.opp (parse_digits 0 false r)
  | String "+" r => parse_digits 0 false r
  | t => parse_digits 0 false t
  end.

End PyStr.

Import PyStr.

(* ===================================================================== *)
(** ** Python values, exceptions and the built-in coercions *)
(* ===================================================================== *)

Inductive pyval : Type :=
| VNone
| VBool (b : bool)
| VInt (z : Z)
| VFloat (f : spec_float)
| VStr (s : string)
| VList (l : list pyval)
| VDict (d : gmap string pyval).

(** The subclasses of [Exception] the code meets.  The text is what [str(e)]
    gives; for the errors of built-ins it is a description, not CPython's
    wording.  [Failure] is an error raised outside this file (HTTP, GTK, the
    file system, a decoder). *)
Inductive exn : Type :=
| TypeError (text : string)
| ValueError (text : string)
| AttributeError (text : string)
| OverflowError (text : string)
| Failure (text : string).

Definition exn_str (e : exn) : string :=
  match e with
  | TypeError t | ValueError t | AttributeError t | OverflowError t
  | Failure t => t
  end.

Inductive res (A : Type) : Type :=
| Ok (a : A)
| Raise (e : exn).
Arguments Ok {A} a.
Arguments Raise {A} e.

Module Py.

(** binary64 *)
Definition prec : Z := 53.
Definition emax : Z := 1024.

Definition float_of_Z (z : Z) : spec_float := binary_normalize prec emax z 0 false.

(** The literal [0.5] *)
Definition float_half : spec_float :=
  Eval cbv in binary_normalize prec emax 1 (-1) false.

Definition float_is_zero (f : spec_float) : bool :=
  match f with S754_zero _ => true | _ => false end.

(** [int(f)]: truncation toward zero *)
Definition float_trunc (f : spec_float) : res Z :=
  match f with
  | S754_zero _ => Ok 0
  | S754_nan => Raise (ValueError "cannot convert float NaN to integer")
  | S754_infinity _ => Raise (OverflowError "cannot convert float infinity to integer")
  | S754_finite s m e =>
      let a := Z.shiftl (Zpos m) e in Ok (if s then - a else a)
  end.

(** Truth value of an object, as [if], [not], [or] and [bool()] take it *)
Definition truthy (v : pyval) : bool :=
  match v with
  | VNone => false
  | VBool b => b
  | VInt z => negb (z =? 0)%Z
  | VFloat f => negb (float_is_zero f)
  | VStr s => negb (is_empty s)
  | VList l => match l with [] => false | _ => true end
  | VDict d => negb (bool_decide (d = ∅))
  end.

(** [a or b] *)
Definition por (a b : pyval) : pyval := if truthy a then a else b.

(** [int(v)] *)
Definition int (v : pyval) : res Z :=
  match v with
  | VBool b => Ok (if b then 1 else 0)
  | VInt z => Ok z
  | VFloat f => float_trunc f
  | VStr s =>
      match parse_int s with
      | Some z => Ok z
      | None => Raise (ValueError "invalid literal for int() with base 10")
      end
  | VNone | VList _ | VDict _ =>
      Raise (TypeError "int() argument must be a string or a real number")
  end.

(** [float(v)]; reading a string is left to [fos] (Python's float parser) *)
Definition float (fos : string -> option spec_float) (v : pyval) : res spec_float :=
  match v with
  | VBool b => Ok (float_of_Z (if b then 1 else 0))
  | VInt z =>
      match float_of_Z z with
      | S754_infinity _ => Raise (OverflowError "int too large to convert to float")
      | f => Ok f
      end
  | VFloat f => Ok f
  | VStr s =>
      match fos s with
      | Some f => Ok f
      | None => Raise (ValueError "could not convert string to float")
      end
  | VNone | VList _ | VDict _ =>
      Raise (TypeError "float() argument must be a string or a real number")
  end.

(** [str(v)], also what an f-string puts for [{v}]; the text of floats and
    containers is left to [repr] *)
Definition str (repr : pyval -> string) (v : pyval) : string :=
  match v with
  | VStr s => s
  | VNone => "None"
  | VBool true => "True"
  | VBool false => "False"
  | VInt z => string_of_Z z
  | VFloat _ | VList _ | VDict _ => repr v
  end.

(** [d.get(k, default)] *)
Definition dict_get (d : gmap string pyval) (k : string) (default : pyval) : pyval :=
  match d !! k with Some v => v | None => default end.

(** [isinstance(v, str)], [isinstance(v, list)] *)
Definition is_str (v : pyval) : bool := match v with VStr _ => true | _ => false end.
Definition is_list (v : pyval) : bool := match v with VList _ => true | _ => false end.

End Py.

(** [os.path] on POSIX *)
Module PosixPath.

Fixpoint has_slash (s : string) : bool :=
  match s with
  | EmptyString => false
  | String c r => Ascii.eqb c "/"%char || has_slash r
  end.

(** [p[:p.rfind("/") + 1]] *)
Fixpoint upto_last_slash (s : string) : string :=
  match s with
  | EmptyString => EmptyString
  | String c r =>
      if has_slash r then String c (upto_last_slash r)
      else if Ascii.eqb c "/"%char then "/" else EmptyString
  end.

(** [os.path.dirname(p)] *)
Definition dirname (p : string) : string :=
  let head := upto_last_slash p in
  if is_empty (rstrip_slash head) then head else rstrip_slash head.

(** [os.path.join(a, b)] *)
Definition join (a b : string) : string :=
  if startswith "/" b then b
  else if is_empty a || endswith "/" a then a +:+ b
  else a +:+ "/" +:+ b.

End PosixPath.

(* ===================================================================== *)
(** ** The prompt extractor: [_extract_prompt_from_block] *)
(* ===================================================================== *)

Module Extract.

Definition newline : ascii := "010"%char.

Fixpoint has_newline (s : string) : bool :=
  match s with
  | EmptyString => false
  | String c r => Ascii.eqb c newline || has_newline r
  end.

(** The literal text of a tag pattern under [re.IGNORECASE], matched at the
    start of [s]; the result is what follows it. *)
Fixpoint match_ci (tag s : string) : option string :=
  match tag, s with
  | EmptyString, _ => Some s
  | String t tr, String c r =>
      if Ascii.eqb (py_lower_char c) t then match_ci tr r else None
  | String _ _, EmptyString => None
  end.

(** [\b] right after the tag: the tag ends in a word character, so what
    follows must be the end or a non-word character. *)
Definition at_word_boundary (rest : string) : bool :=
  match rest with
  | EmptyString => true
  | String c _ => negb (py_isword c)
  end.

(** The tag at the start, then a word boundary *)
Definition match_tag (tag s : string) : option string :=
  match match_ci tag s with
  | Some rest => if at_word_boundary rest then Some rest else None
  | None => None
  end.

(** An optional colon or hyphen, taken when there *)
Definition skip_punct (s : string) : string :=
  match s with
  | String c r =>
      if Ascii.eqb c ":"%char || Ascii.eqb c "-"%char then r else s
  | EmptyString => EmptyString
  end.

(** The capture group "any characters but newline, as many as possible"
    followed by the end anchor, from the current position: the group, when
    the rest holds no newline other than a last one *)
Definition dot_star_end (s : string) : option string :=
  if negb (has_newline s) then Some s
  else if endswith (String newline EmptyString) s && negb (has_newline (drop_end 1 s))
       then Some (drop_end 1 s)
       else None.

(** The end anchor at the current position: the end, or just before a last
    newline *)
Definition at_end (s : string) : bool :=
  is_empty s || String.eqb s (String newline EmptyString).

(** [re.match] of the tag pattern followed by optional whitespace and the
    capture group, on the info string: [m.group(1)] *)
Definition re_match_prompt (tag info : string) : option string :=
  match match_tag tag info with
  | Some rest => dot_star_end (lstrip (skip_punct rest))
  | None => None
  end.

(** [re.match] of the tag pattern followed by the end anchor *)
Definition re_match_exact (tag info : string) : bool :=
  match match_tag tag info with
  | Some rest => at_end (skip_punct rest) || at_end rest
  | None => false
  end.

(** [re.sub] of the tag pattern followed by optional whitespace, by the
    empty string, [count=1] *)
Definition re_sub_tag (tag body : string) : string :=
  match match_tag tag body with
  | Some rest => lstrip (skip_punct rest)
  | None => body
  end.

Definition tag_patterns : list string := ["generateimage"; "lightdiffusion"].

Definition ticks : string := "```".

Definition strip_ticks (s : string) : string :=
  let s := strip s in
  let s :=
    if startswith ticks s && endswith ticks s && (6 <=? String.length s)%nat
    then drop_end 3 (drop 3 s)
    else s in
  strip s.

(** The first loop over [tag_patterns]: the first pattern that matches gives
    [m.group(1).strip()] *)
Fixpoint first_prompt (tags : list string) (info : string) : option string :=
  match tags with
  | [] => None
  | tag :: rest =>
      match re_match_prompt tag info with
      | Some g => Some (strip g)
      | None => first_prompt rest info
      end
  end.

(** The second loop: the info string is a tag and nothing else *)
Fixpoint is_bare_tag (tags : list string) (info : string) : bool :=
  match tags with
  | [] => false
  | tag :: rest => re_match_exact tag info || is_bare_tag rest info
  end.

(** The loops [for tag_re in tag_patterns: body = re.sub(...)] *)
Definition strip_tags (body : string) : string :=
  fold_left (fun b tag => re_sub_tag tag b) tag_patterns body.

Definition from_info (info : string) : option string :=
  match first_prompt tag_patterns info with
  | Some p => Some p
  | None => if is_bare_tag tag_patterns info then Some EmptyString else None
  end.

Definition from_body (body : string) : string :=
  let body := strip_ticks body in
  let body := strip_tags body in
  let body :=
    if startswith ticks body
    then strip (strip_tags (strip_ticks body))
    else body in
  strip body.

Definition _extract_prompt_from_block (codeblock lang : option string) : string :=
  let body := strip (default EmptyString codeblock) in
  let info := strip (default EmptyString lang) in
  match (if is_empty body && negb (is_empty info) then from_info info else None) with
  | Some p => p
  | None => from_body body
  end.

End Extract.

(* ===================================================================== *)
(** ** The outside: calls made, and what they answer *)
(* ===================================================================== *)

(** A call that leaves the function.  The trace of a run is the list of these
    calls in the order they were made. *)
Inductive event : Type :=
| EPrint (line : string)                           (* print(line) *)
| EPrintExc (e : exn)                              (* traceback.print_exc() *)
| EShowLoading (show : bool)                       (* the GTK calls of show_loading(show) *)
| EPost (url : string) (payload : gmap string pyval)
                                                   (* requests.post(url, json=payload, timeout=120) *)
| EMakedirs (dir : string)                         (* os.makedirs(dir, exist_ok=True) *)
| EOpenWrite (path : string)                       (* open(path, "wb") *)
| EWrite (path : string) (bytes : string)          (* f.write(bytes) *)
| ELoadFromPath (path : string)                    (* the loader thread of set_image_from_path *)
| ELoadFromUrl (url : string) (save_to : string)   (* load_image_with_callback; once loaded,
                                                      the callback saves the image to save_to *)
| ESetIcon (name : string)                         (* image.set_from_icon_name(name) *)
| ESavePixbuf (path : string).                     (* current_pixbuf.savev(path, "png", [], []) *)

(** A [requests] response, as far as the code looks at it *)
Record response : Type := {
  resp_ok : bool;
  resp_status_code : Z;
  resp_text : string;
  resp_json : res pyval          (* resp.json(), which may raise *)
}.

(** Everything the function reads from outside itself. *)
Record world : Type := {
  get_setting : string -> pyval;           (* self.get_setting(name); None when unset *)
  cache_dir : string;                      (* self.cache_dir *)
  json_loads : string -> res pyval;        (* json.loads on a str *)
  float_of_string : string -> option spec_float;   (* float() on a str *)
  repr : pyval -> string;                  (* str() of floats and containers *)
  b64decode : string -> res string;        (* base64.b64decode on a str *)
  http_post : string -> gmap string pyval -> res response;
  raises : list event -> option exn;       (* whether the call that ends this trace raises *)
  has_pixbuf : list event -> bool          (* whether current_pixbuf is set at this point *)
}.

(** State of a run: the calls so far, and the widget's [current_url]. *)
Record state : Type := {
  trace : list event;
  current_url : option string
}.

(** A run starts with no call made, on a widget whose [current_url] is [cu]. *)
Definition start (cu : option string) : state := {| trace := []; current_url := cu |}.

(** The widget as [ImageGeneratorWidget.__init__] leaves it *)
Definition fresh : state := start None.

Definition M (A : Type) : Type := state -> res A * state.

Definition ret {A} (a : A) : M A := fun st => (Ok a, st).

Definition bind {A B} (m : M A) (k : A -> M B) : M B :=
  fun st =>
    match m st with
    | (Ok a, st') => k a st'
    | (Raise e, st') => (Raise e, st')
    end.

Definition throw {A} (e : exn) : M A := fun st => (Raise e, st).

(** [try: m except Exception as e: h e] *)
Definition try_except {A} (m : M A) (h : exn -> M A) : M A :=
  fun st =>
    match m st with
    | (Ok a, st') => (Ok a, st')
    | (Raise e, st') => h e st'
    end.

Definition lift {A} (r : res A) : M A :=
  match r with Ok a => ret a | Raise e => throw e end.

Notation "x <- m ;; k" := (bind m (fun x => k))
  (at level 100, m at next level, right associativity).
Notation "m ;;; k" := (bind m (fun _ => k))
  (at level 100, right associativity).

(** A call that cannot fail: it is recorded. *)
Definition emit (e : event) : M unit :=
  fun st => (Ok tt, {| trace := trace st ++ [e]; current_url := current_url st |}).

(** A call that may fail: it is recorded, and the world says whether it raises. *)
Definition call (w : world) (e : event) : M unit :=
  fun st =>
    let st' := {| trace := trace st ++ [e]; current_url := current_url st |} in
    match raises w (trace st') with
    | Some x => (Raise x, st')
    | None => (Ok tt, st')
    end.

Definition set_current_url (u : string) : M unit :=
  fun st => (Ok tt, {| trace := trace st; current_url := Some u |}).

Definition get_current_url : M (option string) :=
  fun st => (Ok (current_url st), st).

Definition pixbuf_loaded (w : world) : M bool :=
  fun st => (Ok (has_pixbuf w (trace st)), st).

(* ===================================================================== *)
(** ** [ImageGeneratorWidget]: the methods [generate_image] calls *)
(* ===================================================================== *)

Module Widget.

Definition show_loading (w : world) (show : bool) : M unit :=
  call w (EShowLoading show).

(** [set_image_from_url(url, callback)].  Both callbacks this file passes do
    nothing on [callback(False)] and save the loaded image to a path on
    [callback(True)], which runs later, from the loader: [save_to] is that
    path. *)
Definition set_image_from_url (w : world) (url save_to : string) : M unit :=
  set_current_url url ;;;
  show_loading w true ;;;
  try_except
    (call w (ELoadFromUrl url save_to))
    (fun e =>
       emit (EPrint ("Error loading image from URL: " +:+ exn_str e)) ;;;
       show_loading w false ;;;
       call w (ESetIcon "image-missing")).

(** [set_image_from_path(path)]: the file is read by a thread of its own. *)
Definition set_image_from_path (w : world) (path : string) : M unit :=
  show_loading w true ;;;
  call w (ELoadFromPath path).

(** [save_image(file_path, "png")] *)
Definition save_image (w : world) (file_path : string) : M unit :=
  loaded <- pixbuf_loaded w ;;
  if negb loaded then throw (ValueError "No image loaded to save")
  else
    call w (EMakedirs (PosixPath.dirname file_path)) ;;;
    call w (ESavePixbuf file_path).

(** [download_and_save(save_path)], no callback given *)
Definition download_and_save (w : world) (save_path : string) : M unit :=
  url <- get_current_url ;;
  match url with
  | None => throw (ValueError "No URL set to download")
  | Some u =>
      if is_empty u then throw (ValueError "No URL set to download")
      else
        loaded <- pixbuf_loaded w ;;
        if loaded
        then try_except (save_image w save_path) (fun _ => ret tt)
        else set_image_from_url w u save_path
  end.

End Widget.

(* ===================================================================== *)
(** ** [LightDiffusionExtension.generate_image] *)
(* ===================================================================== *)

(** The response shape the normalizer takes, with the datum it reads *)
Inductive shape : Type :=
| ImageList (first : pyval)      (* data["images"][0] *)
| SingleImage (img : string)     (* data["image"] *)
| ImageUrl (url : string)        (* data["image_url"] *)
| FilePath (path : string).      (* data["file_path"] *)

(** The four tests on the response, in the order of the code; the first that
    holds decides. *)
Definition select_shape (data : pyval) : option shape :=
  match data with
  | VDict d =>
      match d !! "images" with
      | Some (VList (first :: _)) => Some (ImageList first)
      | _ =>
          match d !! "image" with
          | Some (VStr img) => Some (SingleImage img)
          | _ =>
              match d !! "image_url" with
              | Some (VStr url) => Some (ImageUrl url)
              | _ =>
                  match d !! "file_path" with
                  | Some (VStr path) => Some (FilePath path)
                  | _ => None
                  end
              end
          end
      end
  | _ => None
  end.

Definition error_prefix : string := "[LightDiffusionExtension] Error: ".
Definition msg_no_image : string :=
  "Img2Img is enabled but no image path is set in Advanced Settings.".
Definition msg_unexpected : string := "Unexpected response format from backend.".
Definition default_url : string := "http://localhost:7861".
Definition default_endpoint : string := "/api/generate".

(** What the request builder hands over *)
Inductive prepared : Type :=
| Rejected                                            (* the image-to-image guard *)
| Request (url : string) (payload : gmap string pyval).

Definition rbind {A B} (r : res A) (k : A -> res B) : res B :=
  match r with Ok a => k a | Raise e => Raise e end.

Notation "x <-r r ; k" := (rbind r (fun x => k))
  (at level 100, r at next level, right associativity).

(** [get_extra_settings]: the key and the default of every setting, the nested
    block of advanced settings laid flat. *)
Definition get_extra_settings : list (string * pyval) := [
  ("url", VStr "http://localhost:7861");
  ("positive-prompt", VStr "[input]");
  ("negative-prompt",
   VStr "(worst quality, low quality:1.4), (zombie, sketch, interlocked fingers, comic), (embedding:badhandv4),");
  ("width", VInt 512);
  ("height", VInt 512);
  ("steps", VInt 20);
  ("guidance_scale", VInt 7);
  ("seed", VStr "-1");
  ("hires_fix", VInt 0);
  ("adetailer", VInt 0);
  ("img2img_enabled", VInt 0);
  ("img2img_image", VStr "");
  ("stable_fast", VInt 0);
  ("reuse_seed", VInt 0);
  ("flux_enabled", VInt 0);
  ("prio_speed", VInt 0);
  ("realistic_model", VInt 0);
  ("multiscale_enabled", VInt 1);
  ("multiscale_intermittent", VInt 1);
  ("multiscale_factor", VFloat Py.float_half);
  ("multiscale_fullres_start", VInt 3);
  ("multiscale_fullres_end", VInt 8);
  ("keep_models_loaded", VInt 1);
  ("extra_payload", VStr "{}")
].

Section Generate.

Variable w : world.

Definition setting (name : string) : pyval := get_setting w name.

Definition get_int (name : string) (default : Z) : Z :=
  match setting name with
  | VNone => default
  | v => match Py.int v with Ok z => z | Raise _ => default end
  end.

Definition get_float (name : string) (default : spec_float) : spec_float :=
  match setting name with
  | VNone => default
  | v => match Py.float (float_of_string w) v with Ok f => f | Raise _ => default end
  end.

Definition get_bool (name : string) (default : bool) : bool :=
  match setting name with
  | VNone => default
  | VBool b => b
  | v =>
      match Py.int v with
      | Ok z => negb (z =? 0)%Z
      | Raise _ =>
          let s := lower (strip (Py.str (repr w) v)) in
          if bool_decide (s ∈ ["true"; "yes"; "on"; "1"]) then true
          else if bool_decide (s ∈ ["false"; "no"; "off"; "0"]) then false
          else default
      end
  end.

Definition show_error_message (msg : string) : M unit :=
  emit (EPrint (error_prefix +:+ msg)) ;;;
  try_except (Widget.show_loading w false) (fun _ => ret tt).

(** [base_url] *)
Definition base_url : string :=
  rstrip_slash (Py.str (repr w) (Py.por (setting "url") (VStr default_url))).

Definition width : Z :=
  match Py.int (setting "width") with Ok z => z | Raise _ => 512 end.

Definition height : Z :=
  match Py.int (setting "height") with Ok z => z | Raise _ => 512 end.

Definition steps : option Z :=
  match setting "steps" with
  | VNone => None
  | v => match Py.int v with Ok z => Some z | Raise _ => None end
  end.

Definition guidance_scale : option spec_float :=
  match setting "guidance_scale" with
  | VNone => None
  | v => match Py.float (float_of_string w) v with Ok f => Some f | Raise _ => None end
  end.

(** [seed_raw not in (None, "", "-1")] *)
Definition seed_given (seed_raw : pyval) : bool :=
  match seed_raw with
  | VNone => false
  | VStr s => negb (String.eqb s "" || String.eqb s "-1")
  | _ => true
  end.

Definition seed : Z :=
  let seed_raw := setting "seed" in
  if seed_given seed_raw
  then match Py.int seed_raw with Ok z => z | Raise _ => -1 end
  else -1.

(** [extra_payload], after the [try] around [json.loads] *)
Definition extra_payload : pyval :=
  match Py.por (setting "extra_payload") (VStr "{}") with
  | VStr raw => match json_loads w raw with Ok v => v | Raise _ => VDict ∅ end
  | _ => VDict ∅
  end.

(** [extra_payload.get("endpoint_path", "/api/generate")] *)
Definition endpoint_path : res pyval :=
  match extra_payload with
  | VDict d => Ok (Py.dict_get d "endpoint_path" (VStr default_endpoint))
  | _ => Raise (AttributeError "object has no attribute 'get'")
  end.

(** [pos_tpl.replace("[input]", prompt)] *)
Definition positive (prompt : string) : res string :=
  match Py.por (setting "positive-prompt") (VStr "[input]") with
  | VStr pos_tpl => Ok (replace "[input]" prompt pos_tpl)
  | _ => Raise (AttributeError "object has no attribute 'replace'")
  end.

Definition negative : pyval := Py.por (setting "negative-prompt") (VStr "").

(** The items of the dict literal bound to [payload], in the order written *)
Definition payload_items (positive : string) : list (string * pyval) :=
  [
    ("prompt", VStr positive);
    ("negative_prompt", negative);
    ("width", VInt width);
    ("height", VInt height);
    ("num_images", VInt (get_int "num_images" 1));
    ("batch_size", VInt (get_int "batch_size" 1));
    ("hires_fix", VBool (get_bool "hires_fix" false));
    ("adetailer", VBool (get_bool "adetailer" false));
    ("enhance_prompt", VBool (get_bool "enhance_prompt" false));
    ("img2img_enabled", VBool (get_bool "img2img_enabled" false));
    ("img2img_image", Py.por (setting "img2img_image") VNone);
    ("stable_fast", VBool (get_bool "stable_fast" false));
    ("reuse_seed", VBool (negb (seed =? -1)%Z || get_bool "reuse_seed" false));
    ("flux_enabled", VBool (get_bool "flux_enabled" false));
    ("prio_speed", VBool (get_bool "prio_speed" false));
    ("realistic_model", VBool (get_bool "realistic_model" false));
    ("multiscale_enabled", VBool (get_bool "multiscale_enabled" true));
    ("multiscale_intermittent", VBool (get_bool "multiscale_intermittent" false));
    ("multiscale_factor", VFloat (get_float "multiscale_factor" Py.float_half));
    ("multiscale_fullres_start", VInt (get_int "multiscale_fullres_start" 3));
    ("multiscale_fullres_end", VInt (get_int "multiscale_fullres_end" 8));
    ("keep_models_loaded", VBool (get_bool "keep_models_loaded" true));
    ("enable_preview", VBool (get_bool "enable_preview" false))
  ].

(** The dict literal bound to [payload] *)
Definition build_payload (positive : string) : gmap string pyval :=
  list_to_map (payload_items positive).

(** [bool(int(self.get_setting("img2img_enabled") or 0))], [False] on error *)
Definition img2img_enabled : bool :=
  match Py.int (Py.por (setting "img2img_enabled") (VInt 0)) with
  | Ok z => negb (z =? 0)%Z
  | Raise _ => false
  end.

(** [(self.get_setting("img2img_image") or "").strip()] *)
Definition img2img_image : res string :=
  match Py.por (setting "img2img_image") (VStr "") with
  | VStr s => Ok (strip s)
  | _ => Raise (AttributeError "object has no attribute 'strip'")
  end.

(** The three conditional assignments after the guard *)
Definition attach_extras (payload : gmap string pyval) : gmap string pyval :=
  let payload :=
    match steps with Some n => <["steps" := VInt n]> payload | None => payload end in
  let payload :=
    match guidance_scale with
    | Some g => <["guidance_scale" := VFloat g]> payload
    | None => payload
    end in
  if (0 <=? seed)%Z then <["seed" := VInt seed]> payload else payload.

(** [payload.update({k: v for k, v in extra_payload.items() if k != "endpoint_path"})],
    under [isinstance(extra_payload, dict)] *)
Definition merge_extras (payload : gmap string pyval) : gmap string pyval :=
  match extra_payload with
  | VDict d => filter (fun kv => kv.1 ≠ "endpoint_path") d ∪ payload
  | _ => payload
  end.

(** The body sent, for a given positive prompt *)
Definition final_payload (positive : string) : gmap string pyval :=
  merge_extras (attach_extras (build_payload positive)).

(** [os.path.join(self.cache_dir, f"{msg_uuid or 'latest'}.png")] *)
Definition cache_out (msg_uuid : option string) : string :=
  let name :=
    match msg_uuid with
    | Some u => if is_empty u then "latest" else u
    | None => "latest"
    end in
  PosixPath.join (cache_dir w) (name +:+ ".png").

(** [_save_base64_png(b64_data, out_path)] *)
Definition is_comma (v : pyval) : bool :=
  match v with VStr s => String.eqb s "," | _ => false end.

Definition strip_data_prefix (b64_data : pyval) : res pyval :=
  match b64_data with
  | VStr s =>
      Ok (VStr (if contains "," s && startswith "data:" (strip s)
                then after_first ","%char s else s))
  | VList l =>
      if existsb is_comma l
      then Raise (AttributeError "'list' object has no attribute 'strip'")
      else Ok b64_data
  | VDict d =>
      if bool_decide (is_Some (d !! ","))
      then Raise (AttributeError "'dict' object has no attribute 'strip'")
      else Ok b64_data
  | _ => Raise (TypeError "argument is not iterable")
  end.

Definition decode (b64_data : pyval) : res string :=
  match b64_data with
  | VStr s => b64decode w s
  | _ => Raise (TypeError "argument should be a bytes-like object or ASCII string")
  end.

Definition _save_base64_png (b64_data : pyval) (out_path : string) : M unit :=
  b64_data <- lift (strip_data_prefix b64_data) ;;
  call w (EMakedirs (PosixPath.dirname out_path)) ;;;
  call w (EOpenWrite out_path) ;;;
  bytes <- lift (decode b64_data) ;;
  call w (EWrite out_path bytes).

(** The branch taken for a shape *)
Definition consume (sh : shape) (cache_out : string) : M unit :=
  match sh with
  | ImageList first =>
      _save_base64_png first cache_out ;;;
      Widget.set_image_from_path w cache_out
  | SingleImage img =>
      _save_base64_png (VStr img) cache_out ;;;
      Widget.set_image_from_path w cache_out
  | ImageUrl url =>
      Widget.set_image_from_url w url cache_out
  | FilePath path =>
      Widget.set_image_from_path w path ;;;
      try_except (Widget.download_and_save w cache_out) (fun _ => ret tt)
  end.

(** From [data = resp.json()] to the end of the [try] block *)
Definition interpret_response (data : pyval) (cache_out : string) : M unit :=
  match select_shape data with
  | Some sh => consume sh cache_out
  | None => show_error_message msg_unexpected
  end.

(** [requests.post(url, json=payload, timeout=120)] *)
Definition post (url : string) (payload : gmap string pyval) : M response :=
  emit (EPost url payload) ;;;
  lift (http_post w url payload).

(** The request builder: everything from the first line of the [try] block to
    the line before [requests.post].  It raises, or stops at the image-to-image
    guard, or gives the address and the body of the request. *)
Definition prepare (prompt : string) : res prepared :=
  endpoint_path <-r endpoint_path ;
  let url := base_url +:+ Py.str (repr w) endpoint_path in
  positive <-r positive prompt ;
  let payload := build_payload positive in
  img2img_image <-r img2img_image ;
  if img2img_enabled && is_empty img2img_image
  then Ok Rejected
  else Ok (Request url (merge_extras (attach_extras payload))).

(** The [try] block of [generate_image] *)
Definition generate_image_body (prompt : string) (msg_uuid : option string) : M unit :=
  req <- lift (prepare prompt) ;;
  match req with
  | Rejected => show_error_message msg_no_image
  | Request url payload =>
      resp <- post url payload ;;
      if negb (resp_ok resp)
      then show_error_message
             ("HTTP " +:+ string_of_Z (resp_status_code resp) +:+ ": "
              +:+ take 200 (resp_text resp))
      else
        data <- lift (resp_json resp) ;;
        interpret_response data (cache_out msg_uuid)
  end.

Definition generate_image (prompt : string) (msg_uuid : option string) : M unit :=
  try_except
    (generate_image_body prompt msg_uuid)
    (fun e => emit (EPrintExc e) ;;; show_error_message (exn_str e)).

(** [get_gtk_widget]: a new widget, the prompt extracted from the block, and
    [generate_image] run on them (in the source, on a thread of its own). *)
Definition get_gtk_widget (codeblock lang : option string) (msg_uuid : option string)
  : res unit * state :=
  generate_image (Extract._extract_prompt_from_block codeblock lang) msg_uuid fresh.

End Generate.

(* ===================================================================== *)
(** ** A reference world *)
(* ===================================================================== *)

(** The results below hold for every [world].  To run the model on concrete
    inputs, this module gives one reading of the library functions the code
    calls: [json.loads], [float] on strings, [base64.b64decode].  Each reads
    the fragment described at its definition and raises outside it. *)
Module Ref.

Definition dq : ascii := "034"%char.
Definition bs : ascii := "092"%char.

(** The four whitespace characters of JSON *)
Definition json_ws (c : ascii) : bool :=
  let n := code c in ((n =? 32) || (n =? 9) || (n =? 10) || (n =? 13))%N.

Definition skip_ws : string -> string := lstrip_by json_ws.

Definition hex_of (c : ascii) : option N :=
  let n := code c in
  if ((48 <=? n) && (n <=? 57))%N then Some (n - 48)%N
  else if ((97 <=? n) && (n <=? 102))%N then Some (n - 87)%N
  else if ((65 <=? n) && (n <=? 70))%N then Some (n - 55)%N
  else None.

(** The characters of a string literal after its opening quote, up to the
    closing one; escapes of code points below 256 only. *)
Fixpoint string_body (s : string) : option (string * string) :=
  match s with
  | EmptyString => None
  | String c r =>
      if Ascii.eqb c dq then Some (EmptyString, r)
      else if Ascii.eqb c bs then
        match r with
        | String e r' =>
            let plain (x : ascii) :=
              match string_body r' with
              | Some (t, rest) => Some (String x t, rest)
              | None => None
              end in
            if Ascii.eqb e dq then plain dq
            else if Ascii.eqb e bs then plain bs
            else if Ascii.eqb e "/"%char then plain "/"%char
            else if Ascii.eqb e "n"%char then plain "010"%char
            else if Ascii.eqb e "t"%char then plain "009"%char
            else if Ascii.eqb e "r"%char then plain "013"%char
            else if Ascii.eqb e "b"%char then plain "008"%char
            else if Ascii.eqb e "f"%char then plain "012"%char
            else if Ascii.eqb e "u"%char then
              match r' with
              | String "0" (String "0" (String h (String l r''))) =>
                  match hex_of h, hex_of l, string_body r'' with
                  | Some a, Some b, Some (t, rest) =>
                      Some (String (ascii_of_N (16 * a + b)) t, rest)
                  | _, _, _ => None
                  end
              | _ => None
              end
            else None
        | EmptyString => None
        end
      else if (code c <? 32)%N then None
      else
        match string_body r with
        | Some (t, rest) => Some (String c t, rest)
        | None => None
        end
  end.

(** The longest prefix of digits, and the rest *)
Fixpoint span_digits (s : string) : string * string :=
  match s with
  | String c r =>
      match digit_of c with
      | Some _ => let '(d, rest) := span_digits r in (String c d, rest)
      | None => (EmptyString, s)
      end
  | EmptyString => (EmptyString, EmptyString)
  end.

(** An integer literal: an optional minus sign, then [0] or digits that do not
    start with [0].  A fraction or an exponent after it is outside the
    fragment. *)
Definition number (s : string) : option (pyval * string) :=
  let '(neg, s) :=
    match s with String "-" r => (true, r) | _ => (false, s) end in
  let '(d, rest) := span_digits s in
  match d, rest with
  | EmptyString, _ => None
  | _, String "." _ | _, String "e" _ | _, String "E" _ => None
  | String "0" (String _ _), _ => None
  | _, _ =>
      match parse_digits 0 false d with
      | Some z => Some (VInt (if neg then - z else z), rest)
      | None => None
      end
  end.

Definition literal (s : string) : option (pyval * string) :=
  if String.prefix "null" s then Some (VNone, drop 4 s)
  else if String.prefix "true" s then Some (VBool true, drop 4 s)
  else if String.prefix "false" s then Some (VBool false, drop 5 s)
  else if String.prefix "NaN" s then Some (VFloat S754_nan, drop 3 s)
  else if String.prefix "Infinity" s then Some (VFloat (S754_infinity false), drop 8 s)
  else if String.prefix "-Infinity" s then Some (VFloat (S754_infinity true), drop 9 s)
  else number s.

(** A JSON value at the start of [s] (after whitespace), and what follows it.
    [fuel] bounds the number of values, items and members still to be read. *)
Fixpoint value (fuel : nat) (s : string) : option (pyval * string) :=
  match fuel with
  | O => None
  | S k =>
      match skip_ws s with
      | String "{" r =>
          match skip_ws r with
          | String "}" rest => Some (VDict ∅, rest)
          | r' => members k r' ∅
          end
      | String "[" r =>
          match skip_ws r with
          | String "]" rest => Some (VList [], rest)
          | r' => items k r' []
          end
      | String c r as t =>
          if Ascii.eqb c dq
          then match string_body r with
               | Some (str, rest) => Some (VStr str, rest)
               | None => None
               end
          else literal t
      | EmptyString => None
      end
  end
with items (fuel : nat) (s : string) (acc : list pyval) : option (pyval * string) :=
  match fuel with
  | O => None
  | S k =>
      match value k s with
      | Some (v, rest) =>
          match skip_ws rest with
          | String "," rest' => items k rest' (acc ++ [v])
          | String "]" rest' => Some (VList (acc ++ [v]), rest')
          | _ => None
          end
      | None => None
      end
  end
with members (fuel : nat) (s : string) (acc : gmap string pyval) : option (pyval * string) :=
  match fuel with
  | O => None
  | S k =>
      match skip_ws s with
      | String c r =>
          if Ascii.eqb c dq
          then
            match string_body r with
            | Some (key, rest) =>
                match skip_ws rest with
                | String ":" rest' =>
                    match value k rest' with
                    | Some (v, rest'') =>
                        match skip_ws rest'' with
                        | String "," more => members k more (<[key := v]> acc)
                        | String "}" after => Some (VDict (<[key := v]> acc), after)
                        | _ => None
                        end
                    | None => None
                    end
                | _ => None
                end
            | None => None
            end
          else None
      | EmptyString => None
      end
  end.

(** [json.loads(s)] on the fragment: objects, arrays, strings, integers and the
    literals. *)
Definition loads (s : string) : res pyval :=
  match value (S (String.length s)) s with
  | Some (v, rest) =>
      if is_empty (skip_ws rest) then Ok v
      else Raise (ValueError "Extra data")
  | None => Raise (ValueError "Expecting value")
  end.

(** [float(s)] on the fragment: the strings [int] reads. *)
Definition float_of_str (s : string) : option spec_float :=
  match parse_int s with
  | Some z =>
      match Py.float_of_Z z with
      | S754_infinity _ => None
      | f => Some f
      end
  | None => None
  end.

(** [str] of a float or a container: a placeholder, not Python's text. *)
Definition repr_text (v : pyval) : string :=
  match v with
  | VFloat S754_nan => "nan"
  | VFloat (S754_infinity false) => "inf"
  | VFloat (S754_infinity true) => "-inf"
  | VFloat _ => "<float>"
  | VList _ => "[...]"
  | VDict _ => "{...}"
  | _ => "<object>"
  end.

(** The value of a character of the base64 alphabet *)
Definition b64_value (c : ascii) : option N :=
  let n := code c in
  if ((65 <=? n) && (n <=? 90))%N then Some (n - 65)%N
  else if ((97 <=? n) && (n <=? 122))%N then Some (n - 71)%N
  else if ((48 <=? n) && (n <=? 57))%N then Some (n + 4)%N
  else if (n =? 43)%N then Some 62%N
  else if (n =? 47)%N then Some 63%N
  else None.

(** Groups of four characters; [=] pads the last group. *)
Fixpoint b64_groups (fuel : nat) (s : string) : option string :=
  match fuel with
  | O => None
  | S k =>
      match s with
      | EmptyString => Some EmptyString
      | String a (String b (String c (String d rest))) =>
          match b64_value a, b64_value b with
          | Some x, Some y =>
              let b1 := ascii_of_N (x * 4 + y / 16) in
              match b64_value c, b64_value d with
              | Some z, Some t =>
                  match b64_groups k rest with
                  | Some more =>
                      Some (String b1 (String (ascii_of_N ((y mod 16) * 16 + z / 4))
                              (String (ascii_of_N ((z mod 4) * 64 + t)) more)))
                  | None => None
                  end
              | Some z, None =>
                  if Ascii.eqb d "="%char && is_empty rest
                  then Some (String b1 (String (ascii_of_N ((y mod 16) * 16 + z / 4))
                               EmptyString))
                  else None
              | None, _ =>
                  if Ascii.eqb c "="%char && Ascii.eqb d "="%char && is_empty rest
                  then Some (String b1 EmptyString)
                  else None
              end
          | _, _ => None
          end
      | _ => None
      end
  end.

(** [base64.b64decode(s)] on the fragment: text of the alphabet only, padded. *)
Definition decode64 (s : string) : res string :=
  match b64_groups (S (String.length s)) s with
  | Some bytes => Ok bytes
  | None => Raise (Failure "Incorrect padding")
  end.

(** [get_setting] over a list of stored settings: the first entry of a name,
    [None] when there is none. *)
Fixpoint lookup_setting (l : list (string * pyval)) (name : string) : pyval :=
  match l with
  | [] => VNone
  | (k, v) :: rest => if String.eqb k name then v else lookup_setting rest name
  end.

(** A world with these library functions, in which no call to GTK or to the
    file system raises, no pixbuf is loaded during the run, and the server
    answers [answer] to every request. *)
Definition world_of (settings : list (string * pyval)) (dir : string)
    (answer : res response) : world :=
  {| get_setting := lookup_setting settings;
     cache_dir := dir;
     json_loads := loads;
     float_of_string := float_of_str;
     repr := repr_text;
     b64decode := decode64;
     http_post := fun _ _ => answer;
     raises := fun _ => None;
     has_pixbuf := fun _ => false |}.

(** A server answer with status 200 and the given JSON body *)
Definition ok_json (data : pyval) : res response :=
  Ok {| resp_ok := true; resp_status_code := 200; resp_text := EmptyString;
        resp_json := Ok data |}.

(** The text of a JSON object with one member whose value is written [v] *)
Definition obj1 (k v : string) : string :=
  "{" +:+ String dq k +:+ String dq ": " +:+ v +:+ "}".

End Ref.


(* ===================================================================== *)
(** ** Vocabulary of the properties *)
(* ===================================================================== *)

(** Which events a computation may add to the trace: [emits P m] says that a
    run of [m] extends the trace, and by events satisfying [P] only. *)
Definition emits {A} (P : event -> Prop) (m : M A) : Prop :=
  forall st, exists l, trace (m st).2 = trace st ++ l /\ Forall P l.

(** The events that can follow the request in a run whose cache file is [c]:
    no second request, and nothing is saved anywhere but at [c]. *)
Definition after_post (c : string) (e : event) : Prop :=
  match e with
  | EPost _ _ => False
  | EOpenWrite p | EWrite p _ | ESavePixbuf p | ELoadFromUrl _ p => p = c
  | _ => True
  end.

(** What [show_error_message] adds to the trace *)
Definition report (msg : string) : list event :=
  [EPrint (error_prefix +:+ msg); EShowLoading false].

(** The state after more calls *)
Definition extend (st : state) (l : list event) : state :=
  {| trace := trace st ++ l; current_url := current_url st |}.

(** What follows [requests.post] in the [try] block *)
Definition respond (w : world) (url : string) (payload : gmap string pyval)
    (msg_uuid : option string) : M unit :=
  resp <- lift (http_post w url payload) ;;
  if negb (resp_ok resp)
  then show_error_message w
         ("HTTP " +:+ string_of_Z (resp_status_code resp) +:+ ": "
          +:+ take 200 (resp_text resp))
  else
    data <- lift (resp_json resp) ;;
    interpret_response w data (cache_out w msg_uuid).

(** The four interpretations, by name *)
Inductive kind : Type := KList | KSingle | KUrl | KPath.

Definition kind_of (sh : shape) : kind :=
  match sh with
  | ImageList _ => KList
  | SingleImage _ => KSingle
  | ImageUrl _ => KUrl
  | FilePath _ => KPath
  end.

(** The priority order: image list, single image, URL, file path *)
Definition rank (k : kind) : nat :=
  match k with KList => 0 | KSingle => 1 | KUrl => 2 | KPath => 3 end.

(** The key of an interpretation is present with its recognized type:
    [images] an array, the three others a string. *)
Definition present (d : gmap string pyval) (k : kind) : Prop :=
  match k with
  | KList => exists l, d !! "images" = Some (VList l)
  | KSingle => exists s, d !! "image" = Some (VStr s)
  | KUrl => exists s, d !! "image_url" = Some (VStr s)
  | KPath => exists s, d !! "file_path" = Some (VStr s)
  end.

(** The same, an [images] array counting only when it has an element *)
Definition usable (d : gmap string pyval) (k : kind) : Prop :=
  match k with
  | KList => exists first l, d !! "images" = Some (VList (first :: l))
  | _ => present d k
  end.

(** The shape holds the datum of its key *)
Definition reads (d : gmap string pyval) (sh : shape) : Prop :=
  match sh with
  | ImageList first => exists l, d !! "images" = Some (VList (first :: l))
  | SingleImage img => d !! "image" = Some (VStr img)
  | ImageUrl url => d !! "image_url" = Some (VStr url)
  | FilePath path => d !! "file_path" = Some (VStr path)
  end.

(** The first interpretation in priority order, among those [avail] allows,
    is the one taken. *)
Definition first_wins (avail : gmap string pyval -> kind -> Prop) : Prop :=
  forall (d : gmap string pyval) (k : kind),
    avail d k ->
    (forall k', avail d k' -> (rank k <= rank k')%nat) ->
    exists sh, select_shape (VDict d) = Some sh /\ kind_of sh = k.

(** None of the four interpretations matches *)
Definition unmatched (data : pyval) : Prop :=
  forall d, data = VDict d ->
    (forall l, d !! "images" = Some (VList l) -> l = [])
    /\ (forall s, d !! "image" <> Some (VStr s))
    /\ (forall s, d !! "image_url" <> Some (VStr s))
    /\ (forall s, d !! "file_path" <> Some (VStr s)).

(** The tests of [select_shape], one at a time *)
Definition first_image (d : gmap string pyval) : option pyval :=
  match d !! "images" with Some (VList (first :: _)) => Some first | _ => None end.

Definition str_at (d : gmap string pyval) (key : string) : option string :=
  match d !! key with Some (VStr s) => Some s | _ => None end.


(** The first value stored under [k] in a list of items *)
Fixpoint assoc (k : string) (l : list (string * pyval)) : option pyval :=
  match l with
  | [] => None
  | (k', v) :: rest => if String.eqb k' k then Some v else assoc k rest
  end.

(** The path an event saves an image to, for the events that save one (now,
    or once the image is loaded) *)
Definition cache_target (e : event) : option string :=
  match e with
  | EOpenWrite p | EWrite p _ | ESavePixbuf p | ELoadFromUrl _ p => Some p
  | _ => None
  end.

(** The item-wise overlay of [merge_extras], for an overlay [d] that is a
    dict *)
Definition overlay (d built : gmap string pyval) : gmap string pyval :=
  filter (fun kv => kv.1 ≠ "endpoint_path") d ∪ built.

(** The overlay does not set the key [name] *)
Definition not_overlaid (w : world) (name : string) : Prop :=
  forall d, extra_payload w = VDict d -> d !! name = None.

(** C1 as stated: a seed setting that reads as an integer at least 0 makes
    every request carry [reuse_seed = true], whatever the other settings. *)
Definition seed_forces_reuse (w : world) : Prop :=
  forall (z : Z) prompt msg_uuid cu url payload,
    Py.int (setting w "seed") = Ok z -> 0 <= z ->
    EPost url payload ∈ trace (generate_image w prompt msg_uuid (start cu)).2 ->
    payload !! "reuse_seed" = Some (VBool true).

(** C8 as stated: the request goes to the url setting followed by the
    endpoint path. *)
Definition posts_to_url_setting (w : world) : Prop :=
  forall u prompt msg_uuid cu url payload,
    setting w "url" = VStr u ->
    EPost url payload ∈ trace (generate_image w prompt msg_uuid (start cu)).2 ->
    exists d, extra_payload w = VDict d
      /\ url = u +:+ Py.str (repr w) (Py.dict_get d "endpoint_path" (VStr "/api/generate")).

(** The keys of the dict literal of the builder *)
Definition required_keys : list string := [
  "prompt"; "negative_prompt"; "width"; "height"; "num_images"; "batch_size";
  "hires_fix"; "adetailer"; "enhance_prompt"; "img2img_enabled"; "img2img_image";
  "stable_fast"; "reuse_seed"; "flux_enabled"; "prio_speed"; "realistic_model";
  "multiscale_enabled"; "multiscale_intermittent"; "multiscale_factor";
  "multiscale_fullres_start"; "multiscale_fullres_end"; "keep_models_loaded";
  "enable_preview"
].

(** How the builder reads a numeric setting *)
Inductive numtype : Type := TInt | TFloat.

(** The setting [name] cannot be read as a number of type [t] *)
Definition malformed (w : world) (t : numtype) (name : string) : Prop :=
  match t with
  | TInt => exists e, Py.int (setting w name) = Raise e
  | TFloat => exists e, Py.float (float_of_string w) (setting w name) = Raise e
  end.

(** The numeric settings with the defaults [get_extra_settings] documents, as
    the payload would hold them *)
Definition documented_numeric : list (string * numtype * pyval) := [
  ("width", TInt, VInt 512);
  ("height", TInt, VInt 512);
  ("steps", TInt, VInt 20);
  ("guidance_scale", TFloat, VFloat (Py.float_of_Z 7));
  ("multiscale_factor", TFloat, VFloat Py.float_half);
  ("multiscale_fullres_start", TInt, VInt 3);
  ("multiscale_fullres_end", TInt, VInt 8)
].

(** Those the builder replaces by a default when malformed *)
Definition defaulted_numeric : list (string * numtype * pyval) := [
  ("width", TInt, VInt 512);
  ("height", TInt, VInt 512);
  ("multiscale_factor", TFloat, VFloat Py.float_half);
  ("multiscale_fullres_start", TInt, VInt 3);
  ("multiscale_fullres_end", TInt, VInt 8)
].

(** Those the builder leaves out of the payload when malformed *)
Definition omitted_numeric : list (string * numtype) := [
  ("steps", TInt); ("guidance_scale", TFloat); ("seed", TInt)
].

(** C6 as stated: for every settings the builder produces a payload with all
    required keys, each malformed numeric setting replaced by its documented
    default. *)
Definition builder_always_defaults (w : world) : Prop :=
  forall prompt, exists url payload,
    prepare w prompt = Ok (Request url payload)
    /\ (forall k, k ∈ required_keys -> is_Some (payload !! k))
    /\ (forall name t dflt, (name, t, dflt) ∈ documented_numeric ->
          malformed w t name -> payload !! name = Some dflt).

(** The toggle is on: its value reads as a number other than 0 (the settings
    schema: 0 = off, 1 = on) *)
Definition toggle_on (v : pyval) : Prop :=
  exists z, Py.int v = Ok z /\ z <> 0.

(** The setting is unset or empty (a value Python takes as false), or a string
    of whitespace only *)
Definition blank (v : pyval) : Prop :=
  Py.truthy v = false \/ exists s, v = VStr s /\ strip s = EmptyString.

(** Events of a run that sends nothing and sets no image: lines printed and
    [show_loading(False)] *)
Definition quiet (e : event) : Prop :=
  match e with
  | EPrint _ | EPrintExc _ | EShowLoading false => True
  | _ => False
  end.

(** The trace ends with what [show_error_message] adds: the error line is
    printed and [show_loading(False)] is called. *)
Definition reported (tr : list event) : Prop :=
  exists l msg, tr = l ++ report msg.

(** Saving the image fails in the branch of the shape [sh], entered in the
    state [st] with the cache file [c]: decoding and writing the base64 image,
    or, in the file-path branch, saving the copy kept in the cache. *)
Definition save_fails (w : world) (sh : shape) (c : string) (st : state) : Prop :=
  match sh with
  | ImageList first => exists e, (_save_base64_png w first c st).1 = Raise e
  | SingleImage img => exists e, (_save_base64_png w (VStr img) c st).1 = Raise e
  | ImageUrl _ => False
  | FilePath path =>
      exists st1 e,
        Widget.set_image_from_path w path st = (Ok tt, st1)
        /\ (Widget.download_and_save w c st1).1 = Raise e
  end.

(** The same without the cached copy of the file-path branch *)
Definition decode_fails (w : world) (sh : shape) (c : string) (st : state) : Prop :=
  match sh with
  | FilePath _ => False
  | _ => save_fails w sh c st
  end.

(** The failure modes of a run, [save] saying when saving the image fails:
    settings that cannot be used, a missing image-to-image source, a request
    that raises, an HTTP error status, a response that is not JSON, a response
    of no recognized shape, a decode or save error. *)
Inductive failure (save : world -> shape -> string -> state -> Prop)
    (w : world) (prompt : string) (msg_uuid : option string) (cu : option string) : Prop :=
| F_settings e :
    prepare w prompt = Raise e -> failure save w prompt msg_uuid cu
| F_no_source :
    prepare w prompt = Ok Rejected -> failure save w prompt msg_uuid cu
| F_request url payload e :
    prepare w prompt = Ok (Request url payload) ->
    http_post w url payload = Raise e ->
    failure save w prompt msg_uuid cu
| F_status url payload resp :
    prepare w prompt = Ok (Request url payload) ->
    http_post w url payload = Ok resp ->
    resp_ok resp = false ->
    failure save w prompt msg_uuid cu
| F_json url payload resp e :
    prepare w prompt = Ok (Request url payload) ->
    http_post w url payload = Ok resp ->
    resp_ok resp = true ->
    resp_json resp = Raise e ->
    failure save w prompt msg_uuid cu
| F_shape url payload resp data :
    prepare w prompt = Ok (Request url payload) ->
    http_post w url payload = Ok resp ->
    resp_ok resp = true ->
    resp_json resp = Ok data ->
    select_shape data = None ->
    failure save w prompt msg_uuid cu
| F_save url payload resp data sh :
    prepare w prompt = Ok (Request url payload) ->
    http_post w url payload = Ok resp ->
    resp_ok resp = true ->
    resp_json resp = Ok data ->
    select_shape data = Some sh ->
    save w sh (cache_out w msg_uuid) (extend (start cu) [EPost url payload]) ->
    failure save w prompt msg_uuid cu.

(** C9 as stated: no run propagates an exception, and every failure ends with
    the error line printed and [show_loading(False)] called. *)
Definition failures_reported (w : world) : Prop :=
  forall prompt msg_uuid cu,
    let r := generate_image w prompt msg_uuid (start cu) in
    r.1 = Ok tt /\ (failure save_fails w prompt msg_uuid cu -> reported (trace r.2)).

(** The three supported forms of a generation block *)
Inductive input_shape : Type :=
| FencedBody      (* the prompt is the body of a block tagged generateimage *)
| OneLiner        (* the block has no body, the info string is the tag and the prompt *)
| TaggedBody.     (* the body repeats the tag before the prompt *)

(** The arguments [codeblock] and [lang] for a prompt in a given form *)
Definition shape_input (sh : input_shape) (p : string) : option string * option string :=
  match sh with
  | FencedBody => (Some p, Some "generateimage")
  | OneLiner => (Some EmptyString, Some ("generateimage " +:+ p))
  | TaggedBody => (Some ("generateimage " +:+ p), Some "generateimage")
  end.

Definition extract_shape (sh : input_shape) (p : string) : string :=
  Extract._extract_prompt_from_block (shape_input sh p).1 (shape_input sh p).2.

(** Extracting again, the text as body and the info string empty *)
Definition extract_again (r : string) : string :=
  Extract._extract_prompt_from_block (Some r) (Some EmptyString).

(** C5 as stated *)
Definition extraction_idempotent : Prop :=
  forall sh p, extract_again (extract_shape sh p) = extract_shape sh p.

(** The text does not start with a tag at a word boundary *)
Definition untagged (r : string) : Prop :=
  forall tag, tag ∈ Extract.tag_patterns -> Extract.match_tag tag r = None.

(** The text is wrapped in triple backticks, as [strip_ticks] tests it *)
Definition wrapped (r : string) : bool :=
  startswith Extract.ticks r && endswith Extract.ticks r && (6 <=? String.length r)%nat.

(** No call to GTK or to the file system raises. *)
Definition calm (w : world) : Prop := forall tr, raises w tr = None.

(** The trace holds the three calls that write [bytes] to the file [c], one
    after the other: its directory made, the file opened for writing, the
    bytes written. *)
Definition written (c bytes : string) (tr : list event) : Prop :=
  exists l1 l2,
    tr = l1 ++ [EMakedirs (PosixPath.dirname c); EOpenWrite c; EWrite c bytes] ++ l2.

(** The image of a run is cached at [c]: what the trace of the run holds, for
    the shape [sh] of the answer and a widget whose URL was [cu] before the
    run.  A base64 image that decodes is written to [c].  For a URL the loader
    is called with [c] as the path to save the loaded image to.  For a file
    path the copy comes from the widget: when the widget has a URL, its
    pixbuf is saved to [c], or the URL is loaded to be saved to [c]. *)
Definition cached_at (w : world) (sh : shape) (cu : option string) (c : string)
    (tr : list event) : Prop :=
  match sh with
  | ImageList first =>
      forall b64 bytes,
        strip_data_prefix first = Ok (VStr b64) -> b64decode w b64 = Ok bytes ->
        written c bytes tr
  | SingleImage img =>
      forall b64 bytes,
        strip_data_prefix (VStr img) = Ok (VStr b64) -> b64decode w b64 = Ok bytes ->
        written c bytes tr
  | ImageUrl url => ELoadFromUrl url c ∈ tr
  | FilePath _ =>
      forall u, cu = Some u -> is_empty u = false ->
        ESavePixbuf c ∈ tr \/ ELoadFromUrl u c ∈ tr
  end.

(** ** Worlds of the examples *)

Module Examples.

(** The server answers with one base64 image in a list. *)
Definition list_answer : res response :=
  Ref.ok_json (VDict {["images" := VList [VStr "aGk="]]}).

(** A response with a list of images and a single image *)
Definition both_images : gmap string pyval :=
  {["images" := VList [VStr "aGk="]; "image" := VStr "aGkh"]}.

(** A response whose list of images is empty, with a single image *)
Definition empty_list_and_image : gmap string pyval :=
  {["images" := VList []; "image" := VStr "aGk="]}.

(** Default settings, an image list in the answer *)
Definition w_plain : world := Ref.world_of [] "/c" list_answer.

(** A seed of 5, and an overlay that sets [reuse_seed] to [false] *)
Definition w_seed_overlay : world :=
  Ref.world_of [("seed", VStr "5");
                ("extra_payload", VStr (Ref.obj1 "reuse_seed" "false"))]
    "/c" list_answer.

(** A seed of 5 and no overlay *)
Definition w_seed : world := Ref.world_of [("seed", VStr "5")] "/c" list_answer.

(** An overlay with one key the builder does not know *)
Definition w_overlay : world :=
  Ref.world_of [("extra_payload", VStr (Ref.obj1 "sampler" "3"))] "/c" list_answer.

(** A url setting that ends with a slash *)
Definition w_slash : world :=
  Ref.world_of [("url", VStr "http://localhost:7861/")] "/c" list_answer.

(** A steps setting that is not a number *)
Definition w_steps : world := Ref.world_of [("steps", VStr "abc")] "/c" list_answer.

(** A width setting that is not a number *)
Definition w_width : world := Ref.world_of [("width", VStr "wide")] "/c" list_answer.

(** Image-to-image set to the text [yes], no source path *)
Definition w_img2img_yes : world :=
  Ref.world_of [("img2img_enabled", VStr "yes")] "/c" list_answer.

(** Image-to-image on, the source path made of spaces *)
Definition w_img2img : world :=
  Ref.world_of [("img2img_enabled", VFloat (Py.float_of_Z 1));
                ("img2img_image", VStr "   ")] "/c" list_answer.

(** The server answers with the path of a file. *)
Definition w_path : world :=
  Ref.world_of [] "/c" (Ref.ok_json (VDict {["file_path" := VStr "/tmp/x.png"]})).

(** The server answers with status 500. *)
Definition w_500 : world :=
  Ref.world_of [] "/c"
    (Ok {| resp_ok := false; resp_status_code := 500;
           resp_text := "Internal Server Error"; resp_json := Ok VNone |}).

End Examples.

(* ===================================================================== *)
(** ** The rest of the extension *)
(* ===================================================================== *)

(** [get_replace_codeblocks_langs] *)
Definition get_replace_codeblocks_langs : list string :=
  ["generateimage"; "lightdiffusion"].

(** [__init__]: [self.cache_dir] for the [extension_path] given *)
Definition init_cache_dir (extension_path : string) : string :=
  PosixPath.join extension_path "generated_images".

(** [restore_gtk_widget]: [cached_path].  The identifier is formatted as it
    is, [None] as the text [None]. *)
Definition restore_path (w : world) (msg_uuid : option string) : string :=
  PosixPath.join (cache_dir w)
    (match msg_uuid with Some u => u | None => "None" end +:+ ".png").

(** [ImageGeneratorWidget.__init__]: the fields are set, [current_pixbuf] and
    [current_url] to [None] (the state [fresh]); the GTK children are built,
    which is none of the calls a trace records; the last statement is
    [self.show_loading(True)]. *)
Definition widget_init (w : world) : M unit := Widget.show_loading w true.

(** [restore_gtk_widget]: the widget is constructed, the prompt extracted
    from the block is set on it, and the cached image is loaded when
    [os.path.exists(cached_path)], which [path_exists] answers.  The result is
    the prompt of the widget returned, and the calls made on it. *)
Definition restore_gtk_widget (w : world) (path_exists : string -> bool)
    (codeblock lang : option string) (msg_uuid : option string)
  : res string * state :=
  (widget_init w ;;;
   let normalized_prompt := Extract._extract_prompt_from_block codeblock lang in
   let cached_path := restore_path w msg_uuid in
   (if path_exists cached_path
    then Widget.set_image_from_path w cached_path
    else ret tt) ;;;
   ret normalized_prompt) fresh.

(** [on_save_response]: the path the image is saved to, for the path the file
    dialog returned *)
Definition png_path (file_path : string) : string :=
  if negb (endswith ".png" (lower file_path))
  then file_path +:+ ".png"
  else file_path.

(** The arguments [codeblock] and [lang] for a prompt in a given form, under
    the tag [tag] *)
Definition tagged_input (sh : input_shape) (tag p : string)
  : option string * option string :=
  match sh with
  | FencedBody => (Some p, Some tag)
  | OneLiner => (Some EmptyString, Some (tag +:+ " " +:+ p))
  | TaggedBody => (Some (tag +:+ " " +:+ p), Some tag)
  end.

(** A prompt as the extractor returns it untouched: no whitespace at its ends,
    no tag and no backticks at its start, no newline *)
Definition clean (p : string) : Prop :=
  strip p = p /\ untagged p /\ startswith Extract.ticks p = false
  /\ Extract.has_newline p = false.

(** A [data:] URI header: [data:], a media type without comma, a comma *)
Definition data_header (media : string) : string := "data:" +:+ media +:+ ",".

Fixpoint has_comma (s : string) : bool :=
  match s with
  | EmptyString => false
  | String c r => Ascii.eqb c ","%char || has_comma r
  end.

Fixpoint has_bracket (s : string) : bool :=
  match s with
  | EmptyString => false
  | String c r => Ascii.eqb c "["%char || has_bracket r
  end.

(** An event that sends a request *)
Definition is_post (e : event) : bool :=
  match e with EPost _ _ => true | _ => false end.

(** More worlds for the examples *)
Module Examples2.

(** The answer carries a single image behind a [data:] header. *)
Definition w_single : world :=
  Ref.world_of [] "/c" (Ref.ok_json (VDict {["image" := VStr "data:image/png;base64,aGk="]})).

(** The answer carries a URL. *)
Definition w_url : world :=
  Ref.world_of [] "/c" (Ref.ok_json (VDict {["image_url" := VStr "http://x/y.png"]})).

(** The overlay is not JSON. *)
Definition w_bad_json : world :=
  Ref.world_of [("extra_payload", VStr "{oops")] "/c" Examples.list_answer.

(** The overlay is JSON but not an object. *)
Definition w_json_list : world :=
  Ref.world_of [("extra_payload", VStr "[1]")] "/c" Examples.list_answer.

(** Image-to-image on, with a source path. *)
Definition w_img2img_ok : world :=
  Ref.world_of [("img2img_enabled", VInt 1); ("img2img_image", VStr "/srv/in.png")]
    "/c" Examples.list_answer.

(** A seed below -1. *)
Definition w_seed_neg : world := Ref.world_of [("seed", VStr "-5")] "/c" Examples.list_answer.

(** A prompt template around the placeholder. *)
Definition w_template : world :=
  Ref.world_of [("positive-prompt", VStr "photo of [input], 4k")] "/c" Examples.list_answer.

(** A prompt template without the placeholder. *)
Definition w_template_fixed : world :=
  Ref.world_of [("positive-prompt", VStr "a dog")] "/c" Examples.list_answer.

(** The answer is base64 that does not decode. *)
Definition w_bad_b64 : world :=
  Ref.world_of [] "/c" (Ref.ok_json (VDict {["image" := VStr "a"]})).

End Examples2.
(* ===================================================================== *)
(** * Properties *)
(* ===================================================================== *)

(** ** Traces of computations *)

Section TraceRules.

Context {A B : Type}.
Variable P : event -> Prop.

Lemma emits_ret (a : A) : emits P (ret a).
Proof. intros st. exists []. simpl. rewrite app_nil_r. auto. Qed.

Lemma emits_throw (e : exn) : emits P (@throw A e).
Proof. intros st. exists []. simpl. rewrite app_nil_r. auto. Qed.

Lemma emits_lift (r : res A) : emits P (lift r).
Proof. destruct r; [apply emits_ret | apply emits_throw]. Qed.

Lemma emits_bind (m : M A) (k : A -> M B) :
  emits P m -> (forall a, emits P (k a)) -> emits P (bind m k).
Proof.
  intros Hm Hk st. unfold bind.
  destruct (Hm st) as (l1 & E1 & F1).
  destruct (m st) as [[a | e] st1]; simpl in *.
  - destruct (Hk a st1) as (l2 & E2 & F2).
    exists (l1 ++ l2). rewrite E2, E1, app_assoc. split; [done | by apply Forall_app].
  - exists l1. auto.
Qed.

Lemma emits_try (m : M A) (h : exn -> M A) :
  emits P m -> (forall e, emits P (h e)) -> emits P (try_except m h).
Proof.
  intros Hm Hh st. unfold try_except.
  destruct (Hm st) as (l1 & E1 & F1).
  destruct (m st) as [[a | e] st1]; simpl in *.
  - exists l1. auto.
  - destruct (Hh e st1) as (l2 & E2 & F2).
    exists (l1 ++ l2). rewrite E2, E1, app_assoc. split; [done | by apply Forall_app].
Qed.

End TraceRules.

Lemma emits_emit (P : event -> Prop) (e : event) : P e -> emits P (emit e).
Proof. intros H st. exists [e]. simpl. auto. Qed.

Lemma emits_call (P : event -> Prop) (w : world) (e : event) : P e -> emits P (call w e).
Proof.
  intros H st. exists [e]. unfold call.
  destruct (raises w _); simpl; auto.
Qed.

Lemma emits_set_current_url (P : event -> Prop) (u : string) : emits P (set_current_url u).
Proof. intros st. exists []. simpl. rewrite app_nil_r. auto. Qed.

Lemma emits_get_current_url (P : event -> Prop) : emits P get_current_url.
Proof. intros st. exists []. simpl. rewrite app_nil_r. auto. Qed.

Lemma emits_pixbuf_loaded (P : event -> Prop) (w : world) : emits P (pixbuf_loaded w).
Proof. intros st. exists []. simpl. rewrite app_nil_r. auto. Qed.

Lemma emits_weaken {A} (P Q : event -> Prop) (m : M A) :
  (forall e, P e -> Q e) -> emits P m -> emits Q m.
Proof.
  intros H Hm st. destruct (Hm st) as (l & E & F).
  exists l. split; [done |]. eapply Forall_impl; eauto.
Qed.

Create HintDb trace_rules.
#[export] Hint Resolve emits_ret emits_throw emits_lift emits_set_current_url
  emits_get_current_url emits_pixbuf_loaded : trace_rules.

(** Decompose a goal [emits P m] along the structure of [m]. *)
Ltac emits_step :=
  match goal with
  | |- emits _ (bind _ _) => apply emits_bind; [| intros ?]
  | |- emits _ (try_except _ _) => apply emits_try; [| intros ?]
  | |- emits _ (emit _) => apply emits_emit; simpl; auto
  | |- emits _ (call _ _) => apply emits_call; simpl; auto
  | |- emits _ (if ?b then _ else _) => destruct b
  | |- emits _ (match ?x with _ => _ end) => destruct x
  | |- emits _ _ => solve [auto with trace_rules]
  end.

Section WidgetTraces.

Variable w : world.
Variable c : string.

Lemma emits_show_loading b : emits (after_post c) (Widget.show_loading w b).
Proof. unfold Widget.show_loading. emits_step. Qed.

Lemma emits_set_image_from_url u : emits (after_post c) (Widget.set_image_from_url w u c).
Proof.
  unfold Widget.set_image_from_url.
  repeat (first [apply emits_show_loading | emits_step]).
Qed.

Lemma emits_set_image_from_path p : emits (after_post c) (Widget.set_image_from_path w p).
Proof.
  unfold Widget.set_image_from_path.
  repeat (first [apply emits_show_loading | emits_step]).
Qed.

Lemma emits_save_image : emits (after_post c) (Widget.save_image w c).
Proof. unfold Widget.save_image. repeat emits_step. Qed.

Lemma emits_download_and_save : emits (after_post c) (Widget.download_and_save w c).
Proof.
  unfold Widget.download_and_save.
  repeat (first [apply emits_save_image | apply emits_set_image_from_url | emits_step]).
Qed.

Lemma emits_show_error_message msg : emits (after_post c) (show_error_message w msg).
Proof.
  unfold show_error_message.
  repeat (first [apply emits_show_loading | emits_step]).
Qed.

Lemma emits_save_base64_png v : emits (after_post c) (_save_base64_png w v c).
Proof. unfold _save_base64_png. repeat emits_step. Qed.

Lemma emits_consume sh : emits (after_post c) (consume w sh c).
Proof.
  destruct sh; unfold consume;
    repeat (first [apply emits_save_base64_png | apply emits_set_image_from_path
                  | apply emits_set_image_from_url | apply emits_download_and_save
                  | emits_step]).
Qed.

Lemma emits_interpret_response data : emits (after_post c) (interpret_response w data c).
Proof.
  unfold interpret_response. destruct (select_shape data).
  - apply emits_consume.
  - apply emits_show_error_message.
Qed.

End WidgetTraces.

(** ** The shape of a run of [generate_image] *)

(** Refute the membership [H] of an element in an explicit list of elements
    with other constructors. *)
Ltac not_in_list H :=
  repeat (apply elem_of_cons in H as [H | H]; [discriminate H |]);
  apply elem_of_nil in H; destruct H.

Section RunShape.

Variable w : world.

Lemma show_error_message_run msg st :
  show_error_message w msg st = (Ok tt, extend st (report msg)).
Proof.
  unfold show_error_message, bind, emit, try_except, Widget.show_loading, call, extend, report.
  simpl. rewrite <- app_assoc. simpl.
  destruct (raises w _); reflexivity.
Qed.

Lemma handler_run e st :
  (emit (EPrintExc e) ;;; show_error_message w (exn_str e)) st
  = (Ok tt, extend st (EPrintExc e :: report (exn_str e))).
Proof.
  unfold bind, emit. rewrite show_error_message_run. unfold extend. simpl.
  rewrite <- app_assoc. reflexivity.
Qed.

Lemma generate_image_total prompt msg_uuid st :
  (generate_image w prompt msg_uuid st).1 = Ok tt.
Proof.
  unfold generate_image, try_except.
  destruct (generate_image_body w prompt msg_uuid st) as [[[] | e] st1]; [done |].
  by rewrite handler_run.
Qed.

Lemma body_raise prompt msg_uuid st e :
  prepare w prompt = Raise e ->
  generate_image w prompt msg_uuid st
  = (Ok tt, extend st (EPrintExc e :: report (exn_str e))).
Proof.
  intros H. unfold generate_image, try_except, generate_image_body, bind.
  rewrite H. simpl. apply handler_run.
Qed.

Lemma body_rejected prompt msg_uuid st :
  prepare w prompt = Ok Rejected ->
  generate_image w prompt msg_uuid st = (Ok tt, extend st (report msg_no_image)).
Proof.
  intros H. unfold generate_image, try_except, generate_image_body, bind.
  rewrite H. simpl. by rewrite show_error_message_run.
Qed.

Lemma body_request prompt msg_uuid st url payload :
  prepare w prompt = Ok (Request url payload) ->
  generate_image_body w prompt msg_uuid st
  = respond w url payload msg_uuid (extend st [EPost url payload]).
Proof.
  intros H. unfold generate_image_body, respond, post, bind at 1 2 3.
  rewrite H. simpl. unfold bind at 1, extend.
  destruct (http_post w url payload); reflexivity.
Qed.

Lemma emits_respond url payload msg_uuid :
  emits (after_post (cache_out w msg_uuid)) (respond w url payload msg_uuid).
Proof.
  unfold respond.
  repeat (first [apply emits_show_error_message | apply emits_interpret_response
                | emits_step]).
Qed.

(** A run in which the request is sent: the request is the first call, and
    what follows neither sends another nor saves anywhere but at the cache
    file. *)
Lemma run_request prompt msg_uuid cu url payload :
  prepare w prompt = Ok (Request url payload) ->
  exists l,
    trace (generate_image w prompt msg_uuid (start cu)).2 = EPost url payload :: l
    /\ Forall (after_post (cache_out w msg_uuid)) l.
Proof.
  intros H.
  assert (E : emits (after_post (cache_out w msg_uuid))
                (try_except (respond w url payload msg_uuid)
                   (fun e => emit (EPrintExc e) ;;; show_error_message w (exn_str e)))).
  { apply emits_try; [apply emits_respond |]. intros e.
    repeat (first [apply emits_show_error_message | emits_step]). }
  destruct (E (extend (start cu) [EPost url payload])) as (l & El & Fl).
  exists l. split; [| done].
  unfold generate_image. unfold try_except in *.
  rewrite (body_request _ _ _ _ _ H). exact El.
Qed.

(** Every request a run sends is the one the request builder prepared. *)
Lemma post_inv prompt msg_uuid cu url payload :
  EPost url payload ∈ trace (generate_image w prompt msg_uuid (start cu)).2 ->
  prepare w prompt = Ok (Request url payload).
Proof.
  intros Hin.
  destruct (prepare w prompt) as [[| url' payload'] | e] eqn:Hp.
  - rewrite (body_rejected _ _ _ Hp) in Hin. simpl in Hin.
    unfold report in Hin. by not_in_list Hin.
  - destruct (run_request prompt msg_uuid cu _ _ Hp) as (l & El & Fl).
    rewrite El in Hin. apply elem_of_cons in Hin as [Heq | Hin].
    + by inversion Heq.
    + rewrite Forall_forall in Fl. apply Fl in Hin. destruct Hin.
  - rewrite (body_raise _ _ _ _ Hp) in Hin. simpl in Hin.
    unfold report in Hin. by not_in_list Hin.
Qed.

End RunShape.

(* ===================================================================== *)
(** ** The response normalizer *)
(* ===================================================================== *)

Lemma first_image_Some d x :
  first_image d = Some x <-> exists l, d !! "images" = Some (VList (x :: l)).
Proof.
  unfold first_image. split.
  - destruct (d !! "images") as [[| | | | | [| y l] |] |]; intros H;
      inversion H; subst; eauto.
  - intros [l ->]. reflexivity.
Qed.

Lemma str_at_Some d key s : str_at d key = Some s <-> d !! key = Some (VStr s).
Proof.
  unfold str_at. split.
  - destruct (d !! key) as [[] |]; intros H; inversion H; subst; eauto.
  - intros ->. reflexivity.
Qed.

Lemma select_shape_tests d :
  select_shape (VDict d) =
  match first_image d with
  | Some first => Some (ImageList first)
  | None =>
      match str_at d "image" with
      | Some img => Some (SingleImage img)
      | None =>
          match str_at d "image_url" with
          | Some url => Some (ImageUrl url)
          | None =>
              match str_at d "file_path" with
              | Some path => Some (FilePath path)
              | None => None
              end
          end
      end
  end.
Proof.
  unfold select_shape, first_image, str_at.
  destruct (d !! "images") as [[| | | | | [| y l] |] |]; try reflexivity;
  (destruct (d !! "image") as [[] |]; try reflexivity;
   (destruct (d !! "image_url") as [[] |]; try reflexivity;
    (destruct (d !! "file_path") as [[] |]; reflexivity))).
Qed.

Lemma usable_tests d k :
  usable d k <->
  match k with
  | KList => is_Some (first_image d)
  | KSingle => is_Some (str_at d "image")
  | KUrl => is_Some (str_at d "image_url")
  | KPath => is_Some (str_at d "file_path")
  end.
Proof.
  destruct k; simpl; unfold is_Some.
  - split.
    + intros (x & l & H). exists x. apply first_image_Some. eauto.
    + intros (x & H). apply first_image_Some in H as [l H]. eauto.
  - split; intros (s & H); exists s; by apply str_at_Some.
  - split; intros (s & H); exists s; by apply str_at_Some.
  - split; intros (s & H); exists s; by apply str_at_Some.
Qed.

Lemma select_shape_reads d sh : select_shape (VDict d) = Some sh -> reads d sh.
Proof.
  rewrite select_shape_tests. intros H.
  destruct (first_image d) eqn:E1; [inversion H; subst; by apply first_image_Some |].
  destruct (str_at d "image") eqn:E2; [inversion H; subst; by apply str_at_Some |].
  destruct (str_at d "image_url") eqn:E3; [inversion H; subst; by apply str_at_Some |].
  destruct (str_at d "file_path") eqn:E4; [inversion H; subst; by apply str_at_Some |].
  discriminate.
Qed.

Lemma select_shape_usable d sh : select_shape (VDict d) = Some sh -> usable d (kind_of sh).
Proof.
  intros H. apply select_shape_reads in H.
  destruct sh; simpl in *; eauto.
Qed.

Lemma usable_selects d k : usable d k -> exists sh, select_shape (VDict d) = Some sh.
Proof.
  rewrite usable_tests, select_shape_tests. intros H.
  destruct (first_image d); [eauto |].
  destruct (str_at d "image"); [eauto |].
  destruct (str_at d "image_url"); [eauto |].
  destruct (str_at d "file_path"); [eauto |].
  destruct k; by destruct H.
Qed.

Lemma select_shape_least d sh k :
  select_shape (VDict d) = Some sh -> usable d k -> (rank (kind_of sh) <= rank k)%nat.
Proof.
  rewrite usable_tests, select_shape_tests. intros H Hk.
  destruct (first_image d); [inversion H; subst; simpl; lia |].
  destruct (str_at d "image");
    [inversion H; subst; destruct k; simpl; try lia; by destruct Hk |].
  destruct (str_at d "image_url");
    [inversion H; subst; destruct k; simpl; try lia; by destruct Hk |].
  destruct (str_at d "file_path");
    [inversion H; subst; destruct k; simpl; try lia; by destruct Hk |].
  discriminate.
Qed.

Lemma unmatched_select data : unmatched data -> select_shape data = None.
Proof.
  intros H. destruct data; try reflexivity.
  destruct (H d eq_refl) as (H1 & H2 & H3 & H4).
  rewrite select_shape_tests.
  destruct (first_image d) eqn:E1.
  { apply first_image_Some in E1 as [l E1]. apply H1 in E1. discriminate. }
  destruct (str_at d "image") eqn:E2.
  { apply str_at_Some in E2. by apply H2 in E2. }
  destruct (str_at d "image_url") eqn:E3.
  { apply str_at_Some in E3. by apply H3 in E3. }
  destruct (str_at d "file_path") eqn:E4.
  { apply str_at_Some in E4. by apply H4 in E4. }
  reflexivity.
Qed.

(** C2 (as amended).  For every response object, the normalizer takes one
    shape: the first in the order image list, single image, URL, file path
    whose key is present with its recognized type, an [images] array counting
    only when it is not empty.  The shape holds the datum of that key, and the
    run is the branch of that shape and nothing else. *)
Theorem C2_first_match_wins (w : world) (d : gmap string pyval) (k : kind) (c : string) :
  usable d k ->
  (forall k', usable d k' -> (rank k <= rank k')%nat) ->
  exists sh,
    select_shape (VDict d) = Some sh /\ kind_of sh = k /\ reads d sh
    /\ interpret_response w (VDict d) c = consume w sh c.
Proof.
  intros Hk Hmin.
  destruct (usable_selects d k Hk) as [sh Hsh].
  exists sh. repeat split.
  - exact Hsh.
  - pose proof (select_shape_least d sh k Hsh Hk) as H1.
    pose proof (Hmin _ (select_shape_usable d sh Hsh)) as H2.
    destruct sh, k; simpl in *; try reflexivity; lia.
  - by apply select_shape_reads.
  - unfold interpret_response. by rewrite Hsh.
Qed.

Lemma C2_first_match_wins_witness :
  exists sh,
    select_shape (VDict Examples.both_images) = Some sh /\ kind_of sh = KList
    /\ reads Examples.both_images sh
    /\ interpret_response Examples.w_plain (VDict Examples.both_images) "/c/m1.png"
       = consume Examples.w_plain sh "/c/m1.png".
Proof.
  apply (C2_first_match_wins Examples.w_plain Examples.both_images KList).
  - exists (VStr "aGk="), []. vm_compute. reflexivity.
  - intros k' _. simpl. lia.
Defined.

(** C2 as stated fails: in the response [{"images": [], "image": "aGk="}] the
    [images] key is present with its recognized type and first in the order,
    and the shape taken is the single image. *)
Lemma C2_counterexample : ~ first_wins present.
Proof.
  intros H.
  destruct (H Examples.empty_list_and_image KList) as (sh & Hsel & Hk).
  - exists []. vm_compute. reflexivity.
  - intros k' _. simpl. lia.
  - vm_compute in Hsel. inversion Hsel; subst sh. discriminate Hk.
Qed.

(** C4.  When none of the four interpretations matches the response, the
    normalizer calls [show_error_message] with the text "Unexpected response
    format from backend.": the line is printed, [show_loading(False)] is
    called, and no other call is made, so no image is set on the widget. *)
Theorem C4_unexpected_format (w : world) (data : pyval) (c : string) (st : state) :
  unmatched data ->
  select_shape data = None
  /\ interpret_response w data c st
     = (Ok tt, extend st [EPrint (error_prefix +:+ msg_unexpected); EShowLoading false]).
Proof.
  intros H. apply unmatched_select in H. split; [done |].
  unfold interpret_response. rewrite H. apply show_error_message_run.
Qed.

Lemma C4_unexpected_format_witness :
  interpret_response Examples.w_plain (VDict {["image" := VInt 5]}) "/c/m1.png" (start None)
  = (Ok tt, extend (start None)
              [EPrint (error_prefix +:+ msg_unexpected); EShowLoading false]).
Proof.
  apply (C4_unexpected_format Examples.w_plain (VDict {["image" := VInt 5]})).
  intros d Hd. inversion Hd; subst d.
  repeat split; intros x Hx; vm_compute in Hx; discriminate Hx.
Defined.

(* ===================================================================== *)
(** ** The cache file *)
(* ===================================================================== *)

Lemma after_post_target c e p : after_post c e -> cache_target e = Some p -> p = c.
Proof. destruct e; simpl; intros H E; inversion E; subst; auto. Qed.

(** Whatever a run saves, it saves at [cache_out]. *)
Lemma cache_writes (w : world) prompt msg_uuid cu e p :
  e ∈ trace (generate_image w prompt msg_uuid (start cu)).2 ->
  cache_target e = Some p ->
  p = cache_out w msg_uuid.
Proof.
  intros Hin Ht.
  destruct (prepare w prompt) as [[| url payload] | x] eqn:Hp.
  - rewrite (body_rejected _ _ _ _ Hp) in Hin. simpl in Hin. unfold report in Hin.
    repeat (apply elem_of_cons in Hin as [-> | Hin]; [discriminate Ht |]).
    by apply elem_of_nil in Hin.
  - destruct (run_request w prompt msg_uuid cu _ _ Hp) as (l & El & Fl).
    rewrite El in Hin. apply elem_of_cons in Hin as [-> | Hin]; [discriminate Ht |].
    rewrite Forall_forall in Fl. eapply after_post_target; eauto.
  - rewrite (body_raise _ _ _ _ _ Hp) in Hin. simpl in Hin. unfold report in Hin.
    repeat (apply elem_of_cons in Hin as [-> | Hin]; [discriminate Ht |]).
    by apply elem_of_nil in Hin.
Qed.

Section Answers.

Variable w : world.

(** The run, once the request is prepared *)
Lemma run_respond prompt msg_uuid st url payload :
  prepare w prompt = Ok (Request url payload) ->
  generate_image w prompt msg_uuid st
  = try_except (respond w url payload msg_uuid)
      (fun e => emit (EPrintExc e) ;;; show_error_message w (exn_str e))
      (extend st [EPost url payload]).
Proof.
  intros H. unfold generate_image, try_except.
  by rewrite (body_request w _ _ _ _ _ H).
Qed.

(** What follows the request, for an answer that is not an error and is JSON *)
Lemma respond_json msg_uuid st url payload resp data :
  http_post w url payload = Ok resp ->
  resp_ok resp = true ->
  resp_json resp = Ok data ->
  respond w url payload msg_uuid st
  = interpret_response w data (cache_out w msg_uuid) st.
Proof.
  intros Hpost Hok Hjson. unfold respond, bind at 1. rewrite Hpost.
  cbn [lift ret]. rewrite Hok. cbn [negb]. unfold bind at 1. by rewrite Hjson.
Qed.

(** A run whose answer has the shape [sh] is the request and the branch of
    the shape, under the handler of the [try] block. *)
Lemma run_consume prompt msg_uuid st url payload resp data sh :
  prepare w prompt = Ok (Request url payload) ->
  http_post w url payload = Ok resp ->
  resp_ok resp = true ->
  resp_json resp = Ok data ->
  select_shape data = Some sh ->
  generate_image w prompt msg_uuid st
  = try_except (consume w sh (cache_out w msg_uuid))
      (fun e => emit (EPrintExc e) ;;; show_error_message w (exn_str e))
      (extend st [EPost url payload]).
Proof.
  intros Hp Hpost Hok Hjson Hsel.
  rewrite (run_respond _ _ _ _ _ Hp). unfold try_except.
  rewrite (respond_json _ _ _ _ _ _ Hpost Hok Hjson).
  unfold interpret_response. by rewrite Hsel.
Qed.

(** Saving a base64 image that decodes, then showing it *)
Lemma save_then_show (c : string) (img : pyval) (b64 bytes : string) (st : state) :
  calm w ->
  strip_data_prefix img = Ok (VStr b64) ->
  b64decode w b64 = Ok bytes ->
  (_save_base64_png w img c ;;; Widget.set_image_from_path w c) st
  = (Ok tt,
     extend st [EMakedirs (PosixPath.dirname c); EOpenWrite c; EWrite c bytes;
                EShowLoading true; ELoadFromPath c]).
Proof.
  intros Hcalm Hprefix Hdec.
  unfold _save_base64_png, Widget.set_image_from_path, Widget.show_loading,
    bind, call, lift, extend. rewrite Hprefix.
  cbn [ret throw trace current_url fst snd decode].
  repeat (rewrite ?Hcalm, ?Hdec; cbn [ret throw trace current_url fst snd]).
  rewrite <- !app_assoc. reflexivity.
Qed.

(** Loading from a URL, no call raising: the loader is given the path to save
    the image to. *)
Lemma load_from_url_run (u c : string) (st : state) :
  calm w ->
  Widget.set_image_from_url w u c st
  = (Ok tt, {| trace := trace st ++ [EShowLoading true; ELoadFromUrl u c];
               current_url := Some u |}).
Proof.
  intros Hcalm.
  unfold Widget.set_image_from_url, Widget.show_loading, set_current_url,
    try_except, bind, call.
  cbn [ret throw trace current_url fst snd].
  repeat (rewrite ?Hcalm; cbn [ret throw trace current_url fst snd]).
  rewrite <- !app_assoc. reflexivity.
Qed.

(** The file-path branch on a widget that has a URL, no call raising: the
    pixbuf of the widget is saved to the cache file, or, when the widget has
    none, its URL is loaded to be saved there. *)
Lemma file_path_branch_used_widget (path c u : string) (st : state) :
  calm w ->
  current_url st = Some u ->
  is_empty u = false ->
  exists l,
    consume w (FilePath path) c st = (Ok tt, {| trace := trace st ++ l; current_url := Some u |})
    /\ (ESavePixbuf c ∈ l \/ ELoadFromUrl u c ∈ l).
Proof.
  intros Hcalm Hu Hne.
  unfold consume, Widget.set_image_from_path, Widget.show_loading, bind at 1 2, call.
  cbn [ret throw trace current_url fst snd].
  repeat (rewrite ?Hcalm; cbn [ret throw trace current_url fst snd]).
  unfold try_except, Widget.download_and_save, bind at 1, get_current_url.
  cbn [ret throw trace current_url fst snd]. rewrite Hu, Hne.
  unfold bind at 1, pixbuf_loaded. cbn [ret throw trace current_url fst snd].
  destruct (has_pixbuf w ((trace st ++ [EShowLoading true]) ++ [ELoadFromPath path]))
    eqn:Hpix.
  - exists [EShowLoading true; ELoadFromPath path;
            EMakedirs (PosixPath.dirname c); ESavePixbuf c].
    split; [| left; do 3 apply list_elem_of_further; apply list_elem_of_here].
    unfold try_except, Widget.save_image, bind, pixbuf_loaded, call.
    cbn [ret throw trace current_url fst snd]. rewrite Hpix.
    cbn [negb]. cbn [ret throw trace current_url fst snd].
    repeat (rewrite ?Hcalm; cbn [ret throw trace current_url fst snd]).
    rewrite <- !app_assoc. reflexivity.
  - exists [EShowLoading true; ELoadFromPath path; EShowLoading true; ELoadFromUrl u c].
    split; [| right; do 3 apply list_elem_of_further; apply list_elem_of_here].
    rewrite (load_from_url_run u c _ Hcalm).
    cbn [ret throw trace current_url fst snd]. rewrite <- !app_assoc. reflexivity.
Qed.

(** What a run whose answer has the shape [sh] leaves at its cache file, no
    call raising *)
Lemma run_caches prompt msg_uuid cu url payload resp data sh :
  calm w ->
  prepare w prompt = Ok (Request url payload) ->
  http_post w url payload = Ok resp ->
  resp_ok resp = true ->
  resp_json resp = Ok data ->
  select_shape data = Some sh ->
  cached_at w sh cu (cache_out w msg_uuid)
    (trace (generate_image w prompt msg_uuid (start cu)).2).
Proof.
  intros Hcalm Hp Hpost Hok Hjson Hsel.
  rewrite (run_consume _ _ _ _ _ _ _ _ Hp Hpost Hok Hjson Hsel). unfold try_except.
  set (c := cache_out w msg_uuid).
  destruct sh as [first | img | u | path]; unfold cached_at.
  - intros b64 bytes Hprefix Hdec. unfold consume.
    rewrite (save_then_show c first b64 bytes _ Hcalm Hprefix Hdec).
    exists [EPost url payload], [EShowLoading true; ELoadFromPath c]. reflexivity.
  - intros b64 bytes Hprefix Hdec. unfold consume.
    rewrite (save_then_show c (VStr img) b64 bytes _ Hcalm Hprefix Hdec).
    exists [EPost url payload], [EShowLoading true; ELoadFromPath c]. reflexivity.
  - unfold consume. rewrite (load_from_url_run u c _ Hcalm). simpl.
    do 2 apply list_elem_of_further. apply list_elem_of_here.
  - intros u -> Hne.
    destruct (file_path_branch_used_widget path c u
                (extend (start (Some u)) [EPost url payload]) Hcalm eq_refl Hne)
      as (l & -> & Hl).
    simpl. destruct Hl as [Hl | Hl]; [left | right]; by apply list_elem_of_further.
Qed.

End Answers.

(** C10.  A run of [generate_image] with [msg_uuid = None] caches its image
    in the file [latest.png] of the cache directory, whatever the prompt, the
    settings and the answer, so two such runs write the same file.  Whatever
    a run saves goes there; and a run whose answer is read, no call raising,
    does save there: a base64 image that decodes is written to the file, for
    a URL the loader is given the file to save the image to, and for a file
    path the copy is saved there when the widget has a URL to take it from. *)
Theorem C10_latest_png (w : world) (prompt : string) (cu : option string) :
  let latest := PosixPath.join (cache_dir w) "latest.png" in
  let tr := trace (generate_image w prompt None (start cu)).2 in
  (forall e p, e ∈ tr -> cache_target e = Some p -> p = latest)
  /\ (forall url payload resp data sh,
        calm w ->
        prepare w prompt = Ok (Request url payload) ->
        http_post w url payload = Ok resp ->
        resp_ok resp = true ->
        resp_json resp = Ok data ->
        select_shape data = Some sh ->
        cached_at w sh cu latest tr).
Proof.
  intros latest tr. split.
  - intros e p Hin Ht. by rewrite (cache_writes w prompt None cu e p Hin Ht).
  - intros url payload resp data sh Hcalm Hp Hpost Hok Hjson Hsel.
    exact (run_caches w prompt None cu url payload resp data sh
             Hcalm Hp Hpost Hok Hjson Hsel).
Qed.

Lemma C10_latest_png_witness :
  written "/c/latest.png" "hi"
    (trace (generate_image Examples.w_plain "a cat" None (start None)).2).
Proof.
  destruct (C10_latest_png Examples.w_plain "a cat" None) as [_ H].
  apply (H "http://localhost:7861/api/generate"
           (final_payload Examples.w_plain "a cat")
           {| resp_ok := true; resp_status_code := 200; resp_text := EmptyString;
              resp_json := Ok (VDict {["images" := VList [VStr "aGk="]]}) |}
           (VDict {["images" := VList [VStr "aGk="]]})
           (ImageList (VStr "aGk=")) ltac:(intros tr; reflexivity)
           ltac:(vm_compute; reflexivity) eq_refl eq_refl eq_refl
           ltac:(vm_compute; reflexivity) "aGk=" "hi");
    vm_compute; reflexivity.
Defined.

(** The same through [get_gtk_widget], which runs [generate_image] on a new
    widget. *)
Lemma get_gtk_widget_latest (w : world) codeblock lang e p :
  e ∈ trace (get_gtk_widget w codeblock lang None).2 ->
  cache_target e = Some p ->
  p = PosixPath.join (cache_dir w) "latest.png".
Proof.
  unfold get_gtk_widget, fresh. intros Hin Ht.
  by rewrite (cache_writes w _ None None e p Hin Ht).
Qed.

(** Through [get_gtk_widget] too, a run whose answer is read caches its image
    at [latest.png]. *)
Lemma get_gtk_widget_caches (w : world) codeblock lang url payload resp data sh :
  calm w ->
  prepare w (Extract._extract_prompt_from_block codeblock lang) = Ok (Request url payload) ->
  http_post w url payload = Ok resp ->
  resp_ok resp = true ->
  resp_json resp = Ok data ->
  select_shape data = Some sh ->
  cached_at w sh None (PosixPath.join (cache_dir w) "latest.png")
    (trace (get_gtk_widget w codeblock lang None).2).
Proof.
  intros Hcalm Hp Hpost Hok Hjson Hsel. unfold get_gtk_widget, fresh.
  exact (run_caches w _ None None url payload resp data sh Hcalm Hp Hpost Hok Hjson Hsel).
Qed.

(** With an identifier, the file is named after it. *)
Lemma cache_out_keyed (w : world) u :
  u <> EmptyString -> cache_out w (Some u) = PosixPath.join (cache_dir w) (u +:+ ".png").
Proof. intros H. unfold cache_out. destruct u; [done | reflexivity]. Qed.

(* ===================================================================== *)
(** ** The request builder *)
(* ===================================================================== *)

Lemma lookup_list_to_map (l : list (string * pyval)) (k : string) :
  (list_to_map l : gmap string pyval) !! k = assoc k l.
Proof.
  induction l as [| [k' v] l IH]; [apply lookup_empty |].
  rewrite list_to_map_cons. simpl.
  destruct (String.eqb_spec k' k) as [-> | Hne].
  - apply lookup_insert_eq.
  - by rewrite lookup_insert_ne.
Qed.

Lemma assoc_is_Some (l : list (string * pyval)) (k : string) :
  k ∈ l.*1 -> is_Some (assoc k l).
Proof.
  induction l as [| [k' v] l IH]; simpl.
  - intros H. by apply elem_of_nil in H.
  - intros H. destruct (String.eqb_spec k' k) as [-> | Hne]; [eauto |].
    apply elem_of_cons in H as [-> | H]; [done | auto].
Qed.

Lemma lookup_overlay (d built : gmap string pyval) (k : string) :
  overlay d built !! k =
  if decide (k = "endpoint_path") then built !! k
  else match d !! k with Some v => Some v | None => built !! k end.
Proof.
  unfold overlay. rewrite lookup_union.
  destruct (decide (k = "endpoint_path")) as [-> | Hne].
  - rewrite (map_lookup_filter_None_2 _ d "endpoint_path").
    + by destruct (built !! "endpoint_path").
    + right. intros x _ H. by apply H.
  - destruct (d !! k) as [v |] eqn:E.
    + rewrite (map_lookup_filter_Some_2 _ d k v E); [| done].
      by destruct (built !! k).
    + rewrite (map_lookup_filter_None_2 _ d k); [| by left].
      by destruct (built !! k).
Qed.

Section Builder.

Variable w : world.

Lemma lookup_attach_extras_other (m : gmap string pyval) (k : string) :
  k <> "steps" -> k <> "guidance_scale" -> k <> "seed" ->
  attach_extras w m !! k = m !! k.
Proof.
  intros H1 H2 H3. unfold attach_extras.
  destruct (0 <=? seed w); [rewrite lookup_insert_ne by done |];
  (destruct (guidance_scale w); [rewrite lookup_insert_ne by done |]);
  (destruct (steps w); [rewrite lookup_insert_ne by done |]); reflexivity.
Qed.

Lemma lookup_attach_extras_steps (m : gmap string pyval) :
  attach_extras w m !! "steps" =
  match steps w with Some n => Some (VInt n) | None => m !! "steps" end.
Proof.
  unfold attach_extras.
  destruct (0 <=? seed w); [rewrite lookup_insert_ne by done |];
  (destruct (guidance_scale w); [rewrite lookup_insert_ne by done |]);
  (destruct (steps w); [by rewrite lookup_insert_eq | reflexivity]).
Qed.

Lemma lookup_attach_extras_guidance (m : gmap string pyval) :
  attach_extras w m !! "guidance_scale" =
  match guidance_scale w with
  | Some g => Some (VFloat g)
  | None => m !! "guidance_scale"
  end.
Proof.
  unfold attach_extras.
  destruct (0 <=? seed w); [rewrite lookup_insert_ne by done |];
  (destruct (guidance_scale w); [by rewrite lookup_insert_eq |]);
  (destruct (steps w); [by rewrite lookup_insert_ne |]); reflexivity.
Qed.

Lemma lookup_attach_extras_seed (m : gmap string pyval) :
  attach_extras w m !! "seed" =
  if 0 <=? seed w then Some (VInt (seed w)) else m !! "seed".
Proof.
  unfold attach_extras.
  destruct (0 <=? seed w); [by rewrite lookup_insert_eq |];
  (destruct (guidance_scale w); [rewrite lookup_insert_ne by done |]);
  (destruct (steps w); [by rewrite lookup_insert_ne |]); reflexivity.
Qed.

Lemma lookup_build_payload pos k :
  build_payload w pos !! k = assoc k (payload_items w pos).
Proof. apply lookup_list_to_map. Qed.

(** What the builder hands over when it hands over a request *)
Lemma prepare_request prompt url payload :
  prepare w prompt = Ok (Request url payload) ->
  exists d pos,
    extra_payload w = VDict d
    /\ positive w prompt = Ok pos
    /\ url = base_url w +:+ Py.str (repr w) (Py.dict_get d "endpoint_path" (VStr default_endpoint))
    /\ payload = overlay d (attach_extras w (build_payload w pos)).
Proof.
  unfold prepare, rbind, endpoint_path, merge_extras.
  destruct (extra_payload w) as [| | | | | | d] eqn:Ed; try discriminate.
  destruct (positive w prompt) as [pos |]; [| discriminate].
  destruct (img2img_image w) as [img |]; [| discriminate].
  destruct (img2img_enabled w && is_empty img); [discriminate |].
  intros H. inversion H; subst. exists d, pos. auto.
Qed.

(** The overlay, read from the setting *)
Lemma extra_payload_parsed raw d :
  setting w "extra_payload" = VStr raw -> raw <> EmptyString ->
  json_loads w raw = Ok (VDict d) ->
  extra_payload w = VDict d.
Proof.
  intros H1 H2 H3. unfold extra_payload, Py.por. rewrite H1. simpl.
  destruct raw; [done |]. simpl. by rewrite H3.
Qed.

Lemma seed_parsed z :
  Py.int (setting w "seed") = Ok z -> 0 <= z -> seed w = z.
Proof.
  unfold seed. intros H Hz. rewrite H.
  destruct (setting w "seed") as [| | | | s | |]; simpl in *; try done.
  destruct (String.eqb_spec s "") as [-> | _]; [done |].
  destruct (String.eqb_spec s "-1") as [-> | _]; [| done].
  vm_compute in H. inversion H. lia.
Qed.

End Builder.

(** C7.  When the [extra_payload] setting is the text of a JSON object, the
    body of every request sent holds each of its keys other than
    [endpoint_path] with the value the object gives it, holds every key the
    object does not have with the value the builder gave it, and has no key
    [endpoint_path]. *)
Theorem C7_overlay_last_wins (w : world) prompt msg_uuid cu raw
    (d : gmap string pyval) url payload :
  setting w "extra_payload" = VStr raw ->
  raw <> EmptyString ->
  json_loads w raw = Ok (VDict d) ->
  EPost url payload ∈ trace (generate_image w prompt msg_uuid (start cu)).2 ->
  exists pos,
    positive w prompt = Ok pos
    /\ (forall k v, k <> "endpoint_path" -> d !! k = Some v -> payload !! k = Some v)
    /\ (forall k, d !! k = None ->
          payload !! k = attach_extras w (build_payload w pos) !! k)
    /\ payload !! "endpoint_path" = None.
Proof.
  intros Hs Hne Hj Hin.
  apply post_inv, prepare_request in Hin as (d' & pos & Ed & Hpos & _ & ->).
  rewrite (extra_payload_parsed w raw d Hs Hne Hj) in Ed. inversion Ed; subst d'.
  exists pos. repeat split; [done | | |].
  - intros k v Hk Hd. rewrite lookup_overlay, Hd. by destruct (decide _).
  - intros k Hd. rewrite lookup_overlay, Hd. by destruct (decide _).
  - rewrite lookup_overlay. simpl.
    rewrite lookup_attach_extras_other by done.
    rewrite lookup_build_payload. reflexivity.
Qed.

Lemma C7_overlay_last_wins_witness :
  final_payload Examples.w_overlay "a cat" !! "sampler" = Some (VInt 3).
Proof.
  destruct (C7_overlay_last_wins Examples.w_overlay "a cat" None None
              (Ref.obj1 "sampler" "3") {["sampler" := VInt 3]}
              "http://localhost:7861/api/generate"
              (final_payload Examples.w_overlay "a cat"))
    as (pos & _ & H & _ & _).
  - reflexivity.
  - discriminate.
  - vm_compute. reflexivity.
  - vm_compute. apply list_elem_of_here.
  - apply H; [discriminate | vm_compute; reflexivity].
Defined.

(** C8 (as amended).  Every request is sent to the base URL followed by the
    endpoint path.  The base URL is the [url] setting, or
    [http://localhost:7861] when the setting is empty or unset, with the
    slashes at its end removed; the endpoint path is the [endpoint_path] value
    of [extra_payload] when there is one and [/api/generate] otherwise. *)
Theorem C8_post_url (w : world) prompt msg_uuid cu url payload :
  EPost url payload ∈ trace (generate_image w prompt msg_uuid (start cu)).2 ->
  exists d,
    extra_payload w = VDict d
    /\ url = rstrip_slash (Py.str (repr w) (Py.por (setting w "url") (VStr "http://localhost:7861")))
             +:+ Py.str (repr w) (Py.dict_get d "endpoint_path" (VStr "/api/generate")).
Proof.
  intros Hin.
  apply post_inv, prepare_request in Hin as (d & pos & Ed & _ & -> & _).
  exists d. split; [done | reflexivity].
Qed.

Lemma C8_post_url_witness :
  exists d, extra_payload Examples.w_slash = VDict d
    /\ "http://localhost:7861/api/generate"
       = rstrip_slash (Py.str (repr Examples.w_slash)
                         (Py.por (setting Examples.w_slash "url") (VStr "http://localhost:7861")))
         +:+ Py.str (repr Examples.w_slash) (Py.dict_get d "endpoint_path" (VStr "/api/generate")).
Proof.
  apply (C8_post_url Examples.w_slash "a cat" None None _
           (final_payload Examples.w_slash "a cat")).
  vm_compute. apply list_elem_of_here.
Defined.

(** C8 as stated fails: with the url setting [http://localhost:7861/] the
    request goes to [http://localhost:7861/api/generate], which is not the
    setting followed by [/api/generate]. *)
Lemma C8_counterexample : ~ posts_to_url_setting Examples.w_slash.
Proof.
  intros H.
  destruct (H "http://localhost:7861/" "a cat" None None
              "http://localhost:7861/api/generate"
              (final_payload Examples.w_slash "a cat")) as (d & Ed & Hurl).
  - reflexivity.
  - vm_compute. apply list_elem_of_here.
  - vm_compute in Ed. inversion Ed; subst d. vm_compute in Hurl. discriminate Hurl.
Qed.

(** C1 (as amended).  When the seed setting reads as an integer at least 0
    and the [extra_payload] overlay does not itself set [reuse_seed], every
    request sent carries [reuse_seed = true], whatever the other settings. *)
Theorem C1_seed_forces_reuse (w : world) (z : Z) prompt msg_uuid cu url payload :
  Py.int (setting w "seed") = Ok z ->
  0 <= z ->
  not_overlaid w "reuse_seed" ->
  EPost url payload ∈ trace (generate_image w prompt msg_uuid (start cu)).2 ->
  payload !! "reuse_seed" = Some (VBool true).
Proof.
  intros Hs Hz Hno Hin.
  apply post_inv, prepare_request in Hin as (d & pos & Ed & _ & _ & ->).
  rewrite lookup_overlay, (Hno d Ed). simpl.
  rewrite lookup_attach_extras_other by done.
  rewrite lookup_build_payload. simpl.
  rewrite (seed_parsed w z Hs Hz).
  destruct (Z.eqb_spec z (-1)); [lia | reflexivity].
Qed.

Lemma C1_seed_forces_reuse_witness :
  final_payload Examples.w_seed "a cat" !! "reuse_seed" = Some (VBool true).
Proof.
  apply (C1_seed_forces_reuse Examples.w_seed 5 "a cat" None None
           "http://localhost:7861/api/generate").
  - reflexivity.
  - lia.
  - intros d Ed. vm_compute in Ed. inversion Ed. reflexivity.
  - vm_compute. apply list_elem_of_here.
Defined.

(** C1 as stated fails: with the seed setting [5] and the overlay
    [{"reuse_seed": false}], the request carries [reuse_seed = false]. *)
Lemma C1_counterexample : ~ seed_forces_reuse Examples.w_seed_overlay.
Proof.
  intros H.
  specialize (H 5 "a cat" None None "http://localhost:7861/api/generate"
                (final_payload Examples.w_seed_overlay "a cat")).
  assert (E : final_payload Examples.w_seed_overlay "a cat" !! "reuse_seed"
              = Some (VBool false)) by (vm_compute; reflexivity).
  rewrite H in E; [discriminate E | reflexivity | lia |].
  vm_compute. apply list_elem_of_here.
Qed.

Section Defaults.

Variable w : world.

Lemma required_keys_items pos : required_keys = (payload_items w pos).*1.
Proof. reflexivity. Qed.

Lemma get_int_malformed name dflt :
  malformed w TInt name -> get_int w name dflt = dflt.
Proof.
  intros [e H]. unfold get_int.
  destruct (setting w name); try reflexivity; by rewrite H.
Qed.

Lemma get_float_malformed name dflt :
  malformed w TFloat name -> get_float w name dflt = dflt.
Proof.
  intros [e H]. unfold get_float.
  destruct (setting w name); try reflexivity; by rewrite H.
Qed.

Lemma width_malformed : malformed w TInt "width" -> width w = 512.
Proof. intros [e H]. unfold width. by rewrite H. Qed.

Lemma height_malformed : malformed w TInt "height" -> height w = 512.
Proof. intros [e H]. unfold height. by rewrite H. Qed.

Lemma steps_malformed : malformed w TInt "steps" -> steps w = None.
Proof.
  intros [e H]. unfold steps.
  destruct (setting w "steps"); try reflexivity; by rewrite H.
Qed.

Lemma guidance_scale_malformed :
  malformed w TFloat "guidance_scale" -> guidance_scale w = None.
Proof.
  intros [e H]. unfold guidance_scale.
  destruct (setting w "guidance_scale"); try reflexivity; by rewrite H.
Qed.

Lemma seed_malformed : malformed w TInt "seed" -> seed w = -1.
Proof. intros [e H]. unfold seed. rewrite H. by destruct (seed_given _). Qed.

End Defaults.

(** C6 (as amended).  Whenever the request builder hands over a request, its
    body holds every key of the builder's dict literal.  A width, height,
    multiscale_factor, multiscale_fullres_start or multiscale_fullres_end
    setting that cannot be read as a number is replaced by 512, 512, 0.5, 3
    or 8, and a steps, guidance_scale or seed setting that cannot be read is
    left out of the body, in each case unless the [extra_payload] overlay sets
    that key. *)
Theorem C6_builder_keys_and_defaults (w : world) prompt url payload :
  prepare w prompt = Ok (Request url payload) ->
  (forall k, k ∈ required_keys -> is_Some (payload !! k))
  /\ (forall name t dflt, (name, t, dflt) ∈ defaulted_numeric ->
        malformed w t name -> not_overlaid w name -> payload !! name = Some dflt)
  /\ (forall name t, (name, t) ∈ omitted_numeric ->
        malformed w t name -> not_overlaid w name -> payload !! name = None).
Proof.
  intros Hp. apply prepare_request in Hp as (d & pos & Ed & _ & _ & ->).
  split; [| split].
  - intros k Hk. unfold overlay. apply lookup_union_is_Some. right.
    assert (Hb : is_Some (build_payload w pos !! k)).
    { rewrite lookup_build_payload. apply assoc_is_Some.
      by rewrite <- (required_keys_items w pos). }
    unfold attach_extras.
    destruct (0 <=? seed w); [apply lookup_insert_is_Some'; right |];
    (destruct (guidance_scale w); [apply lookup_insert_is_Some'; right |]);
    (destruct (steps w); [apply lookup_insert_is_Some'; right |]); exact Hb.
  - intros name t dflt Hin Hm Hno.
    rewrite lookup_overlay, (Hno d Ed).
    unfold defaulted_numeric in Hin.
    repeat (apply elem_of_cons in Hin as [Heq | Hin];
            [inversion Heq; subst; clear Heq |]);
      [ .. | by apply elem_of_nil in Hin ];
      simpl; rewrite lookup_attach_extras_other by done;
      rewrite lookup_build_payload; simpl.
    + by rewrite width_malformed.
    + by rewrite height_malformed.
    + by rewrite get_float_malformed.
    + by rewrite get_int_malformed.
    + by rewrite get_int_malformed.
  - intros name t Hin Hm Hno.
    rewrite lookup_overlay, (Hno d Ed).
    unfold omitted_numeric in Hin.
    repeat (apply elem_of_cons in Hin as [Heq | Hin];
            [inversion Heq; subst; clear Heq |]);
      [ .. | by apply elem_of_nil in Hin ]; simpl.
    + rewrite lookup_attach_extras_steps, steps_malformed by done.
      by rewrite lookup_build_payload.
    + rewrite lookup_attach_extras_guidance, guidance_scale_malformed by done.
      by rewrite lookup_build_payload.
    + rewrite lookup_attach_extras_seed, seed_malformed by done.
      change (0 <=? -1) with false. cbv iota.
      by rewrite lookup_build_payload.
Qed.

Lemma C6_builder_keys_and_defaults_witness :
  final_payload Examples.w_width "a cat" !! "width" = Some (VInt 512).
Proof.
  destruct (C6_builder_keys_and_defaults Examples.w_width "a cat"
              "http://localhost:7861/api/generate"
              (final_payload Examples.w_width "a cat")) as (_ & H & _).
  - vm_compute. reflexivity.
  - apply (H "width" TInt (VInt 512)).
    + apply list_elem_of_here.
    + eexists. reflexivity.
    + intros d Ed. vm_compute in Ed. inversion Ed. reflexivity.
Defined.

(** C6 as stated fails: with the steps setting [abc] the builder hands over a
    body without the key [steps], not one with the documented default 20. *)
Lemma C6_counterexample : ~ builder_always_defaults Examples.w_steps.
Proof.
  intros H. destruct (H "a cat") as (url & payload & Hp & _ & Hd).
  assert (E : payload !! "steps" = Some (VInt 20)).
  { apply (Hd "steps" TInt).
    - do 2 apply list_elem_of_further. apply list_elem_of_here.
    - eexists. reflexivity. }
  apply prepare_request in Hp as (d & pos & Ed & Hpos & _ & ->).
  vm_compute in Ed. inversion Ed; subst d.
  vm_compute in Hpos. inversion Hpos; subst pos.
  vm_compute in E. discriminate E.
Qed.

(* ===================================================================== *)
(** ** The image-to-image guard *)
(* ===================================================================== *)

Section Guard.

Variable w : world.

Lemma toggle_on_truthy v : toggle_on v -> Py.truthy v = true.
Proof.
  intros (z & Hz & Hnz). destruct v; simpl in *; try discriminate.
  - destruct b; [done |]. inversion Hz. lia.
  - inversion Hz; subst. by destruct (Z.eqb_spec z 0).
  - destruct f; simpl in *; try done. inversion Hz. lia.
  - destruct s; [discriminate Hz | done].
Qed.

Lemma toggle_on_enabled :
  toggle_on (setting w "img2img_enabled") -> img2img_enabled w = true.
Proof.
  intros H. unfold img2img_enabled, Py.por.
  rewrite (toggle_on_truthy _ H).
  destruct H as (z & -> & Hnz). by destruct (Z.eqb_spec z 0).
Qed.

Lemma blank_image :
  blank (setting w "img2img_image") -> img2img_image w = Ok EmptyString.
Proof.
  unfold img2img_image, Py.por. intros [-> | (s & -> & Hs)]; [reflexivity |].
  simpl. destruct s; simpl; [reflexivity | by rewrite Hs].
Qed.

(** The builder hands over a request exactly when the overlay is a dict, the
    prompt template and the source path are strings (or values taken as
    false), and the guard is open. *)
Lemma prepare_request_iff prompt url payload :
  prepare w prompt = Ok (Request url payload) <->
  exists d pos img,
    extra_payload w = VDict d
    /\ positive w prompt = Ok pos
    /\ img2img_image w = Ok img
    /\ img2img_enabled w && is_empty img = false
    /\ url = base_url w +:+ Py.str (repr w) (Py.dict_get d "endpoint_path" (VStr default_endpoint))
    /\ payload = overlay d (attach_extras w (build_payload w pos)).
Proof.
  unfold prepare, rbind, endpoint_path, merge_extras. split.
  - destruct (extra_payload w) as [| | | | | | d] eqn:Ed; try discriminate.
    destruct (positive w prompt) as [pos |]; [| discriminate].
    destruct (img2img_image w) as [img |]; [| discriminate].
    destruct (img2img_enabled w && is_empty img) eqn:G; [discriminate |].
    intros H. inversion H; subst. exists d, pos, img. by repeat split.
  - intros (d & pos & img & -> & -> & -> & -> & -> & ->). reflexivity.
Qed.



(** With the guard closed the builder hands over no request. *)
Lemma guard_rejects prompt :
  toggle_on (setting w "img2img_enabled") ->
  blank (setting w "img2img_image") ->
  prepare w prompt = Ok Rejected \/ exists e, prepare w prompt = Raise e.
Proof.
  intros Hon Hblank. unfold prepare, rbind.
  destruct (endpoint_path w); [| eauto].
  destruct (positive w prompt); [| eauto].
  rewrite (blank_image Hblank), (toggle_on_enabled Hon). auto.
Qed.

End Guard.

(** Where the guard reads the toggle as on (the setting reads through [int]
    as a number other than 0) and the source path is unset, empty or
    whitespace only, [generate_image] returns after printing an error line and
    calling [show_loading(False)]: no request is sent, nothing is written and
    no image is set. *)
Lemma img2img_guard_closed (w : world) prompt msg_uuid cu :
  toggle_on (setting w "img2img_enabled") ->
  blank (setting w "img2img_image") ->
  let r := generate_image w prompt msg_uuid (start cu) in
  r.1 = Ok tt
  /\ (exists msg, EPrint (error_prefix +:+ msg) ∈ trace r.2)
  /\ Forall quiet (trace r.2)
  /\ (forall url payload, EPost url payload ∉ trace r.2).
Proof.
  intros Hon Hblank r. subst r.
  assert (Hq : Forall quiet (trace (generate_image w prompt msg_uuid (start cu)).2)
               /\ exists msg, EPrint (error_prefix +:+ msg)
                              ∈ trace (generate_image w prompt msg_uuid (start cu)).2).
  { destruct (guard_rejects w prompt Hon Hblank) as [Hp | [e Hp]].
    - rewrite (body_rejected _ _ _ _ Hp). simpl. split.
      + repeat constructor.
      + exists msg_no_image. apply list_elem_of_here.
    - rewrite (body_raise _ _ _ _ _ Hp). simpl. split.
      + repeat constructor.
      + exists (exn_str e). apply list_elem_of_further, list_elem_of_here. }
  destruct Hq as [Hq Hmsg].
  split; [apply generate_image_total |]. split; [exact Hmsg |]. split; [exact Hq |].
  intros url payload Hin. rewrite Forall_forall in Hq. exact (Hq _ Hin).
Qed.

Example img2img_guard_closed_run :
  trace (generate_image Examples.w_img2img "a cat" None (start None)).2
  = [EPrint (error_prefix +:+ msg_no_image); EShowLoading false].
Proof. reflexivity. Qed.

(** C3.  The claim fails where the toggle is a text that [get_bool] takes as
    true.  With img2img_enabled set to the text [yes] and no source path, the
    body of the request says [img2img_enabled = true], read by [get_bool];
    the guard reads the same setting through [int] only, takes it as off and
    stays open; the request is sent with [img2img_image = None], the answer is
    read and the image is saved and shown.  Nothing is rejected and no error
    line is printed. *)
Theorem C3_textual_toggle_not_guarded :
  let w := Examples.w_img2img_yes in
  let payload := final_payload w "a cat" in
  setting w "img2img_enabled" = VStr "yes"
  /\ blank (setting w "img2img_image")
  /\ get_bool w "img2img_enabled" false = true
  /\ img2img_enabled w = false
  /\ payload !! "img2img_enabled" = Some (VBool true)
  /\ payload !! "img2img_image" = Some VNone
  /\ generate_image w "a cat" None (start None)
     = (Ok tt,
        extend (start None)
          [EPost "http://localhost:7861/api/generate" payload;
           EMakedirs "/c"; EOpenWrite "/c/latest.png"; EWrite "/c/latest.png" "hi";
           EShowLoading true; ELoadFromPath "/c/latest.png"]).
Proof.
  cbv zeta. split; [reflexivity |]. split; [left; reflexivity |].
  repeat split; vm_compute; reflexivity.
Qed.

(* ===================================================================== *)
(** ** Failures *)
(* ===================================================================== *)

Lemma reported_last tr : reported tr -> last tr = Some (EShowLoading false).
Proof.
  intros (l & msg & ->). unfold report.
  change [EPrint (error_prefix +:+ msg); EShowLoading false]
    with ([EPrint (error_prefix +:+ msg)] ++ [EShowLoading false]).
  rewrite app_assoc. apply last_snoc.
Qed.

Section Failures.

Variable w : world.

(** An exception that leaves the [try] block ends in a report. *)
Lemma caught_reported prompt msg_uuid st e :
  (generate_image_body w prompt msg_uuid st).1 = Raise e ->
  reported (trace (generate_image w prompt msg_uuid st).2).
Proof.
  intros H. unfold generate_image, try_except.
  destruct (generate_image_body w prompt msg_uuid st) as [[[] | e'] st1];
    simpl in H; [discriminate |].
  rewrite handler_run. simpl.
  exists (trace st1 ++ [EPrintExc e']), (exn_str e').
  by rewrite <- app_assoc.
Qed.

(** A [try] block that ends in [show_error_message] ends in a report. *)
Lemma returned_reported prompt msg_uuid st st1 msg :
  generate_image_body w prompt msg_uuid st = show_error_message w msg st1 ->
  reported (trace (generate_image w prompt msg_uuid st).2).
Proof.
  intros H. unfold generate_image, try_except. rewrite H, show_error_message_run.
  simpl. by exists (trace st1), msg.
Qed.

Lemma save_base64_raises first c st e (k : unit -> M unit) :
  (_save_base64_png w first c st).1 = Raise e ->
  ((_save_base64_png w first c ;;; k tt) st).1 = Raise e.
Proof.
  intros H. unfold bind at 1.
  destruct (_save_base64_png w first c st) as [[[] | e'] st1]; simpl in *;
    [discriminate | done].
Qed.

Lemma failure_reported prompt msg_uuid cu :
  failure decode_fails w prompt msg_uuid cu ->
  reported (trace (generate_image w prompt msg_uuid (start cu)).2).
Proof.
  intros [e Hp | Hp | url payload e Hp Hpost | url payload resp Hp Hpost Hok
         | url payload resp e Hp Hpost Hok Hjson
         | url payload resp data Hp Hpost Hok Hjson Hsel
         | url payload resp data sh Hp Hpost Hok Hjson Hsel Hsave].
  - rewrite (body_raise _ _ _ _ _ Hp). simpl.
    by exists [EPrintExc e], (exn_str e).
  - rewrite (body_rejected _ _ _ _ Hp). simpl. by exists [], msg_no_image.
  - apply (caught_reported _ _ _ e).
    rewrite (body_request _ _ _ _ _ _ Hp). unfold respond, bind.
    by rewrite Hpost.
  - eapply returned_reported.
    rewrite (body_request _ _ _ _ _ _ Hp). unfold respond, bind at 1.
    rewrite Hpost. simpl. rewrite Hok. simpl. reflexivity.
  - apply (caught_reported _ _ _ e).
    rewrite (body_request _ _ _ _ _ _ Hp). unfold respond, bind.
    rewrite Hpost. simpl. rewrite Hok. simpl. by rewrite Hjson.
  - eapply returned_reported.
    rewrite (body_request _ _ _ _ _ _ Hp). unfold respond, bind at 1.
    rewrite Hpost. simpl. rewrite Hok. simpl. unfold bind at 1.
    rewrite Hjson. simpl. unfold interpret_response. rewrite Hsel. reflexivity.
  - assert (Hr : exists e,
               (respond w url payload msg_uuid (extend (start cu) [EPost url payload])).1
               = Raise e).
    { unfold respond, bind at 1. rewrite Hpost. simpl. rewrite Hok. simpl.
      unfold bind at 1. rewrite Hjson. simpl.
      unfold interpret_response. rewrite Hsel.
      destruct sh; simpl in Hsave; try destruct Hsave as [e He];
        try contradiction; exists e; unfold consume;
        by apply (save_base64_raises _ _ _ _ (fun _ => Widget.set_image_from_path w _)). }
    destruct Hr as [e He].
    apply (caught_reported _ _ _ e). by rewrite (body_request _ _ _ _ _ _ Hp).
Qed.

End Failures.

(** C9 (as amended).  [generate_image] never propagates an exception to its
    caller.  When the settings cannot be used, the image-to-image source is
    missing, the request raises, the status is an HTTP error, the response is
    not JSON or has no recognized shape, or decoding and writing the base64
    image fails, the run ends with the error line printed and
    [show_loading(False)] called. *)
Theorem C9_failures_caught_and_reported (w : world) prompt msg_uuid cu :
  let r := generate_image w prompt msg_uuid (start cu) in
  r.1 = Ok tt
  /\ (failure decode_fails w prompt msg_uuid cu -> reported (trace r.2)).
Proof.
  split; [apply generate_image_total | apply failure_reported].
Qed.

Lemma C9_failures_caught_and_reported_witness :
  reported (trace (generate_image Examples.w_500 "a cat" None (start None)).2).
Proof.
  apply (C9_failures_caught_and_reported Examples.w_500 "a cat" None None).
  apply (F_status _ _ _ _ _ "http://localhost:7861/api/generate"
           (final_payload Examples.w_500 "a cat")
           {| resp_ok := false; resp_status_code := 500;
              resp_text := "Internal Server Error"; resp_json := Ok VNone |}).
  - vm_compute. reflexivity.
  - reflexivity.
  - reflexivity.
Defined.

(** C9 as stated fails: when the server answers with a file path, the copy the
    file-path branch leaves in the cache is saved by [download_and_save], which
    raises "No URL set to download" on a new widget; the exception is dropped
    by the handler around that call, no line is printed and
    [show_loading(False)] is not called. *)
Lemma C9_counterexample : ~ failures_reported Examples.w_path.
Proof.
  intros H. destruct (H "a cat" (Some "m1") None) as [_ Hrep].
  assert (Hf : failure save_fails Examples.w_path "a cat" (Some "m1") None).
  { apply (F_save _ _ _ _ _ "http://localhost:7861/api/generate"
             (final_payload Examples.w_path "a cat")
             {| resp_ok := true; resp_status_code := 200; resp_text := EmptyString;
                resp_json := Ok (VDict {["file_path" := VStr "/tmp/x.png"]}) |}
             (VDict {["file_path" := VStr "/tmp/x.png"]})
             (FilePath "/tmp/x.png")).
    - vm_compute. reflexivity.
    - reflexivity.
    - reflexivity.
    - reflexivity.
    - vm_compute. reflexivity.
    - simpl. eexists _, (ValueError "No URL set to download").
      split; vm_compute; reflexivity. }
  apply Hrep, reported_last in Hf. vm_compute in Hf. discriminate Hf.
Qed.

(* ===================================================================== *)
(** ** The prompt extractor *)
(* ===================================================================== *)

Section Strip.

Variable p : ascii -> bool.

Lemma lstrip_by_idem s : lstrip_by p (lstrip_by p s) = lstrip_by p s.
Proof.
  induction s as [| a s IH]; simpl; [done |].
  destruct (p a) eqn:E; [done |]. simpl. by rewrite E.
Qed.

Lemma rstrip_by_idem s : rstrip_by p (rstrip_by p s) = rstrip_by p s.
Proof.
  induction s as [| a s IH]; simpl; [done |].
  destruct (is_empty (rstrip_by p s) && p a) eqn:E; simpl; [done |].
  by rewrite IH, E.
Qed.

(** Stripping on the left keeps a string stripped on the right. *)
Lemma lstrip_by_keeps_right s :
  rstrip_by p s = s -> rstrip_by p (lstrip_by p s) = lstrip_by p s.
Proof.
  induction s as [| a s IH]; simpl; [done |]. intros H.
  destruct (p a) eqn:Pa; [| simpl; rewrite Pa; exact H].
  apply IH.
  destruct (is_empty (rstrip_by p s) && true) eqn:E; [discriminate H |].
  congruence.
Qed.

End Strip.

Import Extract.

Lemma strip_idem s : strip (strip s) = strip s.
Proof.
  unfold strip, lstrip, rstrip.
  rewrite (lstrip_by_keeps_right _ _ (rstrip_by_idem _ s)).
  apply lstrip_by_idem.
Qed.

Lemma first_prompt_stripped tags info r :
  first_prompt tags info = Some r -> strip r = r.
Proof.
  induction tags as [| tag tags IH]; simpl; [discriminate |].
  destruct (re_match_prompt tag info); [| exact IH].
  intros H. inversion H. apply strip_idem.
Qed.

(** What the extractor returns has no whitespace at either end. *)
Lemma extract_stripped codeblock lang :
  strip (_extract_prompt_from_block codeblock lang)
  = _extract_prompt_from_block codeblock lang.
Proof.
  unfold _extract_prompt_from_block.
  destruct (is_empty _ && negb _); [| apply strip_idem].
  unfold from_info.
  destruct (first_prompt tag_patterns _) eqn:E.
  - by apply first_prompt_stripped in E.
  - destruct (is_bare_tag _ _); [reflexivity | apply strip_idem].
Qed.

(** A text without whitespace at its ends, that starts with no tag and is not
    wrapped in backticks, is extracted as itself. *)
Lemma strip_tags_untagged r : untagged r -> strip_tags r = r.
Proof.
  intros Ht. unfold strip_tags, tag_patterns. simpl. unfold re_sub_tag.
  rewrite (Ht "generateimage"), (Ht "lightdiffusion"); [done | |];
    unfold tag_patterns; set_solver.
Qed.

Lemma from_body_fixed r :
  strip r = r -> untagged r -> wrapped r = false -> from_body r = r.
Proof.
  intros Hs Ht Hw.
  assert (Hticks : strip_ticks r = r).
  { unfold strip_ticks. rewrite Hs. fold (wrapped r). by rewrite Hw. }
  unfold from_body. rewrite Hticks, (strip_tags_untagged r Ht).
  destruct (startswith ticks r);
    [rewrite Hticks, (strip_tags_untagged r Ht), Hs |]; exact Hs.
Qed.

Lemma extract_again_fixed r :
  strip r = r -> untagged r -> wrapped r = false -> extract_again r = r.
Proof.
  intros Hs Ht Hw.
  unfold extract_again, _extract_prompt_from_block.
  change (default EmptyString (Some r)) with r.
  change (strip (default EmptyString (Some EmptyString))) with EmptyString.
  rewrite Hs. change (negb (is_empty EmptyString)) with false.
  rewrite andb_false_r. by apply from_body_fixed.
Qed.

(** C5 (as amended).  For every prompt and each of the three supported forms
    of the block, when the extracted text does not itself start with a
    recognized tag and is not wrapped in triple backticks, extracting again
    (the text as body, the info string empty) returns the same text. *)
Theorem C5_extraction_fixed_point (sh : input_shape) (p : string) :
  untagged (extract_shape sh p) ->
  wrapped (extract_shape sh p) = false ->
  extract_again (extract_shape sh p) = extract_shape sh p.
Proof.
  intros Ht Hw. apply extract_again_fixed; [apply extract_stripped | done | done].
Qed.

Lemma C5_extraction_fixed_point_witness :
  extract_again (extract_shape TaggedBody "a cat") = extract_shape TaggedBody "a cat".
Proof.
  apply (C5_extraction_fixed_point TaggedBody "a cat").
  - intros tag Htag. unfold tag_patterns in Htag.
    repeat (apply elem_of_cons in Htag as [-> | Htag]; [reflexivity |]).
    by apply elem_of_nil in Htag.
  - reflexivity.
Defined.

(** C5 as stated fails: for the prompt [generateimage a cat] in a body that
    repeats the tag, the extractor returns [generateimage a cat], and
    extracting that again returns [a cat]. *)
Lemma C5_counterexample : ~ extraction_idempotent.
Proof.
  intros H. specialize (H TaggedBody "generateimage a cat").
  vm_compute in H. discriminate H.
Qed.

(** *** The three forms of a block give the prompt itself *)

Section StripLength.

Variable p : ascii -> bool.

Lemma lstrip_by_length s : (String.length (lstrip_by p s) <= String.length s)%nat.
Proof.
  induction s as [| a s IH]; simpl; [lia |].
  destruct (p a); simpl; lia.
Qed.

Lemma rstrip_by_length s : (String.length (rstrip_by p s) <= String.length s)%nat.
Proof.
  induction s as [| a s IH]; simpl; [lia |].
  destruct (is_empty (rstrip_by p s) && p a); simpl; lia.
Qed.

Lemma rstrip_by_same_length s :
  String.length (rstrip_by p s) = String.length s -> rstrip_by p s = s.
Proof.
  induction s as [| a s IH]; simpl; [done |].
  destruct (is_empty (rstrip_by p s) && p a); simpl; [discriminate |].
  intros H. f_equal. apply IH. lia.
Qed.

Lemma lstrip_by_same_length s :
  String.length (lstrip_by p s) = String.length s -> lstrip_by p s = s.
Proof.
  destruct s as [| a s]; simpl; [done |].
  destruct (p a); [| done].
  pose proof (lstrip_by_length s). lia.
Qed.

(** Stripping on the right, through a prefix *)
Lemma rstrip_by_app a s :
  rstrip_by p (a +:+ s) =
  if is_empty (rstrip_by p s) then rstrip_by p a else a +:+ rstrip_by p s.
Proof.
  induction a as [| c a IH].
  - change (EmptyString +:+ s) with s.
    change (EmptyString +:+ rstrip_by p s) with (rstrip_by p s).
    by destruct (rstrip_by p s).
  - change (String c a +:+ s) with (String c (a +:+ s)).
    change (String c a +:+ rstrip_by p s) with (String c (a +:+ rstrip_by p s)).
    simpl. rewrite IH. destruct (is_empty (rstrip_by p s)) eqn:E; [done |].
    destruct (a +:+ rstrip_by p s) eqn:E2; [| done].
    destruct a; [| discriminate E2].
    change (EmptyString +:+ rstrip_by p s) with (rstrip_by p s) in E2.
    by rewrite E2 in E.
Qed.

End StripLength.

Lemma strip_fixed s : strip s = s -> lstrip s = s /\ rstrip s = s.
Proof.
  unfold strip, lstrip, rstrip. intros H.
  pose proof (lstrip_by_length py_isspace (rstrip_by py_isspace s)) as H1.
  pose proof (rstrip_by_length py_isspace s) as H2.
  rewrite H in H1.
  assert (Hr : rstrip_by py_isspace s = s) by (apply rstrip_by_same_length; lia).
  split; [| done]. by rewrite Hr in H.
Qed.

Lemma strip_tagged_prefix s :
  strip s = s -> s <> EmptyString ->
  strip ("generateimage " +:+ s) = "generateimage " +:+ s.
Proof.
  intros Hs Hne. apply strip_fixed in Hs as [_ Hr].
  unfold strip, rstrip in *. rewrite rstrip_by_app, Hr.
  destruct s; [done |]. reflexivity.
Qed.

Lemma sub_tag_after_prefix s :
  lstrip s = s -> re_sub_tag "generateimage" ("generateimage " +:+ s) = s.
Proof. intros H. vm_compute (re_sub_tag _ _). exact H. Qed.

Lemma not_wrapped r : startswith ticks r = false -> wrapped r = false.
Proof. intros H. unfold wrapped. by rewrite H. Qed.

Section CleanPrompt.

Variable p : string.
Hypothesis p_stripped : strip p = p.

Lemma extract_fenced :
  untagged p -> startswith ticks p = false -> extract_shape FencedBody p = p.
Proof.
  intros Ht Hk. unfold extract_shape. cbn [shape_input fst snd].
  unfold _extract_prompt_from_block.
  change (default EmptyString (Some p)) with p. rewrite p_stripped.
  destruct p as [| a q] eqn:E; [reflexivity |].
  change (is_empty (String a q)) with false. rewrite andb_false_l.
  rewrite <- E in *. by apply from_body_fixed; [| | apply not_wrapped].
Qed.

Lemma extract_tagged_body :
  untagged p -> startswith ticks p = false -> extract_shape TaggedBody p = p.
Proof.
  intros Ht Hk. unfold extract_shape. cbn [shape_input fst snd].
  unfold _extract_prompt_from_block.
  change (default EmptyString (Some ("generateimage " +:+ p))) with ("generateimage " +:+ p).
  destruct (decide (p = EmptyString)) as [-> | Hne]; [reflexivity |].
  rewrite (strip_tagged_prefix p p_stripped Hne).
  change (is_empty ("generateimage " +:+ p)) with false. rewrite andb_false_l.
  unfold from_body, strip_ticks.
  rewrite (strip_tagged_prefix p p_stripped Hne).
  change (startswith ticks ("generateimage " +:+ p)) with false.
  rewrite andb_false_l, (strip_tagged_prefix p p_stripped Hne).
  unfold strip_tags, tag_patterns. simpl fold_left.
  rewrite (sub_tag_after_prefix p (proj1 (strip_fixed p p_stripped))).
  unfold re_sub_tag. rewrite (Ht "lightdiffusion") by (unfold tag_patterns; set_solver).
  rewrite Hk. by rewrite p_stripped.
Qed.

Lemma extract_one_liner :
  has_newline p = false -> extract_shape OneLiner p = p.
Proof.
  intros Hn. unfold extract_shape. cbn [shape_input fst snd].
  unfold _extract_prompt_from_block.
  change (default EmptyString (Some ("generateimage " +:+ p))) with ("generateimage " +:+ p).
  change (default EmptyString (Some EmptyString)) with EmptyString.
  destruct (decide (p = EmptyString)) as [-> | Hne]; [reflexivity |].
  rewrite (strip_tagged_prefix p p_stripped Hne).
  change (strip EmptyString) with EmptyString.
  change (is_empty EmptyString && negb (is_empty ("generateimage " +:+ p))) with true.
  unfold from_info, tag_patterns, first_prompt, re_match_prompt.
  change (match_tag "generateimage" ("generateimage " +:+ p))
    with (Some (String " " p)).
  cbv beta iota.
  change (lstrip (skip_punct (String " " p))) with (lstrip p).
  rewrite (proj1 (strip_fixed p p_stripped)).
  unfold dot_star_end. rewrite Hn. cbv beta iota.
  change (negb false) with true. cbv beta iota. exact p_stripped.
Qed.

End CleanPrompt.

(** A prompt without whitespace at its ends, that starts with no tag and no
    backticks and holds no newline, is what the extractor returns for each of
    the three forms, and is extracted as itself. *)
Lemma clean_prompt_extracted (sh : input_shape) (p : string) :
  strip p = p -> untagged p -> startswith ticks p = false -> has_newline p = false ->
  extract_shape sh p = p /\ extract_again p = p.
Proof.
  intros Hs Ht Hk Hn. split.
  - destruct sh;
      [by apply extract_fenced | by apply extract_one_liner | by apply extract_tagged_body].
  - by apply extract_again_fixed; [| | apply not_wrapped].
Qed.

(* ===================================================================== *)
(** * More properties of the code *)
(* ===================================================================== *)

(** ** Strings *)

Lemma append_cons (c : ascii) (a b : string) : String c a +:+ b = String c (a +:+ b).
Proof. reflexivity. Qed.

Lemma append_nil_l (s : string) : EmptyString +:+ s = s.
Proof. reflexivity. Qed.

Lemma append_nil_r (s : string) : s +:+ EmptyString = s.
Proof. induction s as [| c s IH]; [done |]. by rewrite append_cons, IH. Qed.

Lemma append_length (a b : string) :
  String.length (a +:+ b) = (String.length a + String.length b)%nat.
Proof.
  induction a as [| c a IH]; [done |]. rewrite append_cons. simpl. by rewrite IH.
Qed.

Lemma append_inj_r (x y s : string) : x +:+ s = y +:+ s -> x = y.
Proof.
  revert y. induction x as [| c x IH]; intros [| d y] H; [done | | |].
  - apply (f_equal String.length) in H.
    rewrite append_nil_l, append_cons in H. simpl in H.
    rewrite append_length in H. lia.
  - apply (f_equal String.length) in H.
    rewrite append_nil_l, append_cons in H. simpl in H.
    rewrite append_length in H. lia.
  - rewrite !append_cons in H. inversion H. f_equal. by apply IH.
Qed.

Lemma prefix_nil (s : string) : String.prefix EmptyString s = true.
Proof. by destruct s. Qed.

Lemma prefix_cons (a b : ascii) (s1 s2 : string) :
  String.prefix (String a s1) (String b s2)
  = if ascii_dec a b then String.prefix s1 s2 else false.
Proof. reflexivity. Qed.

Lemma append_inj_l (s x y : string) : s +:+ x = s +:+ y -> x = y.
Proof.
  induction s as [| c s IH]; [done |]. rewrite !append_cons. intros H.
  inversion H. auto.
Qed.

Lemma append_assoc (a b c : string) : (a +:+ b) +:+ c = a +:+ b +:+ c.
Proof. induction a as [| x a IH]; [done |]. by rewrite !append_cons, IH. Qed.

(* ===================================================================== *)
(** ** Cache files *)
(* ===================================================================== *)

Lemma startswith_slash_png (u : string) :
  u <> EmptyString -> startswith "/" (u +:+ ".png") = startswith "/" u.
Proof.
  destruct u as [| c u]; [done |]. intros _. rewrite append_cons.
  unfold startswith. rewrite !prefix_cons.
  destruct (ascii_dec "/" c); [| done]. by rewrite !prefix_nil.
Qed.

Lemma join_relative (a b : string) :
  startswith "/" b = false ->
  exists sep, PosixPath.join a b = a +:+ sep +:+ b
              /\ sep = (if is_empty a || endswith "/" a then EmptyString else "/").
Proof.
  intros H. unfold PosixPath.join. rewrite H.
  destruct (is_empty a || endswith "/" a);
    [exists EmptyString | exists "/"]; split; reflexivity.
Qed.

Lemma join_inj (a b1 b2 : string) :
  startswith "/" b1 = false -> startswith "/" b2 = false ->
  PosixPath.join a b1 = PosixPath.join a b2 -> b1 = b2.
Proof.
  intros H1 H2.
  destruct (join_relative a b1 H1) as (sep0 & -> & ->).
  destruct (join_relative a b2 H2) as (sep' & -> & ->).
  destruct (is_empty a || endswith "/" a); intros H.
  - apply append_inj_l in H. exact H.
  - apply append_inj_l in H. apply (append_inj_l "/") in H. exact H.
Qed.

(** X1.  When [generate_image] is called with a non-empty message identifier,
    whatever the run saves goes to the file named after the identifier in the
    cache directory, [os.path.join(cache_dir, msg_uuid + ".png")]. *)
Theorem X1_saves_go_to_keyed_file (w : world) (prompt u : string)
    (cu : option string) (e : event) (p : string) :
  u <> EmptyString ->
  e ∈ trace (generate_image w prompt (Some u) (start cu)).2 ->
  cache_target e = Some p ->
  p = PosixPath.join (cache_dir w) (u +:+ ".png").
Proof.
  intros Hu Hin Ht. rewrite (cache_writes w prompt (Some u) cu e p Hin Ht).
  by apply cache_out_keyed.
Qed.

Lemma X1_saves_go_to_keyed_file_witness :
  "/c/m1.png" = PosixPath.join (cache_dir Examples.w_plain) ("m1" +:+ ".png").
Proof.
  apply (X1_saves_go_to_keyed_file Examples.w_plain "a cat" "m1" None
           (EWrite "/c/m1.png" "hi")).
  - discriminate.
  - vm_compute. do 3 apply list_elem_of_further. apply list_elem_of_here.
  - reflexivity.
Defined.

(** X2.  Two different message identifiers, neither empty nor starting with a
    slash, never share a cache file. *)
Theorem X2_distinct_ids_distinct_files (w : world) (u1 u2 : string) :
  u1 <> EmptyString -> u2 <> EmptyString ->
  startswith "/" u1 = false -> startswith "/" u2 = false ->
  u1 <> u2 ->
  cache_out w (Some u1) <> cache_out w (Some u2).
Proof.
  intros N1 N2 S1 S2 Hne. rewrite !cache_out_keyed by done. intros H.
  apply join_inj in H; [| by rewrite startswith_slash_png | by rewrite startswith_slash_png].
  by apply append_inj_r in H.
Qed.

Lemma X2_distinct_ids_distinct_files_witness :
  cache_out Examples.w_plain (Some "m1") <> cache_out Examples.w_plain (Some "m2").
Proof.
  apply (X2_distinct_ids_distinct_files Examples.w_plain "m1" "m2");
    [discriminate | discriminate | reflexivity | reflexivity | discriminate].
Defined.



Section Restore.

Variable w : world.
Variable path_exists : string -> bool.

Lemma set_image_from_path_trace path st :
  exists l,
    trace (Widget.set_image_from_path w path st).2 = trace st ++ l
    /\ (l = [EShowLoading true] \/ l = [EShowLoading true; ELoadFromPath path])
    /\ current_url (Widget.set_image_from_path w path st).2 = current_url st.
Proof.
  unfold Widget.set_image_from_path, Widget.show_loading, bind, call. simpl.
  destruct (raises w (trace st ++ [EShowLoading true])); simpl.
  - exists [EShowLoading true]. auto.
  - exists [EShowLoading true; ELoadFromPath path].
    rewrite <- app_assoc. simpl.
    destruct (raises w _); simpl; auto.
Qed.

(** The calls of [restore_gtk_widget]: the constructor's [show_loading(True)]
    first, then, when the cached file exists, those of [set_image_from_path]. *)
Lemma restore_trace codeblock lang msg_uuid :
  exists l,
    trace (restore_gtk_widget w path_exists codeblock lang msg_uuid).2
    = EShowLoading true :: l
    /\ (l = []
        \/ path_exists (restore_path w msg_uuid) = true
           /\ (l = [EShowLoading true]
               \/ l = [EShowLoading true; ELoadFromPath (restore_path w msg_uuid)])).
Proof.
  unfold restore_gtk_widget, widget_init, Widget.show_loading, bind at 1, call.
  cbn [trace current_url fresh start app].
  destruct (raises w [EShowLoading true]); [exists []; auto |].
  unfold bind at 1.
  destruct (path_exists (restore_path w msg_uuid)); [| exists []; auto].
  destruct (set_image_from_path_trace (restore_path w msg_uuid)
              {| trace := [EShowLoading true]; current_url := None |})
    as (l & El & Hl & _).
  exists l. split; [| auto].
  destruct (Widget.set_image_from_path w (restore_path w msg_uuid) _)
    as [[[] | x] st1]; exact El.
Qed.

(** X4.  [restore_gtk_widget] looks for the file that [generate_image] saves
    to under the same non-empty identifier: whatever a run saved under the
    identifier is at the path restored from.  When the file exists and no
    call raises, the restore returns the widget with the extracted prompt,
    after the constructor's [show_loading(True)] and the load of that file. *)
Theorem X4_restore_finds_what_was_saved prompt codeblock lang (u : string)
    (cu : option string) (e : event) (p : string) :
  u <> EmptyString ->
  e ∈ trace (generate_image w prompt (Some u) (start cu)).2 ->
  cache_target e = Some p ->
  path_exists p = true ->
  calm w ->
  restore_gtk_widget w path_exists codeblock lang (Some u)
  = (Ok (_extract_prompt_from_block codeblock lang),
     extend fresh [EShowLoading true; EShowLoading true; ELoadFromPath p]).
Proof.
  intros Hu Hin Ht Hex Hcalm.
  assert (Hp : p = restore_path w (Some u)).
  { rewrite (cache_writes w prompt (Some u) cu e p Hin Ht).
    unfold restore_path. by apply cache_out_keyed. }
  unfold restore_gtk_widget. rewrite <- Hp, Hex.
  unfold widget_init, Widget.set_image_from_path, Widget.show_loading, bind, call, ret.
  cbn [trace current_url fresh start app extend fst snd].
  by rewrite !Hcalm.
Qed.

(** X5.  [restore_gtk_widget] generates nothing: it sends no request, saves
    and prints nothing.  Its calls are the [show_loading(True)] of the
    constructor and of [set_image_from_path], and the load of the cached file,
    which is made only when the file exists. *)
Theorem X5_restore_only_loads codeblock lang msg_uuid (e : event) :
  e ∈ trace (restore_gtk_widget w path_exists codeblock lang msg_uuid).2 ->
  e = EShowLoading true
  \/ (e = ELoadFromPath (restore_path w msg_uuid)
      /\ path_exists (restore_path w msg_uuid) = true).
Proof.
  destruct (restore_trace codeblock lang msg_uuid) as (l & -> & Hl).
  intros Hin. apply elem_of_cons in Hin as [-> | Hin]; [by left |].
  destruct Hl as [-> | (Hex & [-> | ->])].
  - by apply elem_of_nil in Hin.
  - apply elem_of_cons in Hin as [-> | Hin]; [by left |]. by apply elem_of_nil in Hin.
  - apply elem_of_cons in Hin as [-> | Hin]; [by left |].
    apply elem_of_cons in Hin as [-> | Hin]; [by right |]. by apply elem_of_nil in Hin.
Qed.

(** X6.  An image generated without identifier is saved as [latest.png], and
    [restore_gtk_widget] called without identifier looks for [None.png]: the
    two paths differ in every cache directory. *)
Theorem X6_restore_without_id_misses_latest :
  restore_path w None <> cache_out w None.
Proof.
  unfold restore_path, cache_out. intros H.
  apply join_inj in H; [discriminate H | reflexivity | reflexivity].
Qed.

End Restore.

Lemma X4_restore_finds_what_was_saved_witness :
  restore_gtk_widget Examples.w_plain (fun _ => true) (Some "a cat")
    (Some "generateimage") (Some "m1")
  = (Ok "a cat",
     extend fresh [EShowLoading true; EShowLoading true; ELoadFromPath "/c/m1.png"]).
Proof.
  apply (X4_restore_finds_what_was_saved Examples.w_plain (fun _ => true)
           "a cat" (Some "a cat") (Some "generateimage") "m1" None
           (EWrite "/c/m1.png" "hi")).
  - discriminate.
  - vm_compute. do 3 apply list_elem_of_further. apply list_elem_of_here.
  - reflexivity.
  - reflexivity.
  - intros tr. reflexivity.
Defined.

Lemma X5_restore_only_loads_witness :
  ELoadFromPath "/c/m1.png" = EShowLoading true
  \/ (ELoadFromPath "/c/m1.png" = ELoadFromPath (restore_path Examples.w_plain (Some "m1"))
      /\ (fun _ : string => true) (restore_path Examples.w_plain (Some "m1")) = true).
Proof.
  apply (X5_restore_only_loads Examples.w_plain (fun _ => true)
           (Some "a cat") (Some "generateimage") (Some "m1")).
  vm_compute. do 2 apply list_elem_of_further. apply list_elem_of_here.
Defined.

(* ===================================================================== *)
(** ** Runs of [generate_image] *)
(* ===================================================================== *)

Lemma take_length (n : nat) (s : string) : (String.length (take n s) <= n)%nat.
Proof.
  revert s. induction n as [| n IH]; intros [| c s]; simpl; try lia.
  specialize (IH s). lia.
Qed.

Section Runs.

Variable w : world.

(** X7.  A run sends at most one request: a request in the trace is its first
    call, and it is the one the request builder prepared. *)
Theorem X7_at_most_one_request prompt msg_uuid cu (i : nat) url payload :
  trace (generate_image w prompt msg_uuid (start cu)).2 !! i = Some (EPost url payload) ->
  i = 0%nat /\ prepare w prompt = Ok (Request url payload).
Proof.
  intros Hi.
  assert (Hin : EPost url payload ∈ trace (generate_image w prompt msg_uuid (start cu)).2)
    by (eapply list_elem_of_lookup_2; eauto).
  pose proof (post_inv w _ _ _ _ _ Hin) as Hp. split; [| done].
  destruct (run_request w prompt msg_uuid cu _ _ Hp) as (l & El & Fl).
  rewrite El in Hi. destruct i as [| j]; [done |]. simpl in Hi.
  rewrite Forall_lookup in Fl. destruct (Fl _ _ Hi).
Qed.

(** X8.  On an HTTP error status the run is the request, one error line with
    the status code and the first 200 characters of the response text, and
    [show_loading(False)]; the response body is not read as JSON and nothing
    is saved. *)
Theorem X8_http_error_line prompt msg_uuid cu url payload resp :
  prepare w prompt = Ok (Request url payload) ->
  http_post w url payload = Ok resp ->
  resp_ok resp = false ->
  generate_image w prompt msg_uuid (start cu)
  = (Ok tt,
     extend (start cu)
       [EPost url payload;
        EPrint (error_prefix +:+ "HTTP " +:+ string_of_Z (resp_status_code resp)
                +:+ ": " +:+ take 200 (resp_text resp));
        EShowLoading false])
  /\ (String.length (take 200 (resp_text resp)) <= 200)%nat.
Proof.
  intros Hp Hpost Hok. split; [| apply take_length].
  rewrite (run_respond w _ _ _ _ _ Hp). unfold try_except, respond, bind at 1.
  rewrite Hpost. simpl. rewrite Hok. simpl.
  rewrite show_error_message_run. reflexivity.
Qed.

(** X9.  When the answer is a base64 image, in a list or alone, that decodes,
    and no call raises, the run is: the request, the cache directory made, the
    cache file opened and written with the decoded bytes, then the widget set
    to load that same file.  No error line is printed. *)
Theorem X9_image_saved_then_shown prompt msg_uuid cu url payload resp data sh
    (img : pyval) (b64 bytes : string) :
  calm w ->
  prepare w prompt = Ok (Request url payload) ->
  http_post w url payload = Ok resp ->
  resp_ok resp = true ->
  resp_json resp = Ok data ->
  select_shape data = Some sh ->
  (sh = ImageList img \/ exists s, sh = SingleImage s /\ img = VStr s) ->
  strip_data_prefix img = Ok (VStr b64) ->
  b64decode w b64 = Ok bytes ->
  let c := cache_out w msg_uuid in
  generate_image w prompt msg_uuid (start cu)
  = (Ok tt,
     extend (start cu)
       [EPost url payload; EMakedirs (PosixPath.dirname c); EOpenWrite c;
        EWrite c bytes; EShowLoading true; ELoadFromPath c]).
Proof.
  intros Hcalm Hp Hpost Hok Hjson Hsel Hsh Hprefix Hdec c.
  rewrite (run_respond w _ _ _ _ _ Hp). unfold try_except.
  rewrite (respond_json w _ _ _ _ _ _ Hpost Hok Hjson).
  unfold interpret_response. rewrite Hsel.
  pose proof (save_then_show w c img b64 bytes (extend (start cu) [EPost url payload])
                Hcalm Hprefix Hdec) as Hrun.
  destruct Hsh as [-> | (s & -> & ->)]; unfold consume; fold c; rewrite Hrun;
    reflexivity.
Qed.

(** The file-path branch on a widget without URL: the path is loaded, and
    nothing is saved. *)
Lemma file_path_branch_new_widget path c st :
  current_url st = None ->
  exists l,
    trace (consume w (FilePath path) c st).2 = trace st ++ l
    /\ Forall (fun e => cache_target e = None) l.
Proof.
  intros Hnone. unfold consume, bind, try_except.
  destruct (set_image_from_path_trace w path st) as (l & El & Hl & Hu).
  exists l.
  assert (Fl : Forall (fun e => cache_target e = None) l)
    by (destruct Hl as [-> | ->]; repeat constructor).
  destruct (Widget.set_image_from_path w path st) as [[[] | x] st1]; simpl in *;
    [| by split].
  unfold Widget.download_and_save, bind, get_current_url. simpl.
  rewrite Hu, Hnone. simpl. by split.
Qed.

(** X10.  When the answer is a file path and the widget is new, nothing is
    saved in the cache: [download_and_save] finds no URL on the widget, raises,
    and the exception is dropped.  No event of the run has a path it saves to. *)
Theorem X10_file_path_not_cached prompt msg_uuid url payload resp data path (e : event) :
  prepare w prompt = Ok (Request url payload) ->
  http_post w url payload = Ok resp ->
  resp_ok resp = true ->
  resp_json resp = Ok data ->
  select_shape data = Some (FilePath path) ->
  e ∈ trace (generate_image w prompt msg_uuid fresh).2 ->
  cache_target e = None.
Proof.
  intros Hp Hpost Hok Hjson Hsel.
  rewrite (run_respond w _ _ _ _ _ Hp). unfold try_except.
  rewrite (respond_json w _ _ _ _ _ _ Hpost Hok Hjson).
  unfold interpret_response. rewrite Hsel.
  destruct (file_path_branch_new_widget path (cache_out w msg_uuid)
              (extend fresh [EPost url payload]) eq_refl) as (l & El & Fl).
  rewrite Forall_forall in Fl.
  destruct (consume w (FilePath path) (cache_out w msg_uuid)
              (extend fresh [EPost url payload])) as [[[] | x] st1]; simpl in El.
  - simpl. rewrite El. intros Hin.
    apply elem_of_cons in Hin as [-> | Hin]; [done | auto].
  - rewrite handler_run. simpl. rewrite El. simpl. intros Hin.
    apply elem_of_cons in Hin as [-> | Hin]; [done |].
    apply elem_of_app in Hin as [Hin | Hin]; [auto |].
    unfold report in Hin.
    repeat (apply elem_of_cons in Hin as [-> | Hin]; [reflexivity |]).
    by apply elem_of_nil in Hin.
Qed.

End Runs.

Lemma X7_at_most_one_request_witness :
  0%nat = 0%nat
  /\ prepare Examples.w_plain "a cat"
     = Ok (Request "http://localhost:7861/api/generate"
             (final_payload Examples.w_plain "a cat")).
Proof.
  apply (X7_at_most_one_request Examples.w_plain "a cat" None None 0).
  vm_compute. reflexivity.
Defined.

Lemma X8_http_error_line_witness :
  trace (generate_image Examples.w_500 "a cat" None (start None)).2
  = [EPost "http://localhost:7861/api/generate" (final_payload Examples.w_500 "a cat");
     EPrint "[LightDiffusionExtension] Error: HTTP 500: Internal Server Error";
     EShowLoading false].
Proof.
  destruct (X8_http_error_line Examples.w_500 "a cat" None None
              "http://localhost:7861/api/generate"
              (final_payload Examples.w_500 "a cat")
              {| resp_ok := false; resp_status_code := 500;
                 resp_text := "Internal Server Error"; resp_json := Ok VNone |})
    as [H _].
  - vm_compute. reflexivity.
  - reflexivity.
  - reflexivity.
  - rewrite H. reflexivity.
Defined.

Lemma X9_image_saved_then_shown_witness :
  trace (generate_image Examples2.w_single "a cat" (Some "m1") (start None)).2
  = [EPost "http://localhost:7861/api/generate" (final_payload Examples2.w_single "a cat");
     EMakedirs "/c"; EOpenWrite "/c/m1.png"; EWrite "/c/m1.png" "hi";
     EShowLoading true; ELoadFromPath "/c/m1.png"].
Proof.
  rewrite (X9_image_saved_then_shown Examples2.w_single "a cat" (Some "m1") None
             "http://localhost:7861/api/generate"
             (final_payload Examples2.w_single "a cat")
             {| resp_ok := true; resp_status_code := 200; resp_text := EmptyString;
                resp_json := Ok (VDict {["image" := VStr "data:image/png;base64,aGk="]}) |}
             (VDict {["image" := VStr "data:image/png;base64,aGk="]})
             (SingleImage "data:image/png;base64,aGk=")
             (VStr "data:image/png;base64,aGk=") "aGk=" "hi").
  - reflexivity.
  - intros tr. reflexivity.
  - vm_compute. reflexivity.
  - reflexivity.
  - reflexivity.
  - reflexivity.
  - vm_compute. reflexivity.
  - right. eexists. split; reflexivity.
  - vm_compute. reflexivity.
  - vm_compute. reflexivity.
Defined.

Lemma X10_file_path_not_cached_witness :
  cache_target (ELoadFromPath "/tmp/x.png") = None.
Proof.
  apply (X10_file_path_not_cached Examples.w_path "a cat" (Some "m1")
           "http://localhost:7861/api/generate"
           (final_payload Examples.w_path "a cat")
           {| resp_ok := true; resp_status_code := 200; resp_text := EmptyString;
              resp_json := Ok (VDict {["file_path" := VStr "/tmp/x.png"]}) |}
           (VDict {["file_path" := VStr "/tmp/x.png"]}) "/tmp/x.png").
  - vm_compute. reflexivity.
  - reflexivity.
  - reflexivity.
  - reflexivity.
  - vm_compute. reflexivity.
  - vm_compute. do 2 apply list_elem_of_further. apply list_elem_of_here.
Defined.

(* ===================================================================== *)
(** ** The overlay setting *)
(* ===================================================================== *)

Section Overlay.

Variable w : world.

Lemma overlay_empty (built : gmap string pyval) : overlay ∅ built = built.
Proof.
  apply map_eq. intros k. rewrite lookup_overlay, lookup_empty.
  by destruct (decide _).
Qed.

(** X11.  An [extra_payload] setting that is not JSON is ignored: the request
    goes to the default endpoint path with the body as built. *)
Theorem X11_unparsable_overlay_ignored prompt raw x url payload :
  setting w "extra_payload" = VStr raw ->
  raw <> EmptyString ->
  json_loads w raw = Raise x ->
  prepare w prompt = Ok (Request url payload) ->
  url = base_url w +:+ "/api/generate"
  /\ exists pos, positive w prompt = Ok pos
                 /\ payload = attach_extras w (build_payload w pos).
Proof.
  intros Hs Hne Hj Hp.
  assert (He : extra_payload w = VDict ∅).
  { unfold extra_payload, Py.por. rewrite Hs.
    destruct raw; [done |]. simpl. by rewrite Hj. }
  apply prepare_request in Hp as (d & pos & Ed & Hpos & -> & ->).
  rewrite He in Ed. inversion Ed; subst d. split.
  - unfold Py.dict_get. by rewrite lookup_empty.
  - exists pos. split; [done | apply overlay_empty].
Qed.

(** X12.  An [extra_payload] setting that is JSON but not an object stops the
    run before the request: the exception of [extra_payload.get] is caught,
    its text printed, and [show_loading(False)] called. *)
Theorem X12_non_object_overlay_aborts prompt msg_uuid cu raw v :
  setting w "extra_payload" = VStr raw ->
  raw <> EmptyString ->
  json_loads w raw = Ok v ->
  (forall d, v <> VDict d) ->
  exists x,
    generate_image w prompt msg_uuid (start cu)
    = (Ok tt, extend (start cu) [EPrintExc x; EPrint (error_prefix +:+ exn_str x);
                                 EShowLoading false]).
Proof.
  intros Hs Hne Hj Hv.
  assert (He : extra_payload w = v).
  { unfold extra_payload, Py.por. rewrite Hs.
    destruct raw; [done |]. simpl. by rewrite Hj. }
  assert (Hp : exists x, prepare w prompt = Raise x).
  { unfold prepare, rbind, endpoint_path. rewrite He.
    destruct v; eauto. by destruct (Hv d). }
  destruct Hp as [x Hp]. exists x. apply (body_raise w _ _ _ _ Hp).
Qed.

End Overlay.

Lemma X11_unparsable_overlay_ignored_witness :
  "http://localhost:7861/api/generate" = base_url Examples2.w_bad_json +:+ "/api/generate"
  /\ exists pos, positive Examples2.w_bad_json "a cat" = Ok pos
       /\ final_payload Examples2.w_bad_json "a cat"
          = attach_extras Examples2.w_bad_json (build_payload Examples2.w_bad_json pos).
Proof.
  apply (X11_unparsable_overlay_ignored Examples2.w_bad_json "a cat" "{oops"
           (ValueError "Expecting value")).
  - reflexivity.
  - discriminate.
  - vm_compute. reflexivity.
  - vm_compute. reflexivity.
Defined.

Lemma X12_non_object_overlay_aborts_witness :
  exists x,
    generate_image Examples2.w_json_list "a cat" None (start None)
    = (Ok tt, extend (start None) [EPrintExc x; EPrint (error_prefix +:+ exn_str x);
                                   EShowLoading false]).
Proof.
  apply (X12_non_object_overlay_aborts Examples2.w_json_list "a cat" None None
           "[1]" (VList [VInt 1])).
  - reflexivity.
  - discriminate.
  - vm_compute. reflexivity.
  - intros d. discriminate.
Defined.

(* ===================================================================== *)
(** ** What the body of the request holds *)
(* ===================================================================== *)

Section Body.

Variable w : world.

(** A lookup in the body, for a key the overlay does not set *)
Lemma lookup_body d pos k :
  extra_payload w = VDict d -> not_overlaid w k ->
  overlay d (attach_extras w (build_payload w pos)) !! k
  = attach_extras w (build_payload w pos) !! k.
Proof.
  intros Ed Hno. rewrite lookup_overlay, (Hno d Ed). by destruct (decide _).
Qed.

Lemma seed_int z : Py.int (setting w "seed") = Ok z -> seed w = z.
Proof.
  unfold seed. intros H. rewrite H.
  destruct (setting w "seed") as [| | | | s | |]; simpl in *; try done.
  destruct (String.eqb_spec s "") as [-> | _]; [done |].
  destruct (String.eqb_spec s "-1") as [-> | _]; [| done].
  vm_compute in H. by inversion H.
Qed.

Lemma steps_int z : Py.int (setting w "steps") = Ok z -> steps w = Some z.
Proof.
  unfold steps. intros H.
  destruct (setting w "steps"); try discriminate H; by rewrite H.
Qed.

Lemma guidance_scale_float f :
  Py.float (float_of_string w) (setting w "guidance_scale") = Ok f ->
  guidance_scale w = Some f.
Proof.
  unfold guidance_scale. intros H.
  destruct (setting w "guidance_scale"); try discriminate H; by rewrite H.
Qed.

(** X13.  A steps, guidance_scale or seed setting that reads as a number is
    sent as that number (a seed only when it is at least 0), unless the
    overlay sets the key: steps as [int(v)], guidance_scale as [float(v)]. *)
Theorem X13_readable_numbers_are_sent prompt url payload :
  prepare w prompt = Ok (Request url payload) ->
  (forall z, Py.int (setting w "steps") = Ok z -> not_overlaid w "steps" ->
     payload !! "steps" = Some (VInt z))
  /\ (forall f, Py.float (float_of_string w) (setting w "guidance_scale") = Ok f ->
        not_overlaid w "guidance_scale" ->
        payload !! "guidance_scale" = Some (VFloat f))
  /\ (forall z, Py.int (setting w "seed") = Ok z -> 0 <= z -> not_overlaid w "seed" ->
        payload !! "seed" = Some (VInt z)).
Proof.
  intros Hp. apply prepare_request in Hp as (d & pos & Ed & _ & _ & ->).
  split; [| split].
  - intros z Hz Hno. rewrite (lookup_body d pos _ Ed Hno).
    by rewrite lookup_attach_extras_steps, (steps_int z Hz).
  - intros f Hf Hno. rewrite (lookup_body d pos _ Ed Hno).
    by rewrite lookup_attach_extras_guidance, (guidance_scale_float f Hf).
  - intros z Hz Hpos Hno. rewrite (lookup_body d pos _ Ed Hno).
    rewrite lookup_attach_extras_seed, (seed_int z Hz).
    by destruct (Z.leb_spec 0 z); [| lia].
Qed.

(** X14.  A seed setting that reads as a negative integer is never sent.  For
    -1 the [reuse_seed] of the body is the reuse_seed toggle; for an integer
    below -1 it is [true], although no seed goes with it. *)
Theorem X14_negative_seed prompt url payload (z : Z) :
  prepare w prompt = Ok (Request url payload) ->
  Py.int (setting w "seed") = Ok z ->
  z < 0 ->
  not_overlaid w "seed" ->
  not_overlaid w "reuse_seed" ->
  payload !! "seed" = None
  /\ payload !! "reuse_seed"
     = Some (VBool (if z =? -1 then get_bool w "reuse_seed" false else true)).
Proof.
  intros Hp Hz Hneg Hno1 Hno2.
  apply prepare_request in Hp as (d & pos & Ed & _ & _ & ->). split.
  - rewrite (lookup_body d pos _ Ed Hno1).
    rewrite lookup_attach_extras_seed, (seed_int z Hz).
    destruct (Z.leb_spec 0 z); [lia |]. by rewrite lookup_build_payload.
  - rewrite (lookup_body d pos _ Ed Hno2).
    rewrite lookup_attach_extras_other by done.
    rewrite lookup_build_payload. simpl. rewrite (seed_int z Hz).
    by destruct (z =? -1).
Qed.

(** The guard and the body read the image-to-image toggle alike when it is
    unset or reads as a number. *)
Lemma guard_agrees_with_body :
  (setting w "img2img_enabled" = VNone
   \/ exists z, Py.int (setting w "img2img_enabled") = Ok z) ->
  get_bool w "img2img_enabled" false = img2img_enabled w.
Proof.
  unfold get_bool, img2img_enabled, Py.por.
  intros [-> | [z Hz]]; [reflexivity |].
  destruct (setting w "img2img_enabled") as [| b | n | f | s | |];
    try discriminate Hz.
  - by destruct b.
  - simpl. destruct (Z.eqb_spec n 0) as [-> | Hn]; simpl; [reflexivity |].
    by destruct (Z.eqb_spec n 0).
  - destruct f; try discriminate Hz; reflexivity.
  - destruct s as [| a s]; [discriminate Hz |].
    change (Py.truthy (VStr (String a s))) with true. cbv iota. by rewrite Hz.
Qed.

(** X15.  When the img2img_enabled setting is unset or reads as a number, a
    body that says [img2img_enabled = true] carries a source path that is a
    string with something other than whitespace in it (the overlay setting
    neither key). *)
Theorem X15_img2img_sent_with_source prompt url payload :
  prepare w prompt = Ok (Request url payload) ->
  (setting w "img2img_enabled" = VNone
   \/ exists z, Py.int (setting w "img2img_enabled") = Ok z) ->
  not_overlaid w "img2img_enabled" ->
  not_overlaid w "img2img_image" ->
  payload !! "img2img_enabled" = Some (VBool true) ->
  exists s, payload !! "img2img_image" = Some (VStr s) /\ strip s <> EmptyString.
Proof.
  intros Hp Hnum Hno1 Hno2.
  apply prepare_request_iff in Hp as (d & pos & img & Ed & _ & Himg & Hguard & _ & ->).
  rewrite (lookup_body d pos _ Ed Hno1), (lookup_body d pos _ Ed Hno2).
  rewrite !lookup_attach_extras_other by done.
  rewrite !lookup_build_payload. simpl.
  rewrite (guard_agrees_with_body Hnum). intros Hen.
  assert (Hen' : img2img_enabled w = true) by congruence. clear Hen.
  rewrite Hen' in Hguard. simpl in Hguard.
  unfold img2img_image, Py.por in Himg. unfold Py.por.
  destruct (Py.truthy (setting w "img2img_image")) eqn:Ht.
  - destruct (setting w "img2img_image"); try discriminate Himg.
    inversion Himg; subst img. exists s. split; [done |].
    intros E. by rewrite E in Hguard.
  - inversion Himg; subst img. discriminate Hguard.
Qed.

End Body.

Lemma X13_readable_numbers_are_sent_witness :
  final_payload Examples.w_seed "a cat" !! "seed" = Some (VInt 5).
Proof.
  destruct (X13_readable_numbers_are_sent Examples.w_seed "a cat"
              "http://localhost:7861/api/generate"
              (final_payload Examples.w_seed "a cat")) as (_ & _ & H).
  - vm_compute. reflexivity.
  - apply (H 5); [reflexivity | lia |].
    intros d Ed. vm_compute in Ed. inversion Ed. reflexivity.
Defined.

Lemma X14_negative_seed_witness :
  final_payload Examples2.w_seed_neg "a cat" !! "seed" = None
  /\ final_payload Examples2.w_seed_neg "a cat" !! "reuse_seed" = Some (VBool true).
Proof.
  apply (X14_negative_seed Examples2.w_seed_neg "a cat"
           "http://localhost:7861/api/generate"
           (final_payload Examples2.w_seed_neg "a cat") (-5)).
  - vm_compute. reflexivity.
  - reflexivity.
  - lia.
  - intros d Ed. vm_compute in Ed. inversion Ed. reflexivity.
  - intros d Ed. vm_compute in Ed. inversion Ed. reflexivity.
Defined.

Lemma X15_img2img_sent_with_source_witness :
  exists s, final_payload Examples2.w_img2img_ok "a cat" !! "img2img_image" = Some (VStr s)
            /\ strip s <> EmptyString.
Proof.
  apply (X15_img2img_sent_with_source Examples2.w_img2img_ok "a cat"
           "http://localhost:7861/api/generate").
  - vm_compute. reflexivity.
  - right. exists 1. reflexivity.
  - intros d Ed. vm_compute in Ed. inversion Ed. reflexivity.
  - intros d Ed. vm_compute in Ed. inversion Ed. reflexivity.
  - vm_compute. reflexivity.
Defined.

(* ===================================================================== *)
(** ** The prompt template *)
(* ===================================================================== *)

Lemma replace_go_cons (k : nat) (old new : string) (c : ascii) (r : string) :
  replace_go (S k) old new (String c r)
  = if String.prefix old (String c r)
    then new +:+ replace_go k old new (drop (String.length old) (String c r))
    else String c (replace_go k old new r).
Proof. reflexivity. Qed.

Lemma replace_go_nil (k : nat) (old new : string) :
  replace_go k old new EmptyString = EmptyString.
Proof. by destruct k. Qed.

Lemma contains_cons (sub : string) (c : ascii) (r : string) :
  contains sub (String c r) = String.prefix sub (String c r) || contains sub r.
Proof. reflexivity. Qed.

(** Nothing is replaced in a string without occurrence. *)
Lemma replace_go_absent (old new : string) (k : nat) (s : string) :
  contains old s = false -> replace_go k old new s = s.
Proof.
  revert s. induction k as [| k IH]; intros s H; [done |].
  destruct s as [| c r]; [done |].
  rewrite contains_cons in H. apply orb_false_elim in H as [H1 H2].
  by rewrite replace_go_cons, H1, (IH r H2).
Qed.

Lemma placeholder_needs_bracket (c : ascii) (r : string) :
  Ascii.eqb c "["%char = false -> String.prefix "[input]" (String c r) = false.
Proof.
  intros H. rewrite prefix_cons. destruct (ascii_dec "[" c) as [<- | _]; [done | done].
Qed.

Lemma no_bracket_no_placeholder (s : string) :
  has_bracket s = false -> contains "[input]" s = false.
Proof.
  induction s as [| c r IH]; [done |]. simpl has_bracket. intros H.
  apply orb_false_elim in H as [H1 H2].
  by rewrite contains_cons, (placeholder_needs_bracket c r H1), (IH H2).
Qed.

Lemma prefix_app (a b : string) : String.prefix a (a +:+ b) = true.
Proof.
  induction a as [| c a IH]; [apply prefix_nil |].
  rewrite append_cons, prefix_cons. by destruct (ascii_dec c c).
Qed.

(** Replacement below a prefix without bracket starts after the prefix. *)
Lemma replace_go_skip (new pre rest : string) (k : nat) :
  has_bracket pre = false ->
  replace_go (String.length pre + k) "[input]" new (pre +:+ rest)
  = pre +:+ replace_go k "[input]" new rest.
Proof.
  induction pre as [| c pre IH]; [done |]. simpl has_bracket. intros H.
  apply orb_false_elim in H as [H1 H2].
  rewrite append_cons. simpl String.length. simpl Nat.add.
  rewrite replace_go_cons, (placeholder_needs_bracket c _ H1), (IH H2).
  by rewrite append_cons.
Qed.

Lemma replace_around (new pre post : string) :
  has_bracket pre = false -> has_bracket post = false ->
  replace "[input]" new (pre +:+ "[input]" +:+ post) = pre +:+ new +:+ post.
Proof.
  intros Hpre Hpost. unfold replace.
  rewrite !append_length. simpl (String.length "[input]").
  replace (String.length pre + (7 + String.length post))%nat
    with (String.length pre + S (6 + String.length post))%nat by lia.
  rewrite (replace_go_skip new pre _ _ Hpre). f_equal.
  change ("[input]" +:+ post) with (String "[" ("input]" +:+ post)).
  rewrite replace_go_cons.
  change (String "[" ("input]" +:+ post)) with ("[input]" +:+ post).
  rewrite prefix_app. f_equal.
  change (drop (String.length "[input]") ("[input]" +:+ post)) with post.
  apply replace_go_absent. by apply no_bracket_no_placeholder.
Qed.

Section Template.

Variable w : world.

Lemma lookup_prompt d pos :
  extra_payload w = VDict d -> not_overlaid w "prompt" ->
  overlay d (attach_extras w (build_payload w pos)) !! "prompt" = Some (VStr pos).
Proof.
  intros Ed Hno. rewrite (lookup_body w d pos _ Ed Hno).
  rewrite lookup_attach_extras_other by done.
  by rewrite lookup_build_payload.
Qed.

(** X16.  With the positive-prompt setting unset or empty, the body carries
    the prompt as it is, also when the prompt itself holds the text
    [[input]]. *)
Theorem X16_default_template_sends_prompt prompt url payload :
  prepare w prompt = Ok (Request url payload) ->
  Py.truthy (setting w "positive-prompt") = false ->
  not_overlaid w "prompt" ->
  payload !! "prompt" = Some (VStr prompt).
Proof.
  intros Hp Ht Hno.
  apply prepare_request in Hp as (d & pos & Ed & Hpos & _ & ->).
  rewrite (lookup_prompt d pos Ed Hno).
  unfold positive, Py.por in Hpos. rewrite Ht in Hpos.
  change (replace "[input]" prompt "[input]") with (prompt +:+ EmptyString) in Hpos.
  rewrite append_nil_r in Hpos. congruence.
Qed.

(** X17.  With a positive-prompt template that does not hold [[input]], the
    body carries the template and the prompt is not sent. *)
Theorem X17_template_without_placeholder prompt (t : string) url payload :
  prepare w prompt = Ok (Request url payload) ->
  setting w "positive-prompt" = VStr t ->
  t <> EmptyString ->
  contains "[input]" t = false ->
  not_overlaid w "prompt" ->
  payload !! "prompt" = Some (VStr t).
Proof.
  intros Hp Hs Hne Hc Hno.
  apply prepare_request in Hp as (d & pos & Ed & Hpos & _ & ->).
  rewrite (lookup_prompt d pos Ed Hno).
  unfold positive, Py.por in Hpos. rewrite Hs in Hpos.
  destruct t as [| c t]; [done |]. simpl in Hpos.
  unfold replace in Hpos. rewrite (replace_go_absent _ _ _ _ Hc) in Hpos. congruence.
Qed.

(** X18.  With a template that holds [[input]] once, between two texts without
    bracket, the body carries the first text, the prompt, the second text; the
    prompt is put in as it is. *)
Theorem X18_template_around_prompt prompt (pre post : string) url payload :
  prepare w prompt = Ok (Request url payload) ->
  setting w "positive-prompt" = VStr (pre +:+ "[input]" +:+ post) ->
  has_bracket pre = false ->
  has_bracket post = false ->
  not_overlaid w "prompt" ->
  payload !! "prompt" = Some (VStr (pre +:+ prompt +:+ post)).
Proof.
  intros Hp Hs Hpre Hpost Hno.
  apply prepare_request in Hp as (d & pos & Ed & Hpos & _ & ->).
  rewrite (lookup_prompt d pos Ed Hno).
  unfold positive, Py.por in Hpos. rewrite Hs in Hpos.
  assert (Ht : Py.truthy (VStr (pre +:+ "[input]" +:+ post)) = true).
  { destruct pre; reflexivity. }
  rewrite Ht, (replace_around prompt pre post Hpre Hpost) in Hpos. congruence.
Qed.

End Template.

Lemma no_overlay_plain (settings : list (string * pyval)) (dir : string)
    (answer : res response) (k : string) :
  Ref.lookup_setting settings "extra_payload" = VNone ->
  not_overlaid (Ref.world_of settings dir answer) k.
Proof.
  intros H d Ed.
  assert (E : extra_payload (Ref.world_of settings dir answer) = VDict ∅).
  { unfold extra_payload, setting. cbn [get_setting Ref.world_of].
    rewrite H. reflexivity. }
  rewrite E in Ed. inversion Ed. apply lookup_empty.
Qed.

Lemma X16_default_template_sends_prompt_witness :
  final_payload Examples.w_plain "a [input] cat" !! "prompt" = Some (VStr "a [input] cat").
Proof.
  apply (X16_default_template_sends_prompt Examples.w_plain "a [input] cat"
           "http://localhost:7861/api/generate").
  - vm_compute. reflexivity.
  - reflexivity.
  - by apply no_overlay_plain.
Defined.

Lemma X17_template_without_placeholder_witness :
  final_payload Examples2.w_template_fixed "a dog" !! "prompt" = Some (VStr "a dog").
Proof.
  apply (X17_template_without_placeholder Examples2.w_template_fixed "a cat" "a dog"
           "http://localhost:7861/api/generate").
  - vm_compute. reflexivity.
  - reflexivity.
  - discriminate.
  - reflexivity.
  - by apply no_overlay_plain.
Defined.

Lemma X18_template_around_prompt_witness :
  final_payload Examples2.w_template "photo of a cat, 4k" !! "prompt"
  = Some (VStr ("photo of " +:+ "a cat" +:+ ", 4k")).
Proof.
  apply (X18_template_around_prompt Examples2.w_template "a cat" "photo of " ", 4k"
           "http://localhost:7861/api/generate").
  - vm_compute. reflexivity.
  - reflexivity.
  - reflexivity.
  - reflexivity.
  - by apply no_overlay_plain.
Defined.

(* ===================================================================== *)
(** ** More on the prompt extractor *)
(* ===================================================================== *)

(** X19.  What [_extract_prompt_from_block] returns has no whitespace at
    either end, whatever the block and the info string. *)
Theorem X19_extracted_prompt_is_stripped (codeblock lang : option string) :
  strip (_extract_prompt_from_block codeblock lang)
  = _extract_prompt_from_block codeblock lang.
Proof. apply extract_stripped. Qed.

Lemma strip_light_prefix s :
  strip s = s -> s <> EmptyString ->
  strip ("lightdiffusion " +:+ s) = "lightdiffusion " +:+ s.
Proof.
  intros Hs Hne. apply strip_fixed in Hs as [_ Hr].
  unfold strip, rstrip in *. rewrite rstrip_by_app, Hr.
  destruct s; [done |]. reflexivity.
Qed.

Section CleanPromptLight.

Variable p : string.
Hypothesis p_clean : clean p.

Lemma clean_fenced_light :
  _extract_prompt_from_block (Some p) (Some "lightdiffusion") = p.
Proof.
  destruct p_clean as (Hs & Ht & Hk & Hn).
  unfold _extract_prompt_from_block.
  change (default EmptyString (Some p)) with p. rewrite Hs.
  destruct p as [| a q] eqn:E; [reflexivity |].
  change (is_empty (String a q)) with false. rewrite andb_false_l.
  rewrite <- E in *. by apply from_body_fixed; [| | apply not_wrapped].
Qed.

Lemma clean_tagged_light :
  _extract_prompt_from_block (Some ("lightdiffusion " +:+ p)) (Some "lightdiffusion") = p.
Proof.
  destruct p_clean as (Hs & Ht & Hk & Hn).
  unfold _extract_prompt_from_block.
  change (default EmptyString (Some ("lightdiffusion " +:+ p)))
    with ("lightdiffusion " +:+ p).
  destruct (decide (p = EmptyString)) as [E | Hne]; [rewrite E; reflexivity |].
  rewrite (strip_light_prefix p Hs Hne).
  change (is_empty ("lightdiffusion " +:+ p)) with false. rewrite andb_false_l.
  unfold from_body, strip_ticks.
  rewrite (strip_light_prefix p Hs Hne).
  change (startswith ticks ("lightdiffusion " +:+ p)) with false.
  rewrite andb_false_l, (strip_light_prefix p Hs Hne).
  unfold strip_tags, tag_patterns. simpl fold_left.
  change (re_sub_tag "generateimage" ("lightdiffusion " +:+ p))
    with ("lightdiffusion " +:+ p).
  change (re_sub_tag "lightdiffusion" ("lightdiffusion " +:+ p)) with (lstrip p).
  rewrite (proj1 (strip_fixed p Hs)), Hk. exact Hs.
Qed.

Lemma clean_one_liner_light :
  _extract_prompt_from_block (Some EmptyString) (Some ("lightdiffusion " +:+ p)) = p.
Proof.
  destruct p_clean as (Hs & Ht & Hk & Hn).
  unfold _extract_prompt_from_block.
  change (default EmptyString (Some ("lightdiffusion " +:+ p)))
    with ("lightdiffusion " +:+ p).
  change (default EmptyString (Some EmptyString)) with EmptyString.
  destruct (decide (p = EmptyString)) as [E | Hne]; [rewrite E; reflexivity |].
  rewrite (strip_light_prefix p Hs Hne).
  change (strip EmptyString) with EmptyString.
  change (is_empty EmptyString && negb (is_empty ("lightdiffusion " +:+ p))) with true.
  unfold from_info, tag_patterns, first_prompt, re_match_prompt.
  change (match_tag "generateimage" ("lightdiffusion " +:+ p)) with (@None string).
  change (match_tag "lightdiffusion" ("lightdiffusion " +:+ p))
    with (Some (String " " p)).
  cbv beta iota.
  change (lstrip (skip_punct (String " " p))) with (lstrip p).
  rewrite (proj1 (strip_fixed p Hs)).
  unfold dot_star_end. rewrite Hn. cbv beta iota.
  change (negb false) with true. cbv beta iota. exact Hs.
Qed.

End CleanPromptLight.

(** X20.  For each language the extension registers and each of the three
    forms of a block, a prompt without whitespace at its ends, that starts
    with no tag and no backticks and holds no newline, is returned as it is. *)
Theorem X20_clean_prompt_returned (tag : string) (sh : input_shape) (p : string) :
  tag ∈ get_replace_codeblocks_langs ->
  clean p ->
  _extract_prompt_from_block (tagged_input sh tag p).1 (tagged_input sh tag p).2 = p.
Proof.
  intros Htag Hclean. unfold get_replace_codeblocks_langs in Htag.
  apply elem_of_cons in Htag as [-> | Htag].
  - destruct Hclean as (Hs & Ht & Hk & Hn).
    change (extract_shape sh p = p).
    by apply clean_prompt_extracted.
  - apply elem_of_cons in Htag as [-> | Htag]; [| by apply elem_of_nil in Htag].
    destruct sh; cbn [tagged_input fst snd].
    + by apply clean_fenced_light.
    + by apply clean_one_liner_light.
    + by apply clean_tagged_light.
Qed.

Lemma X20_clean_prompt_returned_witness :
  _extract_prompt_from_block (tagged_input OneLiner "lightdiffusion" "a cat").1
    (tagged_input OneLiner "lightdiffusion" "a cat").2 = "a cat".
Proof.
  apply (X20_clean_prompt_returned "lightdiffusion" OneLiner "a cat").
  - unfold get_replace_codeblocks_langs. apply list_elem_of_further, list_elem_of_here.
  - repeat split; try reflexivity.
    intros tag Htag. unfold tag_patterns in Htag.
    repeat (apply elem_of_cons in Htag as [-> | Htag]; [reflexivity |]).
    by apply elem_of_nil in Htag.
Defined.

(** X21.  A text that starts with a registered tag followed at once by a word
    character (a longer word, as in [generateimages]) does not start with a
    tag for the extractor: it is returned whole. *)
Theorem X21_longer_word_is_kept (tag : string) (c : ascii) (rest : string) :
  tag ∈ get_replace_codeblocks_langs ->
  py_isword c = true ->
  strip (tag +:+ String c rest) = tag +:+ String c rest ->
  extract_again (tag +:+ String c rest) = tag +:+ String c rest.
Proof.
  intros Htag Hc Hs. unfold get_replace_codeblocks_langs in Htag.
  apply extract_again_fixed; [done | |].
  - intros tag' Htag'. unfold tag_patterns in Htag'.
    apply elem_of_cons in Htag as [-> | Htag];
      [| apply elem_of_cons in Htag as [-> | Htag]; [| by apply elem_of_nil in Htag]];
    (apply elem_of_cons in Htag' as [-> | Htag'];
      [| apply elem_of_cons in Htag' as [-> | Htag']; [| by apply elem_of_nil in Htag']]);
    unfold match_tag.
    + change (match_ci "generateimage" ("generateimage" +:+ String c rest))
        with (Some (String c rest)).
      cbv beta iota. unfold at_word_boundary. by rewrite Hc.
    + reflexivity.
    + reflexivity.
    + change (match_ci "lightdiffusion" ("lightdiffusion" +:+ String c rest))
        with (Some (String c rest)).
      cbv beta iota. unfold at_word_boundary. by rewrite Hc.
  - apply not_wrapped.
    apply elem_of_cons in Htag as [-> | Htag]; [reflexivity |].
    apply elem_of_cons in Htag as [-> | Htag]; [reflexivity |].
    by apply elem_of_nil in Htag.
Qed.

Lemma X21_longer_word_is_kept_witness :
  extract_again ("generateimage" +:+ String "s" " of cats") = "generateimage" +:+ String "s" " of cats".
Proof.
  apply (X21_longer_word_is_kept "generateimage" "s" " of cats").
  - apply list_elem_of_here.
  - reflexivity.
  - reflexivity.
Defined.

(* ===================================================================== *)
(** ** [_save_base64_png] *)
(* ===================================================================== *)

Lemma contains_comma (s : string) : contains "," s = has_comma s.
Proof.
  induction s as [| c r IH]; [done |].
  rewrite contains_cons, prefix_cons, prefix_nil, IH. simpl has_comma.
  destruct (ascii_dec "," c) as [<- | Hne]; [done |].
  destruct (Ascii.eqb_spec c ","); [congruence | done].
Qed.

Lemma has_comma_app (a b : string) : has_comma (a +:+ b) = has_comma a || has_comma b.
Proof.
  induction a as [| c a IH]; [done |].
  rewrite append_cons. simpl. rewrite IH. by rewrite orb_assoc.
Qed.

Lemma after_first_comma (a b : string) :
  has_comma a = false -> after_first ","%char (a +:+ "," +:+ b) = b.
Proof.
  induction a as [| c a IH]; [done |]. simpl has_comma. intros H.
  apply orb_false_elim in H as [H1 H2].
  rewrite append_cons. simpl. by rewrite H1, (IH H2).
Qed.

Lemma data_header_stripped (media b : string) :
  startswith "data:" (strip (data_header media +:+ b)) = true.
Proof.
  unfold data_header. rewrite !append_assoc.
  unfold strip, rstrip. rewrite rstrip_by_app.
  destruct (is_empty (rstrip_by py_isspace (media +:+ "," +:+ b))); [reflexivity |].
  set (y := rstrip_by py_isspace (media +:+ "," +:+ b)).
  change (lstrip ("data:" +:+ y)) with ("data:" +:+ y).
  apply prefix_app.
Qed.

Section SaveBase64.

Variable w : world.

(** X22.  [_save_base64_png] opens the cache file before it decodes the data:
    when the data is not base64 (and no file-system call raises), the
    directory has been made and the file opened for writing, nothing is
    written to it, and the decoder's exception is raised. *)
Theorem X22_failed_decode_leaves_open_file (img : pyval) (b64 : string)
    (c : string) (st : state) (x : exn) :
  calm w ->
  strip_data_prefix img = Ok (VStr b64) ->
  b64decode w b64 = Raise x ->
  _save_base64_png w img c st
  = (Raise x, extend st [EMakedirs (PosixPath.dirname c); EOpenWrite c]).
Proof.
  intros Hcalm Hprefix Hdec.
  unfold _save_base64_png, bind, call, lift, extend. rewrite Hprefix.
  cbn [ret throw trace current_url fst snd decode].
  repeat (rewrite ?Hcalm, ?Hdec; cbn [ret throw trace current_url fst snd]).
  rewrite <- !app_assoc. reflexivity.
Qed.

(** X23.  A [data:] header before the base64 text changes nothing: with a
    header whose media type holds no comma, before a text that does not itself
    start with [data:], the run is the run on the text alone. *)
Theorem X23_data_header_is_dropped (media b : string) (c : string) (st : state) :
  has_comma media = false ->
  startswith "data:" (strip b) = false ->
  _save_base64_png w (VStr (data_header media +:+ b)) c st
  = _save_base64_png w (VStr b) c st.
Proof.
  intros Hm Hb.
  assert (H1 : strip_data_prefix (VStr (data_header media +:+ b)) = Ok (VStr b)).
  { assert (Eq : data_header media +:+ b = ("data:" +:+ media) +:+ "," +:+ b)
      by (unfold data_header; by rewrite !append_assoc).
    assert (Hh : has_comma ("data:" +:+ media) = false)
      by (by rewrite has_comma_app, Hm).
    unfold strip_data_prefix.
    rewrite contains_comma, data_header_stripped, Eq, has_comma_app, Hh.
    change (has_comma ("," +:+ b)) with true. cbn [orb andb].
    by rewrite (after_first_comma _ b Hh). }
  assert (H2 : strip_data_prefix (VStr b) = Ok (VStr b)).
  { unfold strip_data_prefix. by rewrite Hb, andb_false_r. }
  unfold _save_base64_png. by rewrite H1, H2.
Qed.

End SaveBase64.

Lemma X22_failed_decode_leaves_open_file_witness :
  _save_base64_png Examples2.w_bad_b64 (VStr "a") "/c/m1.png" (start None)
  = (Raise (Failure "Incorrect padding"),
     extend (start None) [EMakedirs (PosixPath.dirname "/c/m1.png"); EOpenWrite "/c/m1.png"]).
Proof.
  apply (X22_failed_decode_leaves_open_file Examples2.w_bad_b64 (VStr "a") "a").
  - intros tr. reflexivity.
  - reflexivity.
  - reflexivity.
Defined.

Lemma X23_data_header_is_dropped_witness :
  _save_base64_png Examples.w_plain (VStr (data_header "image/png;base64" +:+ "aGk="))
    "/c/m1.png" (start None)
  = _save_base64_png Examples.w_plain (VStr "aGk=") "/c/m1.png" (start None).
Proof.
  apply (X23_data_header_is_dropped Examples.w_plain "image/png;base64" "aGk=");
    reflexivity.
Defined.

(* ===================================================================== *)
(** ** The path of a saved image *)
(* ===================================================================== *)

Lemma lower_app (a b : string) : lower (a +:+ b) = lower a +:+ lower b.
Proof.
  induction a as [| c a IH]; [done |].
  rewrite append_cons. simpl. by rewrite IH, append_cons.
Qed.

Lemma endswith_cons (p : string) (c : ascii) (r : string) :
  endswith p (String c r) = String.eqb (String c r) p || endswith p r.
Proof. reflexivity. Qed.

Lemma endswith_app (a p : string) : endswith p (a +:+ p) = true.
Proof.
  induction a as [| c a IH].
  - rewrite append_nil_l. destruct p as [| d p]; [done |].
    by rewrite endswith_cons, String.eqb_refl.
  - by rewrite append_cons, endswith_cons, IH, orb_true_r.
Qed.

(** X24.  The path [on_save_response] saves to always ends with [.png], in
    any letter case, and a path that already does is kept as it is: applying
    the rule twice changes nothing more. *)
Theorem X24_saved_path_ends_with_png (file_path : string) :
  endswith ".png" (lower (png_path file_path)) = true
  /\ png_path (png_path file_path) = png_path file_path.
Proof.
  assert (H : endswith ".png" (lower (png_path file_path)) = true).
  { unfold png_path. destruct (endswith ".png" (lower file_path)) eqn:E; [exact E |].
    simpl. rewrite lower_app. apply endswith_app. }
  split; [exact H |].
  unfold png_path at 1. by rewrite H.
Qed.

(* ===================================================================== *)
(** ** The cache directory *)
(* ===================================================================== *)

Lemma generated_images_no_slash (a : string) :
  endswith "/" (a +:+ "generated_images") = false.
Proof.
  induction a as [| c a IH]; [reflexivity |].
  rewrite append_cons, endswith_cons, IH, orb_false_r.
  apply String.eqb_neq. intros H. inversion H as [[Hc Ha]].
  destruct a; discriminate Ha.
Qed.

Lemma init_cache_dir_shape (extension_path : string) :
  exists sep, init_cache_dir extension_path = (extension_path +:+ sep) +:+ "generated_images".
Proof.
  destruct (join_relative extension_path "generated_images" eq_refl) as (sep & E & _).
  exists sep. unfold init_cache_dir. by rewrite E, append_assoc.
Qed.

(** X25.  With the cache directory as [__init__] sets it, the cache file of a
    message (identifier not empty, not starting with a slash) is
    [<identifier>.png] directly in the directory [generated_images] of the
    extension path; its path starts with the extension path. *)
Theorem X25_cache_file_under_extension_path (w : world) (extension_path u : string) :
  cache_dir w = init_cache_dir extension_path ->
  u <> EmptyString ->
  startswith "/" u = false ->
  cache_out w (Some u) = init_cache_dir extension_path +:+ "/" +:+ u +:+ ".png"
  /\ startswith extension_path (cache_out w (Some u)) = true.
Proof.
  intros Hdir Hu Hrel.
  assert (E : cache_out w (Some u)
              = init_cache_dir extension_path +:+ "/" +:+ u +:+ ".png").
  { rewrite (cache_out_keyed w u Hu), Hdir.
    destruct (join_relative (init_cache_dir extension_path) (u +:+ ".png")) as (sep & -> & ->);
      [by rewrite startswith_slash_png |].
    destruct (init_cache_dir_shape extension_path) as (s & ->).
    rewrite generated_images_no_slash.
    by destruct (extension_path +:+ s). }
  split; [exact E |]. rewrite E.
  destruct (init_cache_dir_shape extension_path) as (s & ->).
  rewrite !append_assoc. apply prefix_app.
Qed.

Lemma X25_cache_file_under_extension_path_witness :
  cache_out (Ref.world_of [] "/ext/generated_images" Examples.list_answer) (Some "m1")
  = init_cache_dir "/ext" +:+ "/" +:+ "m1" +:+ ".png"
  /\ startswith "/ext"
       (cache_out (Ref.world_of [] "/ext/generated_images" Examples.list_answer) (Some "m1"))
     = true.
Proof.
  apply (X25_cache_file_under_extension_path
           (Ref.world_of [] "/ext/generated_images" Examples.list_answer) "/ext" "m1").
  - reflexivity.
  - discriminate.
  - reflexivity.
Defined.
